(** * Minimap widget of the whiteboard: coordinate mapping, preview refresh,
      visibility toggle.

    Shallow embedding of
      - packages/excalidraw/components/Minimap.tsx
      - packages/excalidraw/actions/actionToggleMinimap.tsx

    The component is a React function component.  Its props and hooks are
    made explicit: the host's element collection and application state, the
    component's own state ([useState]) and references ([useRef]) are fields
    of one record, and every callback becomes a function from that record to
    the next one. *)

From Stdlib Require Import PrimFloat.
From Stdlib Require Import QArith Qminmax Lqa Lia List Bool Arith Ascii String.
Import ListNotations.

Set Implicit Arguments.

(* ================================================================== *)
(** ** Numbers *)

(** A JavaScript [number], without rounding: a rational, one of the two
    infinities, or NaN.  Rounding error and the sign of zero are not
    modelled; every zero behaves as [+0]. *)
Module Num.

Inductive num : Type :=
| Fin (q : Q)
| PInf
| NInf
| NaN.

(** Same number.  [Fin] carries a fraction that need not be reduced, so
    two representations of one rational are identified. *)
Definition eqn (a b : num) : Prop :=
  match a, b with
  | Fin x, Fin y => x == y
  | PInf, PInf | NInf, NInf | NaN, NaN => True
  | _, _ => False
  end.

Definition finite (a : num) : bool :=
  match a with Fin _ => true | _ => false end.

(** Unary minus. *)
Definition neg (a : num) : num :=
  match a with
  | Fin x => Fin (- x)
  | PInf => NInf
  | NInf => PInf
  | NaN => NaN
  end.

(** [a + b]. *)
Definition add (a b : num) : num :=
  match a, b with
  | NaN, _ | _, NaN => NaN
  | Fin x, Fin y => Fin (x + y)
  | PInf, NInf | NInf, PInf => NaN
  | PInf, _ | _, PInf => PInf
  | NInf, _ | _, NInf => NInf
  end.

(** [a - b]. *)
Definition sub (a b : num) : num := add a (neg b).

(** Sign of a number that is not NaN. *)
Definition sgn (a : num) : comparison :=
  match a with
  | Fin x => 0 ?= x
  | PInf => Lt
  | NInf => Gt
  | NaN => Eq
  end.

(** The infinity whose sign is the product of the signs of [a] and [b];
    NaN when one of them is zero. *)
Definition signed_inf (a b : num) : num :=
  match sgn a, sgn b with
  | Eq, _ | _, Eq => NaN
  | Lt, Lt | Gt, Gt => PInf
  | _, _ => NInf
  end.

(** [a * b]. *)
Definition mul (a b : num) : num :=
  match a, b with
  | NaN, _ | _, NaN => NaN
  | Fin x, Fin y => Fin (x * y)
  | _, _ => signed_inf a b
  end.

(** [a / b].  A finite number divided by zero is an infinity of the sign
    of the dividend, and [0 / 0] is NaN. *)
Definition div (a b : num) : num :=
  match a, b with
  | NaN, _ | _, NaN => NaN
  | Fin x, Fin y =>
      if Qeq_bool y 0 then
        match 0 ?= x with Lt => PInf | Gt => NInf | Eq => NaN end
      else Fin (x / y)
  | Fin _, _ => Fin 0
  | _, Fin y => if Qeq_bool y 0 then a else signed_inf a b
  | _, _ => NaN
  end.

(** [a < b]; false as soon as one side is NaN. *)
Definition ltb (a b : num) : bool :=
  match a, b with
  | NaN, _ | _, NaN => false
  | Fin x, Fin y => match x ?= y with Lt => true | _ => false end
  | NInf, NInf | PInf, PInf => false
  | NInf, _ | _, PInf => true
  | _, _ => false
  end.

(** [a === b] on numbers. *)
Definition eqb (a b : num) : bool :=
  match a, b with
  | Fin x, Fin y => Qeq_bool x y
  | PInf, PInf | NInf, NInf => true
  | _, _ => false
  end.

(** [a <= b]. *)
Definition leb (a b : num) : bool := ltb a b || eqb a b.

(** [a > b]. *)
Definition gtb (a b : num) : bool := ltb b a.

Definition isNaN (a : num) : bool :=
  match a with NaN => true | _ => false end.

(** [Math.min(...)]: [Infinity] without arguments, NaN if one argument is
    NaN, the smallest argument otherwise. *)
Definition min2 (a b : num) : num :=
  if isNaN a || isNaN b then NaN else if ltb b a then b else a.

Definition Math_min (l : list num) : num := fold_left min2 l PInf.

(** [Math.max(...)]. *)
Definition max2 (a b : num) : num :=
  if isNaN a || isNaN b then NaN else if ltb a b then b else a.

Definition Math_max (l : list num) : num := fold_left max2 l NInf.

End Num.
Import Num.

Declare Scope num_scope.
Delimit Scope num_scope with num.
Bind Scope num_scope with num.
Infix "+" := add : num_scope.
Infix "-" := sub : num_scope.
Infix "*" := mul : num_scope.
Infix "/" := div : num_scope.
Notation "- a" := (neg a) : num_scope.
Infix "<?" := ltb : num_scope.
Infix "<=?" := leb : num_scope.
Infix ">?" := gtb (at level 70) : num_scope.
Infix "=n=" := eqn (at level 70, no associativity).

(** Numeric literals of the source. *)
Definition lit (z : Z) : num := Fin (inject_Z z).

(** A value that [c / w] takes for a constant [c > 0] and a finite [w]: a
    rational that is not zero, or [Infinity]. *)
Definition ratio_like (a : num) : Prop :=
  match a with
  | Fin x => ~ x == 0
  | PInf => True
  | _ => False
  end.

Open Scope num_scope.

(* ================================================================== *)
(** ** Data model *)

Definition MINIMAP_SIZE : num := lit 150.
Definition DEBOUNCE_DELAY : nat := 300.

Inductive Theme : Type := light | dark.

(** [{ x, y }] objects: [dragStartRef.current], [appState.minimapPosition]. *)
Record Point : Type := mkPoint { pt_x : num; pt_y : num }.

(** The fields of the host's [AppState] that the widget and the toggle
    action read or write.  [rest] stands for all the remaining fields. *)
Record AppState (Rest : Type) : Type := mkAppState {
  showMinimap : bool;
  minimapPosition : Point;
  scrollX : num;
  scrollY : num;
  zoom_value : num;          (* appState.zoom.value *)
  width : num;
  height : num;
  theme : Theme;
  rest : Rest
}.

(** An [HTMLCanvasElement], reduced to its dimensions. *)
Record Canvas : Type := mkCanvas { canvas_width : num; canvas_height : num }.

(** [getBoundingClientRect()] of the preview canvas. *)
Record DOMRect : Type := mkDOMRect { left : num; top : num }.

(** A mouse event.  [onHeader] is the outcome of
    [target.closest("[data-minimap-header]")] being non-null. *)
Record MouseEvent : Type := mkMouseEvent {
  clientX : num;
  clientY : num;
  onHeader : bool
}.

Record Window : Type := mkWindow { innerWidth : num; innerHeight : num }.

Record SceneBounds : Type := mkSceneBounds {
  minX : num;
  minY : num;
  maxX : num;
  maxY : num;
  bounds_width : num;
  bounds_height : num
}.

Record Rect : Type := mkRect {
  rect_x : num;
  rect_y : num;
  rect_width : num;
  rect_height : num
}.

(** What [getDimensions] hands to the export routine. *)
Record Dimensions : Type := mkDimensions {
  dim_width : num;
  dim_height : num;
  dim_scale : num
}.

(** The component instance: the values it receives from the host's hooks
    ([elements], [appState]), its [useState] cell and its [useRef] cells. *)
Record Component (Element Rest : Type) : Type := mkComponent {
  elements : list Element;
  appState : AppState Rest;
  minimapCanvas : option Canvas;
  canvasRef : option DOMRect;   (* canvasRef.current?.getBoundingClientRect() *)
  debounceTimerRef : option nat;
  isDraggingRef : bool;
  isDraggingMinimapRef : bool;
  dragStartRef : Point
}.

(** The argument object of [exportToCanvas]. *)
Record ExportArgs (Element Rest : Type) : Type := mkExportArgs {
  export_elements : list Element;
  export_appState : AppState Rest;
  getDimensions : num -> num -> Dimensions;
  exportPadding : num
}.

(** Completion of a call: a value, or a thrown error. *)
Inductive Completion (A : Type) : Type :=
| Normal (a : A)
| Throw (error : string).
Arguments Throw {A} error.

(** What [updateMinimap] does to the outside, in order. *)
Inductive Effect (Element Rest : Type) : Type :=
| CallExportToCanvas (args : ExportArgs Element Rest)
| ConsoleWarn (msg : string)
| ConsoleError (msg : string) (error : string)
| SetMinimapCanvas (canvas : option Canvas).
Arguments ConsoleWarn {Element Rest} msg.
Arguments ConsoleError {Element Rest} msg error.
Arguments SetMinimapCanvas {Element Rest} canvas.

(** A pending [setTimeout]: its id, the time at which it is due, and the
    [updateMinimap] closure it was given, which has captured the
    [elements] and [appState] of the render that created it. *)
Record Timer (Element Rest : Type) : Type := mkTimer {
  timer_id : nat;
  due : nat;
  captured_elements : list Element;
  captured_appState : AppState Rest
}.

(** The browser's side of the timers: a clock in milliseconds, the next
    free timer id and the timers that are pending. *)
Record Browser (Element Rest : Type) : Type := mkBrowser {
  now : nat;
  next_id : nat;
  timers : list (Timer Element Rest)
}.

(** The widget mounted in a browser, with the record of the effects of the
    refreshes made so far, each with the time at which it happened. *)
Record System (Element Rest : Type) : Type := mkSystem {
  component : Component Element Rest;
  browser : Browser Element Rest;
  history : list (nat * Effect Element Rest)
}.

(** What the component returns: nothing ([null]), or the widget at its
    screen position. *)
Record Widget : Type := mkWidget {
  widget_left : num;
  widget_top : num
}.

(** The box that stands for the view of a collaborator: the [left], [top],
    [width] and [height] of its style. *)
Record Box : Type := mkBox {
  box_left : num;
  box_top : num;
  box_width : num;
  box_height : num
}.

(** Drawing commands issued on the preview canvas. *)
Inductive DrawCmd : Type :=
| ClearRect (x y w h : num)
| DrawImage (image : Canvas) (dx dy : num)
| FillRect (x y w h : num)
| StrokeRect (x y w h : num).

(* ================================================================== *)
(** ** Record updates *)

(** [{ ...appState, showMinimap: b }]. *)
Definition with_showMinimap {Rest} (b : bool) (a : AppState Rest) : AppState Rest :=
  mkAppState b (minimapPosition a) (scrollX a) (scrollY a) (zoom_value a)
             (width a) (height a) (theme a) (rest a).

(** [{ ...appState, scrollX: sx, scrollY: sy }]. *)
Definition with_scroll {Rest} (sx sy : num) (a : AppState Rest) : AppState Rest :=
  mkAppState (showMinimap a) (minimapPosition a) sx sy (zoom_value a)
             (width a) (height a) (theme a) (rest a).

(** [{ ...appState, minimapPosition: p }]. *)
Definition with_minimapPosition {Rest} (p : Point) (a : AppState Rest) : AppState Rest :=
  mkAppState (showMinimap a) p (scrollX a) (scrollY a) (zoom_value a)
             (width a) (height a) (theme a) (rest a).

Section ComponentUpdates.
Context {Element Rest : Type}.
Implicit Type c : Component Element Rest.

(** [setAppState(patch)]: the host merges the patch into its state, and
    the component reads the merged state at its next render. *)
Definition setAppState (patch : AppState Rest -> AppState Rest) c :=
  mkComponent (elements c) (patch (appState c)) (minimapCanvas c) (canvasRef c)
              (debounceTimerRef c) (isDraggingRef c) (isDraggingMinimapRef c)
              (dragStartRef c).

Definition setMinimapCanvas (canvas : option Canvas) c :=
  mkComponent (elements c) (appState c) canvas (canvasRef c)
              (debounceTimerRef c) (isDraggingRef c) (isDraggingMinimapRef c)
              (dragStartRef c).

Definition set_debounceTimerRef (t : option nat) c :=
  mkComponent (elements c) (appState c) (minimapCanvas c) (canvasRef c)
              t (isDraggingRef c) (isDraggingMinimapRef c) (dragStartRef c).

Definition set_isDraggingRef (b : bool) c :=
  mkComponent (elements c) (appState c) (minimapCanvas c) (canvasRef c)
              (debounceTimerRef c) b (isDraggingMinimapRef c) (dragStartRef c).

Definition set_isDraggingMinimapRef (b : bool) c :=
  mkComponent (elements c) (appState c) (minimapCanvas c) (canvasRef c)
              (debounceTimerRef c) (isDraggingRef c) b (dragStartRef c).

Definition set_dragStartRef (p : Point) c :=
  mkComponent (elements c) (appState c) (minimapCanvas c) (canvasRef c)
              (debounceTimerRef c) (isDraggingRef c) (isDraggingMinimapRef c) p.

(** The host hands the component a new element collection and a new
    application state. *)
Definition set_props (els : list Element) (a : AppState Rest) c :=
  mkComponent els a (minimapCanvas c) (canvasRef c)
              (debounceTimerRef c) (isDraggingRef c) (isDraggingMinimapRef c)
              (dragStartRef c).
End ComponentUpdates.

(* ================================================================== *)
(** ** Inputs that are finite numbers *)

Definition finite_point (p : Point) : bool :=
  finite (pt_x p) && finite (pt_y p).

Definition finite_event (e : MouseEvent) : bool :=
  finite (clientX e) && finite (clientY e).

Definition finite_domrect (r : DOMRect) : bool :=
  finite (left r) && finite (top r).

Definition finite_canvas (cv : Canvas) : bool :=
  finite (canvas_width cv) && finite (canvas_height cv).

Definition finite_window (w : Window) : bool :=
  finite (innerWidth w) && finite (innerHeight w).

Definition finite_bounds (sb : SceneBounds) : bool :=
  finite (minX sb) && finite (minY sb) && finite (maxX sb) && finite (maxY sb).

(** The scroll offsets and the size of the viewport are finite, and the
    zoom is finite and not zero. *)
Definition finite_appState {Rest} (a : AppState Rest) : bool :=
  finite (scrollX a) && finite (scrollY a) && finite (width a) && finite (height a)
  && finite (zoom_value a) && negb (eqb (zoom_value a) (lit 0)).

(** Two application states that differ at most in the scroll offsets. *)
Definition same_but_scroll {Rest} (a a' : AppState Rest) : Prop :=
  showMinimap a' = showMinimap a /\
  minimapPosition a' = minimapPosition a /\
  zoom_value a' = zoom_value a /\
  width a' = width a /\ height a' = height a /\
  theme a' = theme a /\ rest a' = rest a.

(** Two application states that differ at most in the position of the
    widget. *)
Definition same_but_position {Rest} (a a' : AppState Rest) : Prop :=
  showMinimap a' = showMinimap a /\
  scrollX a' = scrollX a /\ scrollY a' = scrollY a /\
  zoom_value a' = zoom_value a /\
  width a' = width a /\ height a' = height a /\
  theme a' = theme a /\ rest a' = rest a.

(** A preview cell that holds nothing, or a canvas of positive width and
    height. *)
Definition bitmap_valid (cell : option Canvas) : bool :=
  match cell with
  | None => true
  | Some cv => (canvas_width cv >? lit 0) && (canvas_height cv >? lit 0)
  end.

(** What no handler of the widget touches: the element collection, the
    bitmap, the mounted canvas and the timer reference. *)
Definition same_resources {Element Rest} (c c' : Component Element Rest) : Prop :=
  elements c' = elements c /\
  minimapCanvas c' = minimapCanvas c /\
  canvasRef c' = canvasRef c /\
  debounceTimerRef c' = debounceTimerRef c.

(* ================================================================== *)
(** ** actions/actionToggleMinimap.tsx *)

Module actionToggleMinimap.

Inductive CaptureUpdateAction : Type := IMMEDIATELY | NEVER | EVENTUALLY.

Record ActionResult (Rest : Type) : Type := mkActionResult {
  result_appState : AppState Rest;
  captureUpdate : CaptureUpdateAction
}.

Definition name : string := "toggleMinimap".

(** [checked: (appState) => appState.showMinimap] *)
Definition checked {Rest} (appState : AppState Rest) : bool :=
  showMinimap appState.

(** [perform(elements, appState)] *)
Definition perform {Element Rest} (elements : list Element)
           (appState : AppState Rest) : ActionResult Rest :=
  mkActionResult
    (with_showMinimap (negb (checked appState)) appState)
    EVENTUALLY.

(** [trackEvent.predicate: (appState) => !appState.showMinimap] *)
Definition trackEvent_predicate {Rest} (appState : AppState Rest) : bool :=
  negb (showMinimap appState).

End actionToggleMinimap.

(* ================================================================== *)
(** ** The monad of [updateMinimap]

    [updateMinimap] reads the values captured by its closure, writes the
    [minimapCanvas] state cell, calls the export routine and the console,
    and may be interrupted by an exception.  A computation takes the cell
    and returns a completion, the cell and the effects performed. *)

Section Eff.
Context {Element Rest : Type}.

Definition Eff (A : Type) : Type :=
  option Canvas -> Completion A * option Canvas * list (Effect Element Rest).

Definition ret {A} (a : A) : Eff A := fun cell => (Normal a, cell, []).

Definition bind {A B} (m : Eff A) (k : A -> Eff B) : Eff B :=
  fun cell =>
    match m cell with
    | (Normal a, cell1, l1) =>
        let '(r, cell2, l2) := k a cell1 in (r, cell2, l1 ++ l2)
    | (Throw e, cell1, l1) => (Throw e, cell1, l1)
    end.

(** [try { body } catch (error) { handler }] *)
Definition try_catch {A} (body : Eff A) (handler : string -> Eff A) : Eff A :=
  fun cell =>
    match body cell with
    | (Normal a, cell1, l1) => (Normal a, cell1, l1)
    | (Throw e, cell1, l1) =>
        let '(r, cell2, l2) := handler e cell1 in (r, cell2, l1 ++ l2)
    end.

Definition do_setMinimapCanvas (canvas : option Canvas) : Eff unit :=
  fun _ => (Normal tt, canvas, [SetMinimapCanvas canvas]).

Definition console_warn (msg : string) : Eff unit :=
  fun cell => (Normal tt, cell, [ConsoleWarn msg]).

Definition console_error (msg error : string) : Eff unit :=
  fun cell => (Normal tt, cell, [ConsoleError msg error]).

(** [await exportToCanvas(args)] for a given behaviour of the routine. *)
Definition await_export
           (exportToCanvas : ExportArgs Element Rest -> Completion (option Canvas))
           (args : ExportArgs Element Rest) : Eff (option Canvas) :=
  fun cell => (exportToCanvas args, cell, [CallExportToCanvas args]).
End Eff.

Notation "x <- m ;; k" := (bind m (fun x => k))
  (at level 61, m at next level, right associativity).
Notation "m ;;; k" := (bind m (fun _ => k))
  (at level 61, right associativity).

(** How many times the export routine was called in a list of effects. *)
Fixpoint export_calls {Element Rest} (l : list (Effect Element Rest)) : nat :=
  match l with
  | [] => 0
  | CallExportToCanvas _ :: l' => S (export_calls l')
  | _ :: l' => export_calls l'
  end.

(** Whether something was written to the console. *)
Fixpoint logged {Element Rest} (l : list (Effect Element Rest)) : bool :=
  match l with
  | [] => false
  | (ConsoleWarn _ | ConsoleError _ _) :: _ => true
  | _ :: l' => logged l'
  end.

(* ================================================================== *)
(** ** components/Minimap.tsx *)

Section Minimap.

(** [NonDeletedExcalidrawElement]. *)
Variable Element : Type.
(** The fields of [AppState] that the widget does not use. *)
Variable Rest : Type.
(** [getCommonBounds] of the element package: [[minX, minY, maxX, maxY]]. *)
Variable getCommonBounds : list Element -> num * num * num * num.
(** [exportToCanvas] of the package index: it resolves to a canvas (or to
    nothing), or it rejects. *)
Variable exportToCanvas : ExportArgs Element Rest -> Completion (option Canvas).

Implicit Type c : Component Element Rest.
Implicit Type b : Browser Element Rest.
Implicit Type s : System Element Rest.

(** [const sceneBounds = useMemo(...)], lines 41-51. *)
Definition sceneBounds (elements : list Element) : option SceneBounds :=
  if (List.length elements =? 0)%nat then None
  else
    let '(minX, minY, maxX, maxY) := getCommonBounds elements in
    let width := maxX - minX in
    let height := maxY - minY in
    Some (mkSceneBounds minX minY maxX maxY width height).

(** [const minimapScale = useMemo(...)], lines 53-60. *)
Definition minimapScale (elements : list Element) : num :=
  match sceneBounds elements with
  | None => lit 1
  | Some sceneBounds =>
      let scaleX := MINIMAP_SIZE / bounds_width sceneBounds in
      let scaleY := MINIMAP_SIZE / bounds_height sceneBounds in
      Math_min [scaleX; scaleY; lit 1]
  end.

(** The argument of [exportToCanvas] at lines 74-89. *)
Definition export_args (elements : list Element) (appState : AppState Rest)
           (sceneBounds : SceneBounds) : ExportArgs Element Rest :=
  mkExportArgs
    elements
    (with_scroll (- minX sceneBounds) (- minY sceneBounds) appState)
    (fun _ _ =>
       mkDimensions
         (Math_max [lit 1; bounds_width sceneBounds * minimapScale elements])
         (Math_max [lit 1; bounds_height sceneBounds * minimapScale elements])
         (minimapScale elements))
    (lit 0).

(** [const updateMinimap = useCallback(async () => ...)], lines 62-105.
    The closure has captured [elements] and [appState]; [sceneBounds] and
    [minimapScale] are functions of [elements]. *)
Definition updateMinimap (elements : list Element) (appState : AppState Rest)
  : Eff unit :=
  match sceneBounds elements with
  | None => do_setMinimapCanvas None
  | Some sb =>
      if (List.length elements =? 0)%nat
         || (bounds_width sb <=? lit 0)
         || (bounds_height sb <=? lit 0)
      then do_setMinimapCanvas None
      else
        try_catch
          (canvas <- await_export exportToCanvas (export_args elements appState sb) ;;
           match canvas with
           | Some cv =>
               if (canvas_width cv >? lit 0) && (canvas_height cv >? lit 0)
               then do_setMinimapCanvas (Some cv)
               else
                 console_warn "Minimap canvas has invalid dimensions:" ;;;
                 do_setMinimapCanvas None
           | None =>
               console_warn "Minimap canvas has invalid dimensions:" ;;;
               do_setMinimapCanvas None
           end)
          (fun error =>
             console_error "Failed to render minimap:" error ;;;
             do_setMinimapCanvas None)
  end.

(** The second definition of the component in the file (lines 484-967),
    which takes [isVisible] and [onToggle] as props.  Its [updateMinimap],
    lines 552-578. *)
Definition legacy_export_args (elements : list Element) (appState : AppState Rest)
           (sceneBounds : SceneBounds) : ExportArgs Element Rest :=
  mkExportArgs
    elements
    (with_scroll (- minX sceneBounds) (- minY sceneBounds) appState)
    (fun _ _ =>
       mkDimensions
         (bounds_width sceneBounds * minimapScale elements)
         (bounds_height sceneBounds * minimapScale elements)
         (minimapScale elements))
    (lit 0).

Definition legacy_updateMinimap (elements : list Element) (appState : AppState Rest)
  : Eff unit :=
  match sceneBounds elements with
  | None => ret tt
  | Some sb =>
      if (List.length elements =? 0)%nat then ret tt
      else
        try_catch
          (canvas <- await_export exportToCanvas
                       (legacy_export_args elements appState sb) ;;
           do_setMinimapCanvas canvas)
          (fun error => console_error "Failed to render minimap:" error)
  end.

(** *** Timers *)

Definition clearTimeout (id : nat) b : Browser Element Rest :=
  mkBrowser (now b) (next_id b)
            (filter (fun t => negb (timer_id t =? id)%nat) (timers b)).

(** [setTimeout(updateMinimap, delay)], for the [updateMinimap] of the
    render that has [elements] and [appState]. *)
Definition setTimeout (elements : list Element) (appState : AppState Rest)
           (delay : nat) b : nat * Browser Element Rest :=
  (next_id b,
   mkBrowser (now b) (S (next_id b))
             (timers b ++ [mkTimer (next_id b) (now b + delay)%nat elements appState])).

(** [const debouncedUpdate = useCallback(...)], lines 107-112.  A timer
    id is a number, and [if (debounceTimerRef.current)] holds for every
    number but 0. *)
Definition debouncedUpdate c b : Component Element Rest * Browser Element Rest :=
  let b1 :=
    match debounceTimerRef c with
    | Some id => if (id =? 0)%nat then b else clearTimeout id b
    | None => b
    end in
  let '(id, b2) := setTimeout (elements c) (appState c) DEBOUNCE_DELAY b1 in
  (set_debounceTimerRef (Some id) c, b2).

(** The effect of lines 114-128, run after a render in which one of its
    dependencies has changed. *)
Definition refreshEffect c b : Component Element Rest * Browser Element Rest :=
  if showMinimap (appState c) && (0 <? List.length (elements c))%nat then
    debouncedUpdate c b
  else if negb (showMinimap (appState c)) || (List.length (elements c) =? 0)%nat then
    (setMinimapCanvas None c, b)
  else (c, b).

(** *** Coordinate mapping *)

(** Scene to minimap, the expression of lines 143-150. *)
Definition toMinimap (sceneMin scale scenePoint : num) : num :=
  (scenePoint - sceneMin) * scale.

(** Minimap to scene, the expression of lines 183-184. *)
Definition toScene (sceneMin scale minimapPoint : num) : num :=
  minimapPoint / scale + sceneMin.

(** [const viewportRect = useMemo(...)], lines 130-158. *)
Definition viewportRect c : option Rect :=
  match minimapCanvas c, sceneBounds (elements c) with
  | Some _, Some sceneBounds =>
      let appState := appState c in
      let minimapScale := minimapScale (elements c) in
      let viewportWidth := width appState / zoom_value appState in
      let viewportHeight := height appState / zoom_value appState in
      let viewportMinX := - scrollX appState in
      let viewportMinY := - scrollY appState in
      let viewportMaxX := viewportMinX + viewportWidth in
      let viewportMaxY := viewportMinY + viewportHeight in
      let minimapViewportMinX := toMinimap (minX sceneBounds) minimapScale viewportMinX in
      let minimapViewportMinY := toMinimap (minY sceneBounds) minimapScale viewportMinY in
      let minimapViewportMaxX := toMinimap (minX sceneBounds) minimapScale viewportMaxX in
      let minimapViewportMaxY := toMinimap (minY sceneBounds) minimapScale viewportMaxY in
      Some (mkRect minimapViewportMinX
                   minimapViewportMinY
                   (minimapViewportMaxX - minimapViewportMinX)
                   (minimapViewportMaxY - minimapViewportMinY))
  | _, _ => None
  end.

(** The offset at which the preview bitmap is centred in the
    [MINIMAP_SIZE] square, lines 177-178 and 295-296. *)
Definition centeringOffset (bitmapSize : num) : num :=
  Math_max [lit 0; (MINIMAP_SIZE - bitmapSize) / lit 2].

(** [const handleCanvasMouseDown = useCallback(...)], lines 160-198. *)
Definition handleCanvasMouseDown (event : MouseEvent) c : Component Element Rest :=
  match minimapCanvas c, sceneBounds (elements c) with
  | Some minimapCanvas, Some sceneBounds =>
      let c1 := set_isDraggingRef true c in
      let c2 := set_dragStartRef (mkPoint (clientX event) (clientY event)) c1 in
      match canvasRef c2 with
      | None => c2
      | Some rect =>
          let appState := appState c in
          let minimapScale := minimapScale (elements c) in
          let clickX := clientX event - left rect in
          let clickY := clientY event - top rect in
          let offsetX := centeringOffset (canvas_width minimapCanvas) in
          let offsetY := centeringOffset (canvas_height minimapCanvas) in
          let adjustedClickX := clickX - offsetX in
          let adjustedClickY := clickY - offsetY in
          let sceneX := toScene (minX sceneBounds) minimapScale adjustedClickX in
          let sceneY := toScene (minY sceneBounds) minimapScale adjustedClickY in
          let viewportWidth := width appState / zoom_value appState in
          let viewportHeight := height appState / zoom_value appState in
          let newScrollX := - (sceneX - viewportWidth / lit 2) in
          let newScrollY := - (sceneY - viewportHeight / lit 2) in
          setAppState (with_scroll newScrollX newScrollY) c2
      end
  | _, _ => c
  end.

(** [const handleCanvasMouseMove = useCallback(...)], lines 200-225. *)
Definition handleCanvasMouseMove (event : MouseEvent) c : Component Element Rest :=
  if negb (isDraggingRef c) then c
  else
    match minimapCanvas c, sceneBounds (elements c) with
    | Some _, Some _ =>
        match canvasRef c with
        | None => c
        | Some _ =>
            let appState := appState c in
            let minimapScale := minimapScale (elements c) in
            let deltaX := clientX event - pt_x (dragStartRef c) in
            let deltaY := clientY event - pt_y (dragStartRef c) in
            let sceneDeltaX := deltaX / minimapScale in
            let sceneDeltaY := deltaY / minimapScale in
            let c1 :=
              setAppState (with_scroll (scrollX appState - sceneDeltaX)
                                       (scrollY appState - sceneDeltaY)) c in
            set_dragStartRef (mkPoint (clientX event) (clientY event)) c1
        end
    | _, _ => c
    end.

(** The callback of lines 200-225 as the render of the state [rendered]
    has created it, called when the component is in the state [c].  The
    values of its dependency list ([minimapCanvas], [sceneBounds],
    [minimapScale], [appState]) are those of [rendered]; the references
    are read when the call is made; and [setAppState] merges the two
    scroll offsets into the application state of [c].  Called on the state
    it has been created for, it is [handleCanvasMouseMove]. *)
Definition handleCanvasMouseMove_closure (rendered : Component Element Rest)
           (event : MouseEvent) c : Component Element Rest :=
  if negb (isDraggingRef c) then c
  else
    match minimapCanvas rendered, sceneBounds (elements rendered) with
    | Some _, Some _ =>
        match canvasRef c with
        | None => c
        | Some _ =>
            let appState := appState rendered in
            let minimapScale := minimapScale (elements rendered) in
            let deltaX := clientX event - pt_x (dragStartRef c) in
            let deltaY := clientY event - pt_y (dragStartRef c) in
            let sceneDeltaX := deltaX / minimapScale in
            let sceneDeltaY := deltaY / minimapScale in
            let c1 :=
              setAppState (with_scroll (scrollX appState - sceneDeltaX)
                                       (scrollY appState - sceneDeltaY)) c in
            set_dragStartRef (mkPoint (clientX event) (clientY event)) c1
        end
    | _, _ => c
    end.

(** [const handleCanvasMouseUp = useCallback(...)], lines 227-229; also
    the handler of [onMouseLeave]. *)
Definition handleCanvasMouseUp c : Component Element Rest :=
  set_isDraggingRef false c.

(** [const handleMinimapMouseDown = useCallback(...)], lines 231-275: the
    part that runs at the mouse-down.  It also installs the two document
    listeners below. *)
Definition handleMinimapMouseDown (event : MouseEvent) c : Component Element Rest :=
  if negb (onHeader event) then c
  else
    let c1 := set_isDraggingMinimapRef true c in
    set_dragStartRef
      (mkPoint (clientX event - pt_x (minimapPosition (appState c)))
               (clientY event - pt_y (minimapPosition (appState c))))
      c1.

(** [handleGlobalMouseMove], lines 245-263. *)
Definition handleGlobalMouseMove (window : Window) (e : MouseEvent) c
  : Component Element Rest :=
  if negb (isDraggingMinimapRef c) then c
  else
    let newX := clientX e - pt_x (dragStartRef c) in
    let newY := clientY e - pt_y (dragStartRef c) in
    let padding := lit 10 in
    let maxX := innerWidth window - lit 200 - padding in
    let maxY := innerHeight window - lit 200 - padding in
    setAppState
      (with_minimapPosition
         (mkPoint (Math_max [padding; Math_min [newX; maxX]])
                  (Math_max [padding; Math_min [newY; maxY]])))
      c.

(** [handleGlobalMouseUp], lines 265-269. *)
Definition handleGlobalMouseUp c : Component Element Rest :=
  set_isDraggingMinimapRef false c.

(** *** Rendering *)

(** What the component returns, lines 332-345. *)
Definition render c : option Widget :=
  if negb (showMinimap (appState c)) then None
  else if (List.length (elements c) =? 0)%nat then None
  else
    match minimapCanvas c with
    | None => None
    | Some minimapCanvas =>
        if eqb (canvas_width minimapCanvas) (lit 0)
           || eqb (canvas_height minimapCanvas) (lit 0)
        then None
        else Some (mkWidget (pt_x (minimapPosition (appState c)))
                            (pt_y (minimapPosition (appState c))))
    end.


(** The drawing effect of lines 277-317, on the mounted preview canvas
    ([MINIMAP_SIZE] in both directions).  [drawImage_throws] tells
    whether [ctx.drawImage] raises. *)
Definition drawEffect (drawImage_throws : bool) c : list DrawCmd :=
  match canvasRef c with
  | None => []
  | Some _ =>
      let clear := ClearRect (lit 0) (lit 0) MINIMAP_SIZE MINIMAP_SIZE in
      let indicator offsetX offsetY :=
        match viewportRect c with
        | None => []
        | Some viewportRect =>
            let rectX := rect_x viewportRect + offsetX in
            let rectY := rect_y viewportRect + offsetY in
            [FillRect rectX rectY (rect_width viewportRect) (rect_height viewportRect);
             StrokeRect rectX rectY (rect_width viewportRect) (rect_height viewportRect)]
        end in
      match minimapCanvas c with
      | Some minimapCanvas =>
          if (canvas_width minimapCanvas >? lit 0)
             && (canvas_height minimapCanvas >? lit 0)
          then
            let offsetX := centeringOffset (canvas_width minimapCanvas) in
            let offsetY := centeringOffset (canvas_height minimapCanvas) in
            if drawImage_throws then [clear]
            else clear :: DrawImage minimapCanvas offsetX offsetY
                       :: indicator offsetX offsetY
          else clear :: indicator (lit 0) (lit 0)
      | None => clear :: indicator (lit 0) (lit 0)
      end
  end.

(** *** Collaborators *)

(** [v || 0] for a number that may be missing: 0 when [v] is undefined, 0
    or NaN. *)
Definition or_zero (v : option num) : num :=
  match v with
  | Some x => if isNaN x || eqb x (lit 0) then lit 0 else x
  | None => lit 0
  end.

(** The box rendered for one collaborator, lines 428-476; [pointer] is
    [collaborator.pointer]. *)
Definition collaboratorBox (pointer : option Point) c : option Box :=
  match pointer, sceneBounds (elements c) with
  | Some pointer, Some sceneBounds =>
      let appState := appState c in
      let minimapScale := minimapScale (elements c) in
      let collabViewportMinX := - pt_x pointer in
      let collabViewportMinY := - pt_y pointer in
      let collabViewportMaxX :=
        collabViewportMinX + width appState / zoom_value appState in
      let collabViewportMaxY :=
        collabViewportMinY + height appState / zoom_value appState in
      let minimapCollabMinX := (collabViewportMinX - minX sceneBounds) * minimapScale in
      let minimapCollabMinY := (collabViewportMinY - minY sceneBounds) * minimapScale in
      let minimapCollabMaxX := (collabViewportMaxX - minX sceneBounds) * minimapScale in
      let minimapCollabMaxY := (collabViewportMaxY - minY sceneBounds) * minimapScale in
      let offsetX :=
        Math_max [lit 0;
                  (MINIMAP_SIZE - or_zero (option_map canvas_width (minimapCanvas c)))
                  / lit 2] in
      let offsetY :=
        Math_max [lit 0;
                  (MINIMAP_SIZE - or_zero (option_map canvas_height (minimapCanvas c)))
                  / lit 2] in
      Some (mkBox (minimapCollabMinX + offsetX + lit 8)
                  (minimapCollabMinY + offsetY + lit 8 + lit 24)
                  (minimapCollabMaxX - minimapCollabMinX)
                  (minimapCollabMaxY - minimapCollabMinY))
  | _, _ => None
  end.

(** *** The widget in the event loop *)

Definition set_now (t : nat) b : Browser Element Rest :=
  mkBrowser t (next_id b) (timers b).

Definition set_timers (l : list (Timer Element Rest)) b : Browser Element Rest :=
  mkBrowser (now b) (next_id b) l.

(** A timer that is due runs its [updateMinimap].  The component is
    rendered again with the new [minimapCanvas]; no dependency of the
    effect of lines 114-128 has changed, so that effect does not run. *)
Definition fire (t : Timer Element Rest) s : System Element Rest :=
  let '(_, cell, effects) :=
    updateMinimap (captured_elements t) (captured_appState t)
                  (minimapCanvas (component s)) in
  mkSystem (setMinimapCanvas cell (component s))
           (browser s)
           (history s ++ map (fun e => (due t, e)) effects).

Inductive Event : Type :=
| HostChange (elements : list Element) (appState : AppState Rest)
    (* the element collection or the application state has changed *)
| Elapse (dt : nat).
    (* [dt] milliseconds pass without such a change *)

Definition is_due (t_now : nat) (t : Timer Element Rest) : bool :=
  (due t <=? t_now)%nat.

Definition step (ev : Event) s : System Element Rest :=
  match ev with
  | HostChange elements appState =>
      let '(c, b) :=
        refreshEffect (set_props elements appState (component s)) (browser s) in
      mkSystem c b (history s)
  | Elapse dt =>
      let t_now := (now (browser s) + dt)%nat in
      let ready := filter (is_due t_now) (timers (browser s)) in
      let waiting := filter (fun t => negb (is_due t_now t)) (timers (browser s)) in
      fold_left (fun s t => fire t s) ready
                (mkSystem (component s)
                          (set_timers waiting (set_now t_now (browser s)))
                          (history s))
  end.

Definition run (evs : list Event) s : System Element Rest :=
  fold_left (fun s ev => step ev s) evs s.

(** The widget when it is mounted: nothing rendered yet, no timer. *)
Definition mount (elements : list Element) (appState : AppState Rest)
  : System Element Rest :=
  mkSystem
    (mkComponent elements appState None None None false false
                 (mkPoint (lit 0) (lit 0)))
    (mkBrowser 0 1 [])
    [].

(** A burst of changes: each one comes [dt] milliseconds after the one
    before. *)
Fixpoint burst (l : list (nat * (list Element * AppState Rest))) : list Event :=
  match l with
  | [] => []
  | (dt, (elements, appState)) :: l' =>
      Elapse dt :: HostChange elements appState :: burst l'
  end.

(** The states the mounted widget can be in. *)
Inductive reachable : System Element Rest -> Prop :=
| reachable_mount elements appState : reachable (mount elements appState)
| reachable_step ev s : reachable s -> reachable (step ev s).

(** What relates the pending timers to [debounceTimerRef]: timer ids are
    not 0, at most one timer is pending, and it is the one the reference
    holds. *)
Definition timers_inv s : Prop :=
  next_id (browser s) <> 0%nat /\
  (List.length (timers (browser s)) <= 1)%nat /\
  forall t, In t (timers (browser s)) ->
            debounceTimerRef (component s) = Some (timer_id t) /\ timer_id t <> 0%nat.

End Minimap.

Arguments HostChange {Element Rest} elements appState.
Arguments Elapse {Element Rest} dt.

(* ================================================================== *)
(** ** excalidraw-app/vite.config.mts: names of assets and chunks

    The two functions that the build configuration gives to the bundler.
    A string is a sequence of 8-bit characters. *)

Module ViteConfig.

Local Open Scope string_scope.

(** [s.startsWith(p)]. *)
Fixpoint startsWith (p s : string) : bool :=
  match p, s with
  | EmptyString, _ => true
  | String a p', String b s' => Ascii.eqb a b && startsWith p' s'
  | String _ _, EmptyString => false
  end.

(** The position of the first occurrence of [pat] in [s], counted from
    [i]. *)
Fixpoint indexOf_from (pat s : string) (i : nat) : option nat :=
  if startsWith pat s then Some i
  else
    match s with
    | EmptyString => None
    | String _ s' => indexOf_from pat s' (S i)
    end.

(** [s.indexOf(pat)]: the position of the first occurrence, or -1. *)
Definition indexOf (pat s : string) : Z :=
  match indexOf_from pat s 0 with
  | Some i => Z.of_nat i
  | None => (-1)%Z
  end.

(** [s.includes(pat)]. *)
Definition includes (pat s : string) : bool :=
  match indexOf_from pat s 0 with
  | Some _ => true
  | None => false
  end.

(** [s.endsWith(suffix)]. *)
Fixpoint endsWith (s suffix : string) : bool :=
  if String.eqb s suffix then true
  else
    match s with
    | EmptyString => false
    | String _ s' => endsWith s' suffix
    end.

(** [s.split(sep)[0]] for a separator of one character: what comes before
    the first separator, or all of [s]. *)
Fixpoint split_first (sep : ascii) (s : string) : string :=
  match s with
  | EmptyString => EmptyString
  | String a s' => if Ascii.eqb a sep then EmptyString else String a (split_first sep s')
  end.

Fixpoint drop (n : nat) (s : string) : string :=
  match n, s with
  | O, _ => s
  | S n', String _ s' => drop n' s'
  | S _, EmptyString => EmptyString
  end.

(** [s.substring(start)]: a negative start counts as 0, and a start
    beyond the end gives the empty string. *)
Definition substring_from (start : Z) (s : string) : string :=
  drop (Z.to_nat start) s.

(** The regular expressions of the file: alternatives of sequences of
    literal characters and [.]. *)
Inductive RegexChar : Type :=
| Lit (a : ascii)
| AnyChar.

Definition is_line_terminator (a : ascii) : bool :=
  Ascii.eqb a "010"%char || Ascii.eqb a "013"%char.

Definition matches_char (rc : RegexChar) (a : ascii) : bool :=
  match rc with
  | Lit b => Ascii.eqb a b
  | AnyChar => negb (is_line_terminator a)
  end.

(** The sequence matches a prefix of [s]. *)
Fixpoint matches_here (pat : list RegexChar) (s : string) : bool :=
  match pat, s with
  | [], _ => true
  | rc :: pat', String a s' => matches_char rc a && matches_here pat' s'
  | _ :: _, EmptyString => false
  end.

(** [s.match(re) !== null] for an expression without flags: one of the
    alternatives matches somewhere in [s]. *)
Fixpoint regex_found (alternatives : list (list RegexChar)) (s : string) : bool :=
  existsb (fun pat => matches_here pat s) alternatives
  || match s with
     | EmptyString => false
     | String _ s' => regex_found alternatives s'
     end.

Fixpoint literal (s : string) : list RegexChar :=
  match s with
  | EmptyString => []
  | String a s' => Lit a :: literal s'
  end.

(** [/en.json|percentages.json/] *)
Definition en_or_percentages : list (list RegexChar) :=
  [ (literal "en" ++ [AnyChar] ++ literal "json")%list;
    (literal "percentages" ++ [AnyChar] ++ literal "json")%list ].

(** [assetFileNames(chunkInfo)], lines 211-217 of the bundled
    configuration; [name] is [chunkInfo?.name]. *)
Definition assetFileNames (name : option string) : string :=
  match name with
  | Some name =>
      if endsWith name ".woff2" then
        let family := split_first "-" name in
        "fonts/" ++ family ++ "/[name][extname]"
      else "assets/[name]-[hash][extname]"
  | None => "assets/[name]-[hash][extname]"
  end.

(** [manualChunks(id)], lines 222-227; [None] is [undefined]. *)
Definition manualChunks (id : string) : option string :=
  if includes "packages/excalidraw/locales" id
     && negb (regex_found en_or_percentages id)
  then
    let index := indexOf "locales/" id in
    Some ("locales/" ++ substring_from (index + 8) id)
  else None.

(** [pat] occurs in [s] at the position [n] and at no earlier position. *)
Fixpoint first_at (pat s : string) (n : nat) {struct n} : bool :=
  match n with
  | O => startsWith pat s
  | S n' =>
      negb (startsWith pat s)
      && match s with
         | EmptyString => false
         | String _ s' => first_at pat s' n'
         end
  end.

(** No character of [s] is [a]. *)
Fixpoint without (a : ascii) (s : string) : bool :=
  match s with
  | EmptyString => true
  | String b s' => negb (Ascii.eqb b a) && without a s'
  end.

End ViteConfig.

(* ================================================================== *)
(** ** The scale in binary64 *)

(** The scale and the dimensions of the bitmap once more, in IEEE 754
    binary64 with rounding to nearest: the arithmetic of a JavaScript
    [number], where [Num] above computes without rounding. *)
Module Binary64.

Local Open Scope float_scope.

(** [Math.min] and [Math.max]: NaN when an argument is NaN, and [-0] is
    less than [+0]. *)
Definition min2 (a b : float) : float :=
  if PrimFloat.is_nan a || PrimFloat.is_nan b then nan
  else if b <? a then b
  else if a <? b then a
  else if PrimFloat.get_sign b then b else a.

Definition Math_min (l : list float) : float := fold_left min2 l infinity.

Definition max2 (a b : float) : float :=
  if PrimFloat.is_nan a || PrimFloat.is_nan b then nan
  else if a <? b then b
  else if b <? a then a
  else if PrimFloat.get_sign b then a else b.

Definition Math_max (l : list float) : float := fold_left max2 l neg_infinity.

Definition MINIMAP_SIZE : float := 150.

(** [minimapScale], lines 53-60, for scene bounds of the given width and
    height. *)
Definition minimapScale (width height : float) : float :=
  let scaleX := MINIMAP_SIZE / width in
  let scaleY := MINIMAP_SIZE / height in
  Math_min [scaleX; scaleY; 1].

(** [getDimensions], lines 82-86: width, height and scale. *)
Definition getDimensions (width height : float) : float * float * float :=
  (Math_max [1; width * minimapScale width height],
   Math_max [1; height * minimapScale width height],
   minimapScale width height).

(** The [n] integers from [from] on. *)
Fixpoint integers (n : nat) (from : float) : list float :=
  match n with
  | O => []
  | S n' => from :: integers n' (from + 1)
  end.

(** The dimensions are at least 1 and at most [bound], and the scale is
    in (0, 1]. *)
Definition within (bound : float) (d : float * float * float) : bool :=
  let '(w, h, s) := d in
  (1 <=? w) && (w <=? bound) && (1 <=? h) && (h <=? bound) && (0 <? s) && (s <=? 1).

(** 150 over the longer side, and 1 for a scene that fits the preview. *)
Definition preview_over_longer_side (width height : float) : float :=
  if max2 width height <=? MINIMAP_SIZE then 1
  else MINIMAP_SIZE / max2 width height.

End Binary64.

(* ================================================================== *)
(** ** Concrete scenes *)

Module Examples.

(** Elements are named by numbers; the application state has no other
    field. *)
Definition Element : Type := nat.
Definition Rest : Type := unit.

Definition q (n d : Z) : num := Fin (Qmake n (Z.to_pos d)).

(** A viewport of 800 by 600 at zoom 1, scrolled to the origin. *)
Definition appState0 : AppState Rest :=
  mkAppState true (mkPoint (lit 20) (lit 20)) (lit 0) (lit 0) (lit 1)
             (lit 800) (lit 600) light tt.

(** A scene of 300 by 600 with its corner at (10, 20). *)
Definition bounds_300x600 (_ : list Element) : num * num * num * num :=
  (lit 10, lit 20, lit 310, lit 620).

(** A thin scene: half a unit wide, 300 high. *)
Definition bounds_thin (_ : list Element) : num * num * num * num :=
  (lit 0, lit 0, q 1 2, lit 300).

(** A scene that has no extent: one point. *)
Definition bounds_point (_ : list Element) : num * num * num * num :=
  (lit 5, lit 5, lit 5, lit 5).

(** A scene that is 300 by 600 until its element 2 alone is left, which
    is one point. *)
Definition bounds_shrinking (els : list Element) : num * num * num * num :=
  match els with
  | [2%nat] => bounds_point els
  | _ => bounds_300x600 els
  end.

(** A scene of 292 by 100 with its corner at the origin. *)
Definition bounds_292x100 (_ : list Element) : num * num * num * num :=
  (lit 0, lit 0, lit 292, lit 100).

(** The same number, as a reduced fraction. *)
Definition reduced (a : num) : num :=
  match a with Fin x => Fin (Qred x) | _ => a end.

(** An export routine that returns a canvas of the dimensions it is
    asked for. *)
Definition export_ok (args : ExportArgs Element Rest) : Completion (option Canvas) :=
  let d := getDimensions args (lit 0) (lit 0) in
  Normal (Some (mkCanvas (reduced (dim_width d)) (reduced (dim_height d)))).

(** An export routine that throws. *)
Definition export_throws (_ : ExportArgs Element Rest) : Completion (option Canvas) :=
  Throw "out of memory".

(** An export routine that returns a canvas without extent. *)
Definition export_empty (_ : ExportArgs Element Rest) : Completion (option Canvas) :=
  Normal (Some (mkCanvas (lit 0) (lit 0))).

Definition rect0 : DOMRect := mkDOMRect (lit 0) (lit 0).

(** One element, the preview canvas mounted at the origin of the page. *)
Definition component0 (canvas : option Canvas) : Component Element Rest :=
  mkComponent [1%nat] appState0 canvas (Some rect0)
              None false false (mkPoint (lit 0) (lit 0)).

(** The bounds of the scene of 300 by 600, and the bitmap that
    [updateMinimap] asks for: 75 by 150 at the scale 1/4. *)
Definition sb_300x600 : SceneBounds :=
  mkSceneBounds (lit 10) (lit 20) (lit 310) (lit 620)
                (lit 310 - lit 10) (lit 620 - lit 20).

Definition canvas_75x150 : Canvas := mkCanvas (lit 75) (lit 150).

(** The bounds of the thin scene, and the bitmap that [updateMinimap]
    asks for: the scale is 1/2 and the scaled width, 1/4, is raised
    to 1. *)
Definition sb_thin : SceneBounds :=
  mkSceneBounds (lit 0) (lit 0) (q 1 2) (lit 300)
                (q 1 2 - lit 0) (lit 300 - lit 0).

Definition canvas_1x150 : Canvas := mkCanvas (lit 1) (lit 150).

(** A click in the middle of the preview square. *)
Definition click_center : MouseEvent := mkMouseEvent (lit 75) (lit 75) false.

Definition window_1024x768 : Window := mkWindow (lit 1024) (lit 768).

(** A window that is too small for the widget. *)
Definition window_200x150 : Window := mkWindow (lit 200) (lit 150).

(** The component in the middle of a drag of the preview that began at
    (75, 75). *)
Definition component_dragging : Component Element Rest :=
  mkComponent [1%nat] appState0 (Some canvas_75x150) (Some rect0)
              None true false (mkPoint (lit 75) (lit 75)).

(** The component in the middle of a drag by the header. *)
Definition component_header_dragging : Component Element Rest :=
  mkComponent [1%nat] appState0 (Some canvas_75x150) (Some rect0)
              None false true (mkPoint (lit 10) (lit 5)).

Definition move_to_80_70 : MouseEvent := mkMouseEvent (lit 80) (lit 70) false.

Definition move_to_90_40 : MouseEvent := mkMouseEvent (lit 90) (lit 40) false.

(** A mouse-down on the header of the widget. *)
Definition grab_header : MouseEvent := mkMouseEvent (lit 30) (lit 25) true.

(** The pointer of a collaborator. *)
Definition pointer0 : Point := mkPoint (lit (-40)) (lit 12).

(** The bounds of the scene that is one point. *)
Definition sb_point : SceneBounds :=
  mkSceneBounds (lit 5) (lit 5) (lit 5) (lit 5) (lit 5 - lit 5) (lit 5 - lit 5).

End Examples.

(* ================================================================== *)
(** ** Facts about numbers *)

Section NumFacts.
Implicit Types a b : num.

Lemma eqn_refl a : a =n= a.
Proof. destruct a; simpl; auto with qarith. Qed.

Lemma eqn_sym a b : a =n= b -> b =n= a.
Proof. destruct a, b; simpl; auto with qarith. Qed.

Lemma eqn_trans a b c : a =n= b -> b =n= c -> a =n= c.
Proof.
  destruct a, b, c; simpl; auto; try contradiction.
  intros H1 H2. now rewrite H1.
Qed.

Lemma ltb_Fin (x y : Q) : ltb (Fin x) (Fin y) = true <-> (x < y)%Q.
Proof.
  simpl. destruct (Qcompare_spec x y) as [H|H|H]; split; intros; try discriminate; auto.
  - rewrite H in *. exfalso. eapply Qlt_irrefl; eauto.
  - exfalso. eapply Qlt_irrefl. eapply Qlt_trans; eauto.
Qed.

Lemma ltb_Fin_false (x y : Q) : ltb (Fin x) (Fin y) = false <-> (y <= x)%Q.
Proof.
  split; intros H.
  - apply Qnot_lt_le. intros L. apply ltb_Fin in L. congruence.
  - destruct (ltb (Fin x) (Fin y)) eqn:E; auto. apply ltb_Fin in E. lra.
Qed.

Lemma eqb_Fin (x y : Q) : eqb (Fin x) (Fin y) = true <-> x == y.
Proof. simpl. apply Qeq_bool_iff. Qed.

Lemma leb_Fin (x y : Q) : leb (Fin x) (Fin y) = true <-> (x <= y)%Q.
Proof.
  unfold leb. rewrite orb_true_iff, ltb_Fin, eqb_Fin. split.
  - intros [H|H]; lra.
  - intros H. destruct (Qlt_le_dec x y); [left; auto | right; lra].
Qed.

Lemma gtb_Fin (x y : Q) : gtb (Fin x) (Fin y) = true <-> (y < x)%Q.
Proof. unfold gtb. apply ltb_Fin. Qed.

Lemma add_Fin (x y : Q) : Fin x + Fin y = Fin (x + y).
Proof. reflexivity. Qed.

Lemma sub_Fin (x y : Q) : Fin x - Fin y = Fin (x + - y).
Proof. reflexivity. Qed.

Lemma mul_Fin (x y : Q) : Fin x * Fin y = Fin (x * y).
Proof. reflexivity. Qed.

(** Division of finite numbers by a divisor that is not zero. *)
Lemma div_Fin (x y : Q) : ~ y == 0 -> Fin x / Fin y = Fin (x / y).
Proof.
  intros H. unfold div. destruct (Qeq_bool y 0) eqn:E; auto.
  apply Qeq_bool_iff in E. contradiction.
Qed.

Lemma div_Fin_zero (x y : Q) : y == 0 -> (0 < x)%Q -> Fin x / Fin y = PInf.
Proof.
  intros H L. unfold div. apply Qeq_bool_iff in H. rewrite H.
  destruct (Qcompare_spec 0 x) as [E|E|E]; auto; exfalso; lra.
Qed.

(** [Math.min] and [Math.max] of the arities used by the source. *)
Lemma Math_min_2 a b : Math_min [a; b] = min2 (min2 PInf a) b.
Proof. reflexivity. Qed.

Lemma Math_min_3 a b c : Math_min [a; b; c] = min2 (min2 (min2 PInf a) b) c.
Proof. reflexivity. Qed.

Lemma Math_max_2 a b : Math_max [a; b] = max2 (max2 NInf a) b.
Proof. reflexivity. Qed.

Lemma min2_PInf a : min2 PInf a = a.
Proof. destruct a; reflexivity. Qed.

Lemma max2_NInf a : max2 NInf a = a.
Proof. destruct a; reflexivity. Qed.

Lemma min2_Fin (x y : Q) :
  min2 (Fin x) (Fin y) = if ltb (Fin y) (Fin x) then Fin y else Fin x.
Proof. reflexivity. Qed.

Lemma max2_Fin (x y : Q) :
  max2 (Fin x) (Fin y) = if ltb (Fin x) (Fin y) then Fin y else Fin x.
Proof. reflexivity. Qed.

Lemma min2_isNaN a b :
  isNaN a = false -> isNaN b = false -> isNaN (min2 a b) = false.
Proof.
  intros Ha Hb. unfold min2. rewrite Ha, Hb. simpl.
  destruct (ltb b a); assumption.
Qed.

Lemma leb_refl a : isNaN a = false -> leb a a = true.
Proof.
  destruct a; simpl; intros; try discriminate; auto.
  apply leb_Fin. lra.
Qed.

(** On numbers that are not NaN the order is total. *)
Lemma ltb_false_leb a b :
  isNaN a = false -> isNaN b = false -> ltb b a = false -> leb a b = true.
Proof.
  destruct a, b; simpl; intros; try discriminate; auto.
  apply leb_Fin. now apply ltb_Fin_false.
Qed.

Lemma min2_leb_r a b :
  isNaN a = false -> isNaN b = false -> leb (min2 a b) b = true.
Proof.
  intros Ha Hb. unfold min2. rewrite Ha, Hb. simpl.
  destruct (ltb b a) eqn:E.
  - now apply leb_refl.
  - now apply ltb_false_leb.
Qed.

(** [Math.min] on finite numbers is the minimum of the rationals. *)
Lemma min2_Qmin (x y : Q) : min2 (Fin x) (Fin y) =n= Fin (Qmin x y).
Proof.
  rewrite min2_Fin. destruct (ltb (Fin y) (Fin x)) eqn:E; simpl eqn.
  - apply ltb_Fin in E. symmetry. apply Q.min_r. lra.
  - apply ltb_Fin_false in E. symmetry. now apply Q.min_l.
Qed.

Lemma min2_Fin_cases (x y : Q) :
  exists q, min2 (Fin x) (Fin y) = Fin q /\ q == Qmin x y /\ (q = x \/ q = y).
Proof.
  rewrite min2_Fin. destruct (ltb (Fin y) (Fin x)) eqn:E.
  - exists y. apply ltb_Fin in E. repeat split; auto.
    symmetry. apply Q.min_r. lra.
  - exists x. apply ltb_Fin_false in E. repeat split; auto.
    symmetry. now apply Q.min_l.
Qed.

Lemma max2_Fin_cases (x y : Q) :
  exists q, max2 (Fin x) (Fin y) = Fin q /\ q == Qmax x y /\ (q = x \/ q = y).
Proof.
  rewrite max2_Fin. destruct (ltb (Fin x) (Fin y)) eqn:E.
  - exists y. apply ltb_Fin in E. repeat split; auto.
    symmetry. apply Q.max_r. lra.
  - exists x. apply ltb_Fin_false in E. repeat split; auto.
    symmetry. now apply Q.max_l.
Qed.

End NumFacts.

(* ================================================================== *)
(** ** Properties *)

Section Properties.

Variable Element : Type.
Variable Rest : Type.
Variable getCommonBounds : list Element -> num * num * num * num.
Variable exportToCanvas : ExportArgs Element Rest -> Completion (option Canvas).

Implicit Type c : Component Element Rest.
Implicit Type s : System Element Rest.


(** *** Scene bounds and scale *)

Lemma sceneBounds_empty : sceneBounds getCommonBounds [] = None.
Proof. reflexivity. Qed.

Lemma sceneBounds_nonempty (els : list Element) minX minY maxX maxY :
  els <> [] ->
  getCommonBounds els = (minX, minY, maxX, maxY) ->
  sceneBounds getCommonBounds els =
    Some (mkSceneBounds minX minY maxX maxY (maxX - minX) (maxY - minY)).
Proof.
  intros Hne Hb. unfold sceneBounds.
  destruct els as [|e els]; [congruence|]. simpl. now rewrite Hb.
Qed.

Lemma sceneBounds_Some_nonempty (els : list Element) sb :
  sceneBounds getCommonBounds els = Some sb -> els <> [].
Proof. intros H ->. discriminate. Qed.

Lemma sceneBounds_Some_length (els : list Element) sb :
  sceneBounds getCommonBounds els = Some sb -> (List.length els =? 0)%nat = false.
Proof.
  intros H. destruct els; [discriminate | reflexivity].
Qed.

Lemma sceneBounds_extent (els : list Element) sb :
  sceneBounds getCommonBounds els = Some sb ->
  bounds_width sb = maxX sb - minX sb /\ bounds_height sb = maxY sb - minY sb.
Proof.
  unfold sceneBounds. destruct (List.length els =? 0)%nat; [discriminate|].
  destruct (getCommonBounds els) as [[[a b'] c'] d]. intros [= <-]. auto.
Qed.

Lemma ratio_not_NaN (w : num) : isNaN w = false -> isNaN (MINIMAP_SIZE / w) = false.
Proof.
  destruct w as [y| | |]; intros H; try discriminate; try reflexivity.
  unfold MINIMAP_SIZE, lit, div. destruct (Qeq_bool y 0); reflexivity.
Qed.

(** C1.  For a non-empty element collection whose bounds have width [w]
    and height [h], the minimap scale is
    [Math.min(MINIMAP_SIZE / w, MINIMAP_SIZE / h, 1)] with
    [MINIMAP_SIZE = 150]; it is at most 1 (for [w] and [h] that are
    numbers, not NaN); for positive [w] and [h] it is the rational
    [min (150/w) (150/h) 1].  For the empty collection the scale is 1. *)
Theorem minimapScale_min_of_ratios :
  (forall (els : list Element) minX minY maxX maxY,
      els <> [] ->
      getCommonBounds els = (minX, minY, maxX, maxY) ->
      let w := maxX - minX in
      let h := maxY - minY in
      MINIMAP_SIZE = Fin 150 /\
      minimapScale getCommonBounds els = Math_min [MINIMAP_SIZE / w; MINIMAP_SIZE / h; Fin 1] /\
      (isNaN w = false -> isNaN h = false -> (minimapScale getCommonBounds els <=? Fin 1) = true) /\
      (forall qw qh : Q,
          w = Fin qw -> h = Fin qh -> (0 < qw)%Q -> (0 < qh)%Q ->
          minimapScale getCommonBounds els =n= Fin (Qmin (Qmin (150 / qw) (150 / qh)) 1)))
  /\ minimapScale getCommonBounds [] = Fin 1.
Proof.
  split; [|reflexivity].
  intros els minX minY maxX maxY Hne Hb w h.
  assert (Hs : minimapScale getCommonBounds els = Math_min [MINIMAP_SIZE / w; MINIMAP_SIZE / h; Fin 1]).
  { unfold minimapScale. now rewrite (sceneBounds_nonempty Hne Hb). }
  split; [reflexivity|]. split; [exact Hs|]. split.
  - intros Hw Hh. rewrite Hs, Math_min_3, min2_PInf.
    apply min2_leb_r; [|reflexivity].
    apply min2_isNaN; now apply ratio_not_NaN.
  - intros qw qh Hw Hh Lw Lh. rewrite Hs, Math_min_3, min2_PInf, Hw, Hh.
    unfold MINIMAP_SIZE, lit.
    rewrite !div_Fin by lra.
    destruct (min2_Fin_cases (inject_Z 150 / qw) (inject_Z 150 / qh)) as (m & -> & Hm & _).
    eapply eqn_trans; [apply min2_Qmin|]. simpl.
    now rewrite Hm.
Qed.

Lemma ratio_like_div (qw : Q) : ratio_like (MINIMAP_SIZE / Fin qw).
Proof.
unfold MINIMAP_SIZE, lit, div.
destruct (Qeq_bool qw 0) eqn:E.
- reflexivity.
- simpl. apply Qeq_bool_neq in E. intros H. apply E.
  assert (D : inject_Z 150 / qw * qw == inject_Z 150) by (field; exact E).
  rewrite H in D. vm_compute in D. discriminate.
Qed.

Lemma ratio_like_min2 (a b : num) :
ratio_like a -> ratio_like b -> ratio_like (min2 a b).
Proof.
destruct a, b; simpl; try contradiction; auto.
intros Ha Hb. rewrite min2_Fin. destruct (ltb (Fin q0) (Fin q)); assumption.
Qed.

Lemma ratio_like_min2_one (a : num) :
ratio_like a -> exists q : Q, min2 a (Fin 1) = Fin q /\ ~ q == 0 /\ (q <= 1)%Q.
Proof.
destruct a as [x| | |]; simpl; try contradiction; intros H.
- rewrite min2_Fin. destruct (ltb (Fin 1) (Fin x)) eqn:E.
  + exists 1%Q. repeat split; lra.
  + exists x. apply ltb_Fin_false in E. repeat split; auto.
- exists 1%Q. repeat split; lra.
Qed.

(** For bounds of finite extent the scale is a rational that is at most 1
    and is not zero: dividing by it is division of rationals. *)
Lemma minimapScale_finite (els : list Element) sb :
sceneBounds getCommonBounds els = Some sb ->
finite (bounds_width sb) = true ->
finite (bounds_height sb) = true ->
exists q : Q, minimapScale getCommonBounds els = Fin q /\ ~ q == 0 /\ (q <= 1)%Q.
Proof.
intros Hsb Hw Hh. unfold minimapScale. rewrite Hsb.
destruct (bounds_width sb) as [qw| | |]; try discriminate.
destruct (bounds_height sb) as [qh| | |]; try discriminate.
rewrite Math_min_3, min2_PInf.
apply ratio_like_min2_one, ratio_like_min2; apply ratio_like_div.
Qed.

(** For bounds of positive extent the scale is positive, and the scaled
    scene fits into the [MINIMAP_SIZE] square. *)
Lemma minimapScale_positive (els : list Element) sb (qw qh : Q) :
sceneBounds getCommonBounds els = Some sb ->
bounds_width sb = Fin qw -> bounds_height sb = Fin qh ->
(0 < qw)%Q -> (0 < qh)%Q ->
exists q : Q,
  minimapScale getCommonBounds els = Fin q /\
  (0 < q)%Q /\ (q <= 1)%Q /\ (qw * q <= 150)%Q /\ (qh * q <= 150)%Q.
Proof.
intros Hsb Hw Hh Lw Lh. unfold minimapScale. rewrite Hsb, Hw, Hh.
rewrite Math_min_3, min2_PInf. unfold MINIMAP_SIZE, lit.
rewrite !div_Fin by lra.
assert (Ew : qw * (inject_Z 150 / qw) == 150) by (field; lra).
assert (Eh : qh * (inject_Z 150 / qh) == 150) by (field; lra).
assert (Pw : (0 < inject_Z 150 / qw)%Q).
{ apply Qlt_shift_div_l; [assumption|]. rewrite Qmult_0_l. reflexivity. }
assert (Ph : (0 < inject_Z 150 / qh)%Q).
{ apply Qlt_shift_div_l; [assumption|]. rewrite Qmult_0_l. reflexivity. }
set (rw := (inject_Z 150 / qw)%Q) in *. set (rh := (inject_Z 150 / qh)%Q) in *.
rewrite min2_Fin. destruct (ltb (Fin rh) (Fin rw)) eqn:E1;
  [apply ltb_Fin in E1 | apply ltb_Fin_false in E1].
all: cbv beta iota; rewrite min2_Fin.
all: match goal with |- context [ltb (Fin ?o) (Fin ?m)] =>
  destruct (ltb (Fin o) (Fin m)) eqn:E2;
  [apply ltb_Fin in E2; exists o | apply ltb_Fin_false in E2; exists m]
end.
all: change (inject_Z 1) with 1%Q in *.
all: (split; [reflexivity|]); repeat split; try lra; try nra.
Qed.

(** *** Coordinate mapping *)

(** C3.  For every scene point [p], every scene-bounds minimum [m] and
    every scale [s > 0], the forward mapping [(p - m) * s] followed by the
    inverse mapping [q / s + m] gives [p] back, in exact arithmetic. *)
Theorem toScene_toMinimap_roundtrip (p m s : Q) :
(0 < s)%Q ->
toMinimap (Fin m) (Fin s) (Fin p) = (Fin p - Fin m) * Fin s /\
(forall q : num, toScene (Fin m) (Fin s) q = q / Fin s + Fin m) /\
toScene (Fin m) (Fin s) (toMinimap (Fin m) (Fin s) (Fin p)) =n= Fin p.
Proof.
intros Hs. split; [reflexivity|]. split; [reflexivity|].
unfold toScene, toMinimap. simpl sub. simpl mul.
rewrite div_Fin by lra. simpl. field. lra.
Qed.

Lemma add_sub_cancel (x m : num) : finite x = true -> x + (m - x) =n= m.
Proof.
destruct x, m; simpl; intros; try discriminate; auto. lra.
Qed.

Lemma neg_neg_sub_add (p v : num) : finite v = true -> - - (p - v) + v =n= p.
Proof.
destruct p, v; simpl; intros; try discriminate; auto. lra.
Qed.

(** C4.  The viewport indicator is the image of the viewport under
    [minimapPoint = (scenePoint - sceneBoundsMin) * scale]: the corner
    [(-scrollX, -scrollY)] gives its origin, and the corner
    [(-scrollX + width/zoom, -scrollY + height/zoom)], mapped the same way,
    gives its far corner, which is the origin plus its width and height. *)
Theorem viewportRect_forward_image c canvas sb :
minimapCanvas c = Some canvas ->
sceneBounds getCommonBounds (elements c) = Some sb ->
let a := appState c in
let scale := minimapScale getCommonBounds (elements c) in
let cornerMinX := - scrollX a in
let cornerMinY := - scrollY a in
let cornerMaxX := - scrollX a + width a / zoom_value a in
let cornerMaxY := - scrollY a + height a / zoom_value a in
exists r : Rect,
  viewportRect getCommonBounds c = Some r /\
  rect_x r = (cornerMinX - minX sb) * scale /\
  rect_y r = (cornerMinY - minY sb) * scale /\
  rect_width r = (cornerMaxX - minX sb) * scale - rect_x r /\
  rect_height r = (cornerMaxY - minY sb) * scale - rect_y r /\
  (finite (rect_x r) = true ->
   rect_x r + rect_width r =n= (cornerMaxX - minX sb) * scale) /\
  (finite (rect_y r) = true ->
   rect_y r + rect_height r =n= (cornerMaxY - minY sb) * scale).
Proof.
intros Hc Hsb a scale cornerMinX cornerMinY cornerMaxX cornerMaxY.
unfold viewportRect. rewrite Hc, Hsb.
eexists. split; [reflexivity|]. cbn [rect_x rect_y rect_width rect_height].
unfold toMinimap. repeat split; try reflexivity; intros F; now apply add_sub_cancel.
Qed.

(** The indicator has a finite origin as soon as the scroll offsets and
    the bounds are finite. *)
Lemma viewportRect_finite c canvas sb r :
minimapCanvas c = Some canvas ->
sceneBounds getCommonBounds (elements c) = Some sb ->
finite (scrollX (appState c)) = true -> finite (scrollY (appState c)) = true ->
finite (minX sb) = true -> finite (minY sb) = true ->
finite (maxX sb) = true -> finite (maxY sb) = true ->
viewportRect getCommonBounds c = Some r ->
finite (rect_x r) = true /\ finite (rect_y r) = true.
Proof.
intros Hc Hsb Fsx Fsy Fx Fy FX FY.
destruct (sceneBounds_extent _ Hsb) as [Ew Eh].
destruct (@minimapScale_finite (elements c) sb Hsb) as (q & Hq & _).
{ rewrite Ew. destruct (maxX sb), (minX sb); try discriminate; reflexivity. }
{ rewrite Eh. destruct (maxY sb), (minY sb); try discriminate; reflexivity. }
unfold viewportRect. rewrite Hc, Hsb, Hq. intros [= <-].
cbn [rect_x rect_y]. unfold toMinimap.
destruct (scrollX (appState c)), (scrollY (appState c)), (minX sb), (minY sb);
  try discriminate; split; reflexivity.
Qed.

(** The indicator is painted at its origin moved by the offset at which
    the bitmap is painted: relative to the bitmap it is the forward image
    of the viewport. *)
Lemma drawEffect_indicator c canvas rect r :
minimapCanvas c = Some canvas ->
canvasRef c = Some rect ->
(canvas_width canvas >? lit 0) = true ->
(canvas_height canvas >? lit 0) = true ->
viewportRect getCommonBounds c = Some r ->
let offsetX := centeringOffset (canvas_width canvas) in
let offsetY := centeringOffset (canvas_height canvas) in
drawEffect getCommonBounds false c =
  [ClearRect (lit 0) (lit 0) MINIMAP_SIZE MINIMAP_SIZE;
   DrawImage canvas offsetX offsetY;
   FillRect (rect_x r + offsetX) (rect_y r + offsetY) (rect_width r) (rect_height r);
   StrokeRect (rect_x r + offsetX) (rect_y r + offsetY) (rect_width r) (rect_height r)].
Proof.
intros Hc Hr Hw Hh Hv. unfold drawEffect. rewrite Hr, Hc, Hw, Hh, Hv. reflexivity.
Qed.

(** The two mappings as the component uses them: the scene abscissa that
    [handleCanvasMouseDown] computes for the place where the indicator has
    its origin is the abscissa [-scrollX] of the viewport. *)
Lemma toScene_of_indicator_origin c canvas sb r (sx : Q) :
minimapCanvas c = Some canvas ->
sceneBounds getCommonBounds (elements c) = Some sb ->
finite (minX sb) = true -> finite (maxX sb) = true ->
finite (minY sb) = true -> finite (maxY sb) = true ->
scrollX (appState c) = Fin sx ->
viewportRect getCommonBounds c = Some r ->
toScene (minX sb) (minimapScale getCommonBounds (elements c)) (rect_x r)
=n= - scrollX (appState c).
Proof.
intros Hc Hsb Fx FX Fy FY Hsx.
destruct (sceneBounds_extent _ Hsb) as [Ew Eh].
destruct (@minimapScale_finite (elements c) sb Hsb) as (q & Hq & Nq & _).
{ rewrite Ew. destruct (maxX sb), (minX sb); try discriminate; reflexivity. }
{ rewrite Eh. destruct (maxY sb), (minY sb); try discriminate; reflexivity. }
unfold viewportRect. rewrite Hc, Hsb, Hq, Hsx. intros [= <-].
cbn [rect_x]. unfold toScene, toMinimap.
destruct (minX sb) as [mx| | |]; try discriminate.
cbn [neg]. rewrite sub_Fin, mul_Fin, div_Fin, add_Fin by assumption.
unfold eqn. field. assumption.
Qed.

(** A bitmap that is not larger than the preview square is centred in it. *)
Lemma centeringOffset_fits (cw : Q) :
(cw <= 150)%Q ->
exists o : Q, centeringOffset (Fin cw) = Fin o /\ o == (150 - cw) / 2.
Proof.
intros H. unfold centeringOffset, MINIMAP_SIZE, lit.
rewrite Math_max_2, max2_NInf. simpl sub.
rewrite div_Fin by (vm_compute; discriminate).
rewrite max2_Fin.
match goal with |- context [ltb (Fin ?z) (Fin ?o)] =>
  destruct (ltb (Fin z) (Fin o)) eqn:E;
  [apply ltb_Fin in E; exists o | apply ltb_Fin_false in E; exists z]
end; (split; [reflexivity|]).
- change (inject_Z 150) with 150%Q; change (inject_Z 2) with 2%Q. field.
- change (inject_Z 150) with 150%Q in *; change (inject_Z 2) with 2%Q in *;
  change (inject_Z 0) with 0%Q in *.
  assert (0 <= (150 - cw) / 2)%Q by (apply Qle_shift_div_l; lra).
  assert ((150 + - cw) / 2 == (150 - cw) / 2)%Q by field.
  lra.
Qed.

Lemma sub_finite_inv (x y : num) (q : Q) :
x - y = Fin q -> exists qx qy : Q, x = Fin qx /\ y = Fin qy /\ q = (qx + - qy)%Q.
Proof.
destruct x, y; simpl; intros H; try discriminate.
injection H as <-. eauto.
Qed.

(** C2 (as amended).  A mouse-down on the preview, with a bitmap, scene
    bounds and the mounted canvas, takes the scene point
    [(click - centeringOffset) / scale + sceneBoundsMin] and sets the
    scroll offsets so that this point is the centre of the viewport.  When
    the bitmap has the scaled extent of the scene, a click at the centre of
    the preview square makes the centre of the bounding box the centre of
    the viewport. *)
Theorem handleCanvasMouseDown_recenters event c canvas sb rect :
minimapCanvas c = Some canvas ->
sceneBounds getCommonBounds (elements c) = Some sb ->
canvasRef c = Some rect ->
let a := appState c in
let scale := minimapScale getCommonBounds (elements c) in
let clickX := clientX event - left rect in
let clickY := clientY event - top rect in
let sceneX := (clickX - centeringOffset (canvas_width canvas)) / scale + minX sb in
let sceneY := (clickY - centeringOffset (canvas_height canvas)) / scale + minY sb in
let viewportWidth := width a / zoom_value a in
let viewportHeight := height a / zoom_value a in
let c' := handleCanvasMouseDown getCommonBounds event c in
let a' := appState c' in
scrollX a' = - (sceneX - viewportWidth / lit 2) /\
scrollY a' = - (sceneY - viewportHeight / lit 2) /\
(finite viewportWidth = true -> - scrollX a' + viewportWidth / lit 2 =n= sceneX) /\
(finite viewportHeight = true -> - scrollY a' + viewportHeight / lit 2 =n= sceneY) /\
(forall qw qh : Q,
    bounds_width sb = Fin qw -> bounds_height sb = Fin qh ->
    (0 < qw)%Q -> (0 < qh)%Q ->
    canvas_width canvas =n= bounds_width sb * scale ->
    canvas_height canvas =n= bounds_height sb * scale ->
    clickX =n= MINIMAP_SIZE / lit 2 ->
    clickY =n= MINIMAP_SIZE / lit 2 ->
    sceneX =n= (minX sb + maxX sb) / lit 2 /\
    sceneY =n= (minY sb + maxY sb) / lit 2).
Proof.
intros Hc Hsb Hr a scale clickX clickY sceneX sceneY vw vh c' a'.
assert (Hx : scrollX a' = - (sceneX - vw / lit 2) /\
             scrollY a' = - (sceneY - vh / lit 2)).
{ subst a' c'. unfold handleCanvasMouseDown. rewrite Hc, Hsb. cbn. rewrite Hr.
  cbn. split; reflexivity. }
destruct Hx as [Hx Hy]. split; [exact Hx|]. split; [exact Hy|].
assert (half : forall v, finite v = true -> finite (v / lit 2) = true).
{ intros [v| | |]; try discriminate. intros _. unfold lit.
  rewrite div_Fin by (vm_compute; discriminate). reflexivity. }
split; [|split].
- intros F. rewrite Hx. apply neg_neg_sub_add. now apply half.
- intros F. rewrite Hy. apply neg_neg_sub_add. now apply half.
- intros qw qh Hw Hh Lw Lh Hcw Hch Hcx Hcy.
  destruct (minimapScale_positive _ Hsb Hw Hh Lw Lh) as (q & Hq & Lq & Lq1 & Lqw & Lqh).
  destruct (sceneBounds_extent _ Hsb) as [Ew Eh].
  rewrite Hw in Ew. rewrite Hh in Eh. symmetry in Ew, Eh.
  apply sub_finite_inv in Ew. destruct Ew as (MX & mx & EMX & Emx & Eqw).
  apply sub_finite_inv in Eh. destruct Eh as (MY & my & EMY & Emy & Eqh).
  subst sceneX sceneY. fold scale in Hq. rewrite Hq, Hw, Hh in *.
  rewrite EMX, EMY, Emx, Emy.
  destruct (canvas_width canvas) as [cw| | |]; simpl in Hcw; try contradiction.
  destruct (canvas_height canvas) as [ch| | |]; simpl in Hch; try contradiction.
  unfold MINIMAP_SIZE, lit in Hcx, Hcy.
  rewrite div_Fin in Hcx, Hcy by (vm_compute; discriminate).
  destruct clickX as [cx| | |]; simpl in Hcx; try contradiction.
  destruct clickY as [cy| | |]; simpl in Hcy; try contradiction.
  change (inject_Z 150) with 150%Q in *; change (inject_Z 2) with 2%Q in *.
  destruct (@centeringOffset_fits cw) as (ox & -> & Eox); [lra|].
  destruct (@centeringOffset_fits ch) as (oy & -> & Eoy); [lra|].
  unfold lit. rewrite !sub_Fin, !add_Fin.
  rewrite !div_Fin by (try lra; vm_compute; discriminate).
  rewrite !add_Fin. unfold eqn.
  change (inject_Z 2) with 2%Q.
  rewrite Hcx, Hcy, Eox, Eoy, Hcw, Hch. subst qw qh.
  split; field; lra.
Qed.

(** *** Dragging the viewport *)


(** With finite bounds the quotient [dx / scale] is a quotient of
    rationals by a rational that is not zero. *)
Lemma drag_delta_rational event c sb (ex d : Q) :
sceneBounds getCommonBounds (elements c) = Some sb ->
finite (bounds_width sb) = true -> finite (bounds_height sb) = true ->
clientX event = Fin ex -> pt_x (dragStartRef c) = Fin d ->
exists q : Q,
  minimapScale getCommonBounds (elements c) = Fin q /\ ~ q == 0 /\
  (clientX event - pt_x (dragStartRef c)) / minimapScale getCommonBounds (elements c)
  = Fin ((ex + - d) / q).
Proof.
intros Hsb Fw Fh He Hd.
destruct (minimapScale_finite _ Hsb Fw Fh) as (q & Hq & Nq & _).
exists q. rewrite Hq, He, Hd, sub_Fin, div_Fin by assumption. auto.
Qed.

(** *** Moving the widget *)

(** C10.  A move of the pointer while the widget is dragged by its header
    stores a position whose coordinates lie between [padding = 10] and the
    window size minus 210, provided the window measures at least 220 in
    both directions. *)
Theorem handleGlobalMouseMove_clamps (window : Window) (e : MouseEvent) c (W H : Q) :
isDraggingMinimapRef c = true ->
isNaN (clientX e - pt_x (dragStartRef c)) = false ->
isNaN (clientY e - pt_y (dragStartRef c)) = false ->
innerWidth window = Fin W -> innerHeight window = Fin H ->
(220 <= W)%Q -> (220 <= H)%Q ->
let p := minimapPosition (appState (handleGlobalMouseMove window e c)) in
exists x y : Q,
  pt_x p = Fin x /\ pt_y p = Fin y /\
  (10 <= x)%Q /\ (x <= W - 210)%Q /\ (10 <= y)%Q /\ (y <= H - 210)%Q.
Proof.
intros Hd Nx Ny HW HH LW LH p.
assert (clamp : forall (v : num) (M : Q), isNaN v = false -> (220 <= M)%Q ->
          exists x : Q,
            Math_max [lit 10; Math_min [v; Fin M - lit 200 - lit 10]] = Fin x /\
            (10 <= x)%Q /\ (x <= M - 210)%Q).
{ intros v M Nv LM. rewrite Math_max_2, Math_min_2, max2_NInf, min2_PInf.
  unfold lit. rewrite !sub_Fin.
  change (inject_Z 200) with 200%Q. change (inject_Z 10) with 10%Q.
  destruct v as [v| | |]; try discriminate.
  - match goal with |- context [min2 (Fin v) (Fin ?u)] =>
      destruct (min2_Fin_cases v u) as (m & -> & Hm & _) end.
    destruct (max2_Fin_cases 10 m) as (x & -> & Hx & _).
    exists x. split; [reflexivity|]. rewrite Hx, Hm.
    split; [apply Q.le_max_l|].
    apply Q.max_lub; [lra|]. eapply Qle_trans; [apply Q.le_min_r|]. lra.
  - unfold min2. simpl.
    match goal with |- context [max2 (Fin 10) (Fin ?u)] =>
      destruct (max2_Fin_cases 10 u) as (x & -> & Hx & _) end.
    exists x. split; [reflexivity|]. rewrite Hx.
    split; [apply Q.le_max_l|]. apply Q.max_lub; lra.
  - unfold min2. simpl. exists 10%Q. repeat split; lra. }
subst p. unfold handleGlobalMouseMove. rewrite Hd, HW, HH.
cbn [negb setAppState with_minimapPosition appState minimapPosition pt_x pt_y].
destruct (clamp _ W Nx LW) as (x & -> & Hx1 & Hx2).
destruct (clamp _ H Ny LH) as (y & -> & Hy1 & Hy2).
exists x, y. repeat split; assumption || reflexivity.
Qed.

(** *** The toggle action *)

(** C9.  [toggleMinimap] negates [showMinimap] and leaves every other field
    of the application state as it was; performed twice it gives the
    application state back. *)
Theorem toggleMinimap_negates_showMinimap (els : list Element) (a : AppState Rest) :
let a' := actionToggleMinimap.result_appState (actionToggleMinimap.perform els a) in
showMinimap a' = negb (showMinimap a) /\
minimapPosition a' = minimapPosition a /\
scrollX a' = scrollX a /\ scrollY a' = scrollY a /\
zoom_value a' = zoom_value a /\
width a' = width a /\ height a' = height a /\
theme a' = theme a /\ rest a' = rest a /\
actionToggleMinimap.result_appState (actionToggleMinimap.perform els a') = a.
Proof.
destruct a as [sm mp sx sy z w h t r]. cbn.
repeat split. unfold actionToggleMinimap.perform, actionToggleMinimap.checked, with_showMinimap.
cbn. now rewrite negb_involutive.
Qed.

(** *** Refreshing the preview *)

Lemma render_empty c : elements c = [] -> render c = None.
Proof.
intros H. unfold render. rewrite H. destruct (showMinimap (appState c)); reflexivity.
Qed.

Lemma render_no_canvas c : minimapCanvas c = None -> render c = None.
Proof.
intros H. unfold render. rewrite H.
destruct (showMinimap (appState c)), (List.length (elements c) =? 0)%nat; reflexivity.
Qed.

(** [updateMinimap] never throws, whatever the export routine does, and it
    calls the export routine at most once. *)
Lemma updateMinimap_never_throws (els : list Element) (a : AppState Rest) cell :
exists cell' effects,
  updateMinimap getCommonBounds exportToCanvas els a cell = (Normal tt, cell', effects) /\
  (export_calls effects <= 1)%nat.
Proof.
unfold updateMinimap. destruct (sceneBounds getCommonBounds els) as [sb|].
2:{ do 2 eexists. split; [reflexivity|]. simpl. lia. }
destruct ((List.length els =? 0)%nat || (bounds_width sb <=? lit 0)
          || (bounds_height sb <=? lit 0)).
{ do 2 eexists. split; [reflexivity|]. simpl. lia. }
unfold try_catch, bind, await_export.
destruct (exportToCanvas (export_args getCommonBounds els a sb)) as [[cv|]|e].
- destruct ((canvas_width cv >? lit 0) && (canvas_height cv >? lit 0));
    do 2 eexists; (split; [reflexivity|]); simpl; lia.
- do 2 eexists; (split; [reflexivity|]); simpl; lia.
- do 2 eexists; (split; [reflexivity|]); simpl; lia.
Qed.

(** The first definition of the component: a failed regeneration is
    logged and clears the preview, after one call of the export routine. *)
Lemma updateMinimap_failure_clears_preview (els : list Element) (a : AppState Rest) sb cell :
sceneBounds getCommonBounds els = Some sb ->
(bounds_width sb <=? lit 0) = false ->
(bounds_height sb <=? lit 0) = false ->
let result := exportToCanvas (export_args getCommonBounds els a sb) in
((exists e, result = Throw e) \/
 result = Normal None \/
 (exists cv, result = Normal (Some cv) /\
             (canvas_width cv >? lit 0) && (canvas_height cv >? lit 0) = false)) ->
exists effects,
  updateMinimap getCommonBounds exportToCanvas els a cell = (Normal tt, None, effects) /\
  logged effects = true /\
  export_calls effects = 1%nat.
Proof.
intros Hsb Hw Hh result H. unfold updateMinimap.
rewrite Hsb, (sceneBounds_Some_length _ Hsb), Hw, Hh. cbn [orb].
unfold try_catch, bind, await_export. fold result.
destruct H as [(e & ->) | [-> | (cv & -> & Hcv)]].
- eexists. split; [reflexivity|]. split; reflexivity.
- eexists. split; [reflexivity|]. split; reflexivity.
- rewrite Hcv. eexists. split; [reflexivity|]. split; reflexivity.
Qed.

(** A timer that fires arms no timer: a failed regeneration is not tried
    again by itself. *)
Lemma fire_keeps_timers (t : Timer Element Rest) s :
browser (fire getCommonBounds exportToCanvas t s) = browser s /\
debounceTimerRef (component (fire getCommonBounds exportToCanvas t s))
= debounceTimerRef (component s).
Proof.
unfold fire.
destruct (updateMinimap getCommonBounds exportToCanvas (captured_elements t)
            (captured_appState t) (minimapCanvas (component s))) as [[r cell] effs].
split; reflexivity.
Qed.

(** The second definition of the component: a thrown error is logged and
    the preview stays as it was. *)
Lemma legacy_updateMinimap_throw_keeps_preview
    (els : list Element) (a : AppState Rest) sb cell e :
sceneBounds getCommonBounds els = Some sb ->
exportToCanvas (legacy_export_args getCommonBounds els a sb) = Throw e ->
legacy_updateMinimap getCommonBounds exportToCanvas els a cell
= (Normal tt, cell,
   [CallExportToCanvas (legacy_export_args getCommonBounds els a sb);
    ConsoleError "Failed to render minimap:" e]).
Proof.
intros Hsb He. unfold legacy_updateMinimap.
rewrite Hsb, (sceneBounds_Some_length _ Hsb).
unfold try_catch, bind, await_export. rewrite He. reflexivity.
Qed.

(** The second definition of the component: whatever the export routine
    returns becomes the preview, and nothing is logged. *)
Lemma legacy_updateMinimap_accepts_any_canvas
    (els : list Element) (a : AppState Rest) sb cell canvas :
sceneBounds getCommonBounds els = Some sb ->
exportToCanvas (legacy_export_args getCommonBounds els a sb) = Normal canvas ->
legacy_updateMinimap getCommonBounds exportToCanvas els a cell
= (Normal tt, canvas,
   [CallExportToCanvas (legacy_export_args getCommonBounds els a sb);
    SetMinimapCanvas canvas]).
Proof.
intros Hsb He. unfold legacy_updateMinimap.
rewrite Hsb, (sceneBounds_Some_length _ Hsb).
unfold try_catch, bind, await_export. rewrite He. reflexivity.
Qed.

(** *** The debounce timer *)

Lemma filter_other_ids_nil (id : nat) (l : list (Timer Element Rest)) :
(forall t, In t l -> timer_id t = id) ->
filter (fun t => negb (timer_id t =? id)%nat) l = [].
Proof.
induction l as [|t l IH]; intros H; [reflexivity|]. simpl.
rewrite (H t) by now left. rewrite Nat.eqb_refl. simpl.
apply IH. intros t' Ht'. apply H. now right.
Qed.

Lemma fold_fire_keeps_timers (l : list (Timer Element Rest)) s :
browser (fold_left (fun s t => fire getCommonBounds exportToCanvas t s) l s) = browser s /\
debounceTimerRef (component (fold_left (fun s t => fire getCommonBounds exportToCanvas t s) l s))
= debounceTimerRef (component s).
Proof.
revert s. induction l as [|t l IH]; intros s; simpl; [auto|].
destruct (IH (fire getCommonBounds exportToCanvas t s)) as [H1 H2]. destruct (fire_keeps_timers t s) as [H3 H4].
split; congruence.
Qed.

Lemma timers_inv_mount (els : list Element) (a : AppState Rest) :
timers_inv (mount els a).
Proof.
unfold timers_inv, mount. simpl. repeat split; try lia; contradiction.
Qed.

(** Under the invariant, [debouncedUpdate] leaves exactly the timer it has
    just created. *)
Lemma debouncedUpdate_single c (b : Browser Element Rest) :
next_id b <> 0%nat ->
(forall t, In t (timers b) ->
           debounceTimerRef c = Some (timer_id t) /\ timer_id t <> 0%nat) ->
debouncedUpdate c b =
  (set_debounceTimerRef (Some (next_id b)) c,
   mkBrowser (now b) (S (next_id b))
             [mkTimer (next_id b) (now b + DEBOUNCE_DELAY) (elements c) (appState c)]).
Proof.
intros Hn Hall. unfold debouncedUpdate.
assert (E : timers (match debounceTimerRef c with
                    | Some id => if (id =? 0)%nat then b else clearTimeout id b
                    | None => b
                    end) = [] /\
            now (match debounceTimerRef c with
                 | Some id => if (id =? 0)%nat then b else clearTimeout id b
                 | None => b
                 end) = now b /\
            next_id (match debounceTimerRef c with
                     | Some id => if (id =? 0)%nat then b else clearTimeout id b
                     | None => b
                     end) = next_id b).
{ destruct (debounceTimerRef c) as [id|] eqn:Eref.
  - destruct (id =? 0)%nat eqn:E0.
    + apply Nat.eqb_eq in E0. subst id. repeat split.
      destruct (timers b) as [|t l] eqn:Et; [reflexivity|].
      destruct (Hall t) as [H1 H2]; [now left|]. congruence.
    + unfold clearTimeout. cbn [timers now next_id]. repeat split.
      apply filter_other_ids_nil. intros t Ht.
      destruct (Hall t Ht) as [H1 _]. congruence.
  - repeat split. destruct (timers b) as [|t l] eqn:Et; [reflexivity|].
    destruct (Hall t) as [H1 _]; [now left|]. discriminate. }
destruct E as (E1 & E2 & E3). unfold setTimeout. rewrite E1, E2, E3. reflexivity.
Qed.

Lemma timers_inv_step ev s : timers_inv s -> timers_inv (step getCommonBounds exportToCanvas ev s).
Proof.
intros (Hn & Hlen & Hall). destruct ev as [els a | dt]; unfold step.
- unfold refreshEffect.
  cbn [set_props appState elements].
  destruct (showMinimap a && (0 <? List.length els)%nat).
  + rewrite debouncedUpdate_single by assumption.
    unfold timers_inv. cbn. split; [lia|]. split; [lia|].
    intros t [<-|[]]. split; [reflexivity | assumption].
  + destruct (negb (showMinimap a) || (List.length els =? 0)%nat);
      unfold timers_inv; cbn; (split; [assumption|]); (split; [assumption|]);
      exact Hall.
- set (s0 := mkSystem _ _ _).
  destruct (fold_fire_keeps_timers
              (filter (is_due (now (browser s) + dt)) (timers (browser s))) s0) as [Hb Hr].
  unfold timers_inv. rewrite Hb, Hr. subst s0. cbn.
  split; [assumption|]. split.
  + eapply Nat.le_trans; [apply List.filter_length_le | assumption].
  + intros t Ht. apply Hall. apply List.filter_In in Ht. tauto.
Qed.

Lemma reachable_timers_inv s : reachable getCommonBounds exportToCanvas s -> timers_inv s.
Proof.
induction 1; [apply timers_inv_mount | now apply timers_inv_step].
Qed.

(** C8 (as amended).  In every state of the mounted widget at most one
    timer is pending.  A change of the element collection or of the
    application state that leaves the minimap shown and the collection
    non-empty cancels the pending timer and arms one timer, due
    [DEBOUNCE_DELAY = 300] milliseconds later, for the [updateMinimap] of
    that render; while less than 300 milliseconds pass without a change
    nothing is regenerated, and once 300 milliseconds have passed the
    timer runs [updateMinimap], once, and no timer is left.  A change that
    leaves the minimap hidden or the collection empty clears the preview
    at once and arms no timer. *)
Theorem debounce_single_timer s :
reachable getCommonBounds exportToCanvas s ->
(List.length (timers (browser s)) <= 1)%nat /\
(forall (els : list Element) (a : AppState Rest),
    showMinimap a = true -> els <> [] ->
    let s1 := step getCommonBounds exportToCanvas (HostChange els a) s in
    let t := mkTimer (next_id (browser s)) (now (browser s) + DEBOUNCE_DELAY) els a in
    DEBOUNCE_DELAY = 300%nat /\
    timers (browser s1) = [t] /\
    debounceTimerRef (component s1) = Some (timer_id t) /\
    history s1 = history s /\
    (forall dt : nat,
        (dt < DEBOUNCE_DELAY)%nat ->
        let s2 := step getCommonBounds exportToCanvas (Elapse dt) s1 in
        timers (browser s2) = [t] /\
        history s2 = history s1 /\
        minimapCanvas (component s2) = minimapCanvas (component s1)) /\
    (forall dt : nat,
        (DEBOUNCE_DELAY <= dt)%nat ->
        let s2 := step getCommonBounds exportToCanvas (Elapse dt) s1 in
        exists cell effects,
          updateMinimap getCommonBounds exportToCanvas els a
                        (minimapCanvas (component s1))
          = (Normal tt, cell, effects) /\
          (export_calls effects <= 1)%nat /\
          history s2 = history s1 ++ map (fun e => (due t, e)) effects /\
          minimapCanvas (component s2) = cell /\
          timers (browser s2) = [])) /\
(forall (els : list Element) (a : AppState Rest),
    showMinimap a = false \/ els = [] ->
    let s1 := step getCommonBounds exportToCanvas (HostChange els a) s in
    minimapCanvas (component s1) = None /\
    next_id (browser s1) = next_id (browser s) /\
    history s1 = history s).
Proof.
intros Hreach. destruct (reachable_timers_inv Hreach) as (Hn & Hlen & Hall).
split; [exact Hlen|]. split.
- intros els a Hshow Hne s1 t.
  assert (E1 : s1 = mkSystem
                      (set_debounceTimerRef (Some (next_id (browser s)))
                         (set_props els a (component s)))
                      (mkBrowser (now (browser s)) (S (next_id (browser s))) [t])
                      (history s)).
  { subst s1. unfold step, refreshEffect. cbn [set_props appState elements].
    rewrite Hshow. destruct els as [|e els]; [congruence|]. cbn [List.length Nat.ltb Nat.leb andb].
    change (0 <? S (List.length els))%nat with true. cbn [andb].
    rewrite debouncedUpdate_single by assumption. reflexivity. }
  split; [reflexivity|]. rewrite E1. cbn [browser timers component history
    set_debounceTimerRef debounceTimerRef timer_id].
  split; [reflexivity|]. split; [reflexivity|]. split; [reflexivity|]. split.
  + intros dt Hdt. unfold step.
    cbn [browser timers now filter is_due due component history].
    subst t. cbn [due].
    assert (D : (now (browser s) + DEBOUNCE_DELAY <=? now (browser s) + dt)%nat = false)
      by (apply Nat.leb_gt; lia).
    unfold is_due. cbn [due]. rewrite D. cbn. auto.
  + intros dt Hdt. unfold step.
    cbn [browser timers now filter is_due due component history].
    assert (D : is_due (now (browser s) + dt) t = true)
      by (unfold is_due; subst t; cbn [due]; apply Nat.leb_le; lia).
    rewrite D. cbn [negb fold_left]. unfold fire.
    cbn [captured_elements captured_appState component minimapCanvas set_debounceTimerRef
         set_props history browser].
    destruct (updateMinimap_never_throws els a (minimapCanvas (component s)))
      as (cell & effects & Hu & Hcalls).
    exists cell, effects. subst t. cbn [captured_elements captured_appState].
    rewrite Hu. cbn. repeat split; auto.
- intros els a Hoff s1. subst s1. unfold step, refreshEffect.
  cbn [set_props appState elements].
  assert (G : showMinimap a && (0 <? List.length els)%nat = false).
  { destruct Hoff as [->| ->]; [reflexivity|]. cbn. apply andb_false_r. }
  assert (G' : negb (showMinimap a) || (List.length els =? 0)%nat = true).
  { destruct Hoff as [->| ->]; [reflexivity|]. cbn. apply orb_true_r. }
  rewrite G, G'. cbn. auto.
Qed.

(* ------------------------------------------------------------------ *)
(** *** Further properties of the scale and of the bitmap *)

Lemma neg_Fin (x : Q) : - Fin x = Fin (- x).
Proof. reflexivity. Qed.

(** Rewrites arithmetic on finite numbers to arithmetic on rationals; the
    divisors must be known not to be zero. *)
Ltac fin_arith :=
  unfold lit;
  repeat (rewrite sub_Fin || rewrite add_Fin || rewrite mul_Fin || rewrite neg_Fin
          || (rewrite div_Fin by (assumption || (vm_compute; discriminate)))).

Lemma Math_max_2_Fin (x y : Q) :
exists m : Q, Math_max [Fin x; Fin y] = Fin m /\ m == Qmax x y.
Proof.
rewrite Math_max_2, max2_NInf.
destruct (max2_Fin_cases x y) as (m & Hm & E & _). eauto.
Qed.

(** The scale of a scene of positive extent, as a rational. *)
Lemma minimapScale_rational (els : list Element) sb (qw qh : Q) :
sceneBounds getCommonBounds els = Some sb ->
bounds_width sb = Fin qw -> bounds_height sb = Fin qh ->
(0 < qw)%Q -> (0 < qh)%Q ->
exists q : Q,
  minimapScale getCommonBounds els = Fin q /\
  q == Qmin (Qmin (150 / qw) (150 / qh)) 1.
Proof.
intros Hsb Hw Hh Lw Lh. unfold minimapScale. rewrite Hsb, Hw, Hh.
rewrite Math_min_3, min2_PInf. unfold MINIMAP_SIZE, lit.
rewrite !div_Fin by lra.
destruct (min2_Fin_cases (inject_Z 150 / qw) (inject_Z 150 / qh)) as (m & -> & Hm & _).
destruct (min2_Fin_cases m (inject_Z 1)) as (q & -> & Hq & _).
exists q. split; [reflexivity|]. rewrite Hq, Hm. reflexivity.
Qed.

(** X2.  The preview never magnifies, and a scene that does not fit is
    scaled by its longer side: a scene at most [MINIMAP_SIZE] wide and high
    has the scale 1, and a scene with a side of [MINIMAP_SIZE] or more has
    the scale [MINIMAP_SIZE] over the longer of its two sides.  The same
    closed form gives the scale bit for bit in binary64, for every scene
    whose width and height are integers from 1 to 500. *)
Theorem minimapScale_is_preview_over_longer_side (els : list Element) sb (qw qh : Q) :
sceneBounds getCommonBounds els = Some sb ->
bounds_width sb = Fin qw -> bounds_height sb = Fin qh ->
(0 < qw)%Q -> (0 < qh)%Q ->
((qw <= 150)%Q -> (qh <= 150)%Q -> minimapScale getCommonBounds els =n= lit 1) /\
((150 <= qw)%Q \/ (150 <= qh)%Q ->
 minimapScale getCommonBounds els
 =n= MINIMAP_SIZE / Math_max [bounds_width sb; bounds_height sb]) /\
forallb
  (fun w =>
     forallb (fun h => PrimFloat.eqb (Binary64.minimapScale w h)
                                     (Binary64.preview_over_longer_side w h))
             (Binary64.integers 500 1%float))
  (Binary64.integers 500 1%float)
= true.
Proof.
intros Hsb Hw Hh Lw Lh.
destruct (minimapScale_rational _ Hsb Hw Hh Lw Lh) as (q & Hq & Eq).
assert (P : ((qw <= 150)%Q -> (qh <= 150)%Q -> q == 1) /\
            ((150 <= qw)%Q \/ (150 <= qh)%Q -> Qmax qw qh * q == 150)).
{ assert (Ew : qw * (150 / qw) == 150) by (field; lra).
  assert (Eh : qh * (150 / qh) == 150) by (field; lra).
  assert (Pw : (0 < 150 / qw)%Q).
  { apply Qlt_shift_div_l; [assumption|]. lra. }
  assert (Ph : (0 < 150 / qh)%Q).
  { apply Qlt_shift_div_l; [assumption|]. lra. }
  set (rw := (150 / qw)%Q) in *. set (rh := (150 / qh)%Q) in *.
  destruct (Q.min_spec rw rh) as [[L1 E1]|[L1 E1]];
    destruct (Q.min_spec (Qmin rw rh) 1) as [[L2 E2]|[L2 E2]];
    rewrite E1 in *; rewrite E2 in Eq; clear E1 E2;
    (split; [intros Bw Bh | intros B]);
    try (destruct (Q.max_spec qw qh) as [[L3 E3]|[L3 E3]]; rewrite E3; clear E3);
    rewrite Eq; try nra; try (destruct B; nra). }
destruct P as [P1 P2].
split; [|split].
- intros Bw Bh. rewrite Hq. unfold lit, eqn. exact (P1 Bw Bh).
- intros B. rewrite Hq, Hw, Hh.
  destruct (Math_max_2_Fin qw qh) as (m & -> & Em).
  assert (Lm : (0 < Qmax qw qh)%Q).
  { eapply Qlt_le_trans; [exact Lw | apply Q.le_max_l]. }
  unfold MINIMAP_SIZE, lit. rewrite div_Fin by (rewrite Em; lra).
  unfold eqn. change (inject_Z 150) with 150%Q. rewrite Em, <- (P2 B).
  field. lra.
- vm_compute. reflexivity.
Qed.

Lemma centeringOffset_Fin (size : Q) :
exists o : Q, centeringOffset (Fin size) = Fin o /\ o == Qmax 0 ((150 - size) / 2).
Proof.
unfold centeringOffset, MINIMAP_SIZE. fin_arith.
destruct (Math_max_2_Fin (inject_Z 0) ((inject_Z 150 + - size) / inject_Z 2))
  as (o & -> & Eo).
exists o. split; [reflexivity|]. rewrite Eo.
change (inject_Z 0) with 0%Q; change (inject_Z 150) with 150%Q;
  change (inject_Z 2) with 2%Q.
assert (E : (150 + - size) / 2 == (150 - size) / 2) by field.
now rewrite E.
Qed.

(** X3.  The drawing effect paints a valid bitmap centred in the preview
    square: with the bitmap at most [MINIMAP_SIZE] wide the margins left
    and right of it are equal, and a wider bitmap is painted at the left
    edge; the same holds vertically. *)
Theorem drawEffect_centres_bitmap c canvas rect (cw ch : Q) :
minimapCanvas c = Some canvas ->
canvasRef c = Some rect ->
canvas_width canvas = Fin cw -> canvas_height canvas = Fin ch ->
(0 < cw)%Q -> (0 < ch)%Q ->
exists ox oy : Q,
  nth_error (drawEffect getCommonBounds false c) 1
  = Some (DrawImage canvas (Fin ox) (Fin oy)) /\
  ((cw <= 150)%Q -> ox + cw + ox == 150) /\ ((150 <= cw)%Q -> ox == 0) /\
  ((ch <= 150)%Q -> oy + ch + oy == 150) /\ ((150 <= ch)%Q -> oy == 0).
Proof.
intros Hc Hr Hw Hh Lw Lh. unfold drawEffect. rewrite Hr, Hc, Hw, Hh.
assert (Gw : (Fin cw >? lit 0) = true) by (apply gtb_Fin; exact Lw).
assert (Gh : (Fin ch >? lit 0) = true) by (apply gtb_Fin; exact Lh).
rewrite Gw, Gh. cbn [andb].
destruct (centeringOffset_Fin cw) as (ox & -> & Eox).
destruct (centeringOffset_Fin ch) as (oy & -> & Eoy).
exists ox, oy. split; [reflexivity|].
assert (Dw : (150 - cw) / 2 * 2 == 150 - cw) by field.
assert (Dh : (150 - ch) / 2 * 2 == 150 - ch) by field.
repeat split; intros B.
- rewrite Eox, Q.max_r by lra. lra.
- rewrite Eox, Q.max_l by lra. lra.
- rewrite Eoy, Q.max_r by lra. lra.
- rewrite Eoy, Q.max_l by lra. lra.
Qed.

(* ------------------------------------------------------------------ *)
(** *** The handlers of the preview and the indicator *)

Lemma finite_inv (x : num) : finite x = true -> exists v : Q, x = Fin v.
Proof. destruct x; try discriminate. eauto. Qed.

Lemma finite_appState_inv (a : AppState Rest) :
finite_appState a = true ->
exists sx sy W H z : Q,
  scrollX a = Fin sx /\ scrollY a = Fin sy /\ width a = Fin W /\ height a = Fin H /\
  zoom_value a = Fin z /\ ~ z == 0.
Proof.
unfold finite_appState. rewrite !andb_true_iff.
intros [[[[[F1 F2] F3] F4] F5] F6].
destruct (finite_inv _ F1) as (sx & E1). destruct (finite_inv _ F2) as (sy & E2).
destruct (finite_inv _ F3) as (W & E3). destruct (finite_inv _ F4) as (H & E4).
destruct (finite_inv _ F5) as (z & E5).
exists sx, sy, W, H, z. repeat split; try assumption.
rewrite E5 in F6. intros Hz. apply (proj2 (eqb_Fin z 0)) in Hz.
unfold lit in F6. change (inject_Z 0) with 0%Q in F6. rewrite Hz in F6. discriminate.
Qed.

Lemma finite_bounds_inv (els : list Element) sb :
sceneBounds getCommonBounds els = Some sb ->
finite_bounds sb = true ->
exists mx my Mx My q : Q,
  minX sb = Fin mx /\ minY sb = Fin my /\ maxX sb = Fin Mx /\ maxY sb = Fin My /\
  minimapScale getCommonBounds els = Fin q /\ ~ q == 0.
Proof.
intros Hsb. unfold finite_bounds. rewrite !andb_true_iff.
intros [[[F1 F2] F3] F4].
destruct (sceneBounds_extent _ Hsb) as [Ew Eh].
destruct (finite_inv _ F1) as (mx & E1). destruct (finite_inv _ F2) as (my & E2).
destruct (finite_inv _ F3) as (Mx & E3). destruct (finite_inv _ F4) as (My & E4).
destruct (@minimapScale_finite els sb Hsb) as (q & Hq & Nq & _).
{ rewrite Ew, E1, E3. reflexivity. }
{ rewrite Eh, E2, E4. reflexivity. }
exists mx, my, Mx, My, q. repeat split; assumption.
Qed.

Lemma finite_point_inv (p : Point) :
finite_point p = true -> exists x y : Q, pt_x p = Fin x /\ pt_y p = Fin y.
Proof.
unfold finite_point. rewrite andb_true_iff. intros [F1 F2].
destruct (finite_inv _ F1) as (x & E1). destruct (finite_inv _ F2) as (y & E2). eauto.
Qed.

Lemma finite_event_inv (e : MouseEvent) :
finite_event e = true -> exists x y : Q, clientX e = Fin x /\ clientY e = Fin y.
Proof.
unfold finite_event. rewrite andb_true_iff. intros [F1 F2].
destruct (finite_inv _ F1) as (x & E1). destruct (finite_inv _ F2) as (y & E2). eauto.
Qed.

Lemma finite_domrect_inv (r : DOMRect) :
finite_domrect r = true -> exists x y : Q, left r = Fin x /\ top r = Fin y.
Proof.
unfold finite_domrect. rewrite andb_true_iff. intros [F1 F2].
destruct (finite_inv _ F1) as (x & E1). destruct (finite_inv _ F2) as (y & E2). eauto.
Qed.

Lemma finite_canvas_inv (cv : Canvas) :
finite_canvas cv = true ->
exists w h ox oy : Q,
  canvas_width cv = Fin w /\ canvas_height cv = Fin h /\
  centeringOffset (canvas_width cv) = Fin ox /\
  centeringOffset (canvas_height cv) = Fin oy.
Proof.
unfold finite_canvas. rewrite andb_true_iff. intros [F1 F2].
destruct (finite_inv _ F1) as (w & E1). destruct (finite_inv _ F2) as (h & E2).
destruct (centeringOffset_Fin w) as (ox & Eox & _).
destruct (centeringOffset_Fin h) as (oy & Eoy & _).
exists w, h, ox, oy. rewrite E1, E2. auto.
Qed.

(** What a mouse-down on the rendered preview returns. *)
Lemma handleCanvasMouseDown_eq (event : MouseEvent) c canvas sb rect :
minimapCanvas c = Some canvas ->
sceneBounds getCommonBounds (elements c) = Some sb ->
canvasRef c = Some rect ->
handleCanvasMouseDown getCommonBounds event c =
setAppState
  (with_scroll
     (- ((clientX event - left rect - centeringOffset (canvas_width canvas))
         / minimapScale getCommonBounds (elements c) + minX sb
         - width (appState c) / zoom_value (appState c) / lit 2))
     (- ((clientY event - top rect - centeringOffset (canvas_height canvas))
         / minimapScale getCommonBounds (elements c) + minY sb
         - height (appState c) / zoom_value (appState c) / lit 2)))
  (set_dragStartRef (mkPoint (clientX event) (clientY event))
     (set_isDraggingRef true c)).
Proof.
intros Hc Hsb Hr. unfold handleCanvasMouseDown. rewrite Hc, Hsb. cbn. rewrite Hr.
reflexivity.
Qed.

(** What a mouse-move on the rendered preview returns during a drag. *)
Lemma handleCanvasMouseMove_eq (event : MouseEvent) c canvas sb rect :
isDraggingRef c = true ->
minimapCanvas c = Some canvas ->
sceneBounds getCommonBounds (elements c) = Some sb ->
canvasRef c = Some rect ->
handleCanvasMouseMove getCommonBounds event c =
set_dragStartRef (mkPoint (clientX event) (clientY event))
  (setAppState
     (with_scroll
        (scrollX (appState c)
         - (clientX event - pt_x (dragStartRef c))
           / minimapScale getCommonBounds (elements c))
        (scrollY (appState c)
         - (clientY event - pt_y (dragStartRef c))
           / minimapScale getCommonBounds (elements c)))
     c).
Proof.
intros Hd Hc Hsb Hr. unfold handleCanvasMouseMove. now rewrite Hd, Hc, Hsb, Hr.
Qed.

(** The indicator of a component whose scroll offsets have been replaced. *)
Lemma viewportRect_with_scroll c canvas sb (nx ny : num) (f : Component Element Rest -> Component Element Rest) :
minimapCanvas c = Some canvas ->
sceneBounds getCommonBounds (elements c) = Some sb ->
elements (f c) = elements c ->
minimapCanvas (f c) = minimapCanvas c ->
appState (f c) = with_scroll nx ny (appState c) ->
viewportRect getCommonBounds (f c) =
Some (mkRect
        ((- nx - minX sb) * minimapScale getCommonBounds (elements c))
        ((- ny - minY sb) * minimapScale getCommonBounds (elements c))
        ((- nx + width (appState c) / zoom_value (appState c) - minX sb)
         * minimapScale getCommonBounds (elements c)
         - (- nx - minX sb) * minimapScale getCommonBounds (elements c))
        ((- ny + height (appState c) / zoom_value (appState c) - minY sb)
         * minimapScale getCommonBounds (elements c)
         - (- ny - minY sb) * minimapScale getCommonBounds (elements c))).
Proof.
intros Hc Hsb He Hm Ha. unfold viewportRect. rewrite He, Hm, Hc, Hsb, Ha. reflexivity.
Qed.

(** X4.  The indicator has the size of the viewport times the scale,
    whatever the scroll offsets: its width is [(width / zoom) * scale] and
    its height is [(height / zoom) * scale]. *)
Theorem viewportRect_size c canvas sb :
minimapCanvas c = Some canvas ->
sceneBounds getCommonBounds (elements c) = Some sb ->
finite_appState (appState c) = true ->
finite_bounds sb = true ->
exists r : Rect,
  viewportRect getCommonBounds c = Some r /\
  rect_width r =n= width (appState c) / zoom_value (appState c)
                   * minimapScale getCommonBounds (elements c) /\
  rect_height r =n= height (appState c) / zoom_value (appState c)
                    * minimapScale getCommonBounds (elements c).
Proof.
intros Hc Hsb Fa Fb.
destruct (finite_appState_inv _ Fa) as (sx & sy & W & H & z & Esx & Esy & EW & EH & Ez & Nz).
destruct (finite_bounds_inv _ Hsb Fb) as (mx & my & Mx & My & q & Emx & Emy & _ & _ & Eq & Nq).
unfold viewportRect. rewrite Hc, Hsb. eexists. split; [reflexivity|].
cbn [rect_width rect_height]. unfold toMinimap.
rewrite Esx, Esy, EW, EH, Ez, Emx, Emy, Eq. fin_arith.
unfold eqn. split; field; assumption.
Qed.

(** X5.  After a mouse-down on the preview the indicator is centred on
    the pointer: the middle of the indicator, painted at its origin plus
    the offset of the bitmap, is the position of the click in the preview
    canvas. *)
Theorem click_centres_indicator (event : MouseEvent) c canvas sb rect :
minimapCanvas c = Some canvas ->
sceneBounds getCommonBounds (elements c) = Some sb ->
canvasRef c = Some rect ->
finite_appState (appState c) = true ->
finite_bounds sb = true ->
finite_event event = true ->
finite_domrect rect = true ->
finite_canvas canvas = true ->
exists r : Rect,
  viewportRect getCommonBounds (handleCanvasMouseDown getCommonBounds event c) = Some r /\
  rect_x r + centeringOffset (canvas_width canvas) + rect_width r / lit 2
  =n= clientX event - left rect /\
  rect_y r + centeringOffset (canvas_height canvas) + rect_height r / lit 2
  =n= clientY event - top rect.
Proof.
intros Hc Hsb Hr Fa Fb Fe Fr Fc.
destruct (finite_appState_inv _ Fa) as (sx & sy & W & H & z & Esx & Esy & EW & EH & Ez & Nz).
destruct (finite_bounds_inv _ Hsb Fb) as (mx & my & Mx & My & q & Emx & Emy & _ & _ & Eq & Nq).
destruct (finite_event_inv _ Fe) as (ex & ey & Eex & Eey).
destruct (finite_domrect_inv _ Fr) as (rl & rt & Erl & Ert).
destruct (finite_canvas_inv _ Fc) as (cw & ch & ox & oy & _ & _ & Eox & Eoy).
rewrite (handleCanvasMouseDown_eq event _ Hc Hsb Hr).
erewrite (@viewportRect_with_scroll c canvas sb _ _
            (fun c0 => setAppState _ (set_dragStartRef _ (set_isDraggingRef true c0))))
  by (assumption || reflexivity).
eexists. split; [reflexivity|]. cbn [rect_x rect_y rect_width rect_height].
rewrite EW, EH, Ez, Emx, Emy, Eq, Eex, Eey, Erl, Ert, Eox, Eoy. fin_arith.
unfold eqn. change (inject_Z 2) with 2%Q. split; field; auto.
Qed.


(** X7.  A drag tracks the pointer: a mouse-down followed by a move of the
    pointer leaves the scroll offsets that a mouse-down at the final
    position of the pointer gives. *)
Theorem mouse_down_then_move_is_mouse_down_at_end (down move : MouseEvent) c canvas sb rect :
minimapCanvas c = Some canvas ->
sceneBounds getCommonBounds (elements c) = Some sb ->
canvasRef c = Some rect ->
finite_appState (appState c) = true ->
finite_bounds sb = true ->
finite_event down = true -> finite_event move = true ->
finite_domrect rect = true ->
finite_canvas canvas = true ->
let dragged :=
  handleCanvasMouseMove getCommonBounds move
    (handleCanvasMouseDown getCommonBounds down c) in
let clicked := handleCanvasMouseDown getCommonBounds move c in
scrollX (appState dragged) =n= scrollX (appState clicked) /\
scrollY (appState dragged) =n= scrollY (appState clicked) /\
dragStartRef dragged = dragStartRef clicked /\
isDraggingRef dragged = isDraggingRef clicked.
Proof.
intros Hc Hsb Hr Fa Fb Fd Fm Fr Fc dragged clicked.
destruct (finite_appState_inv _ Fa) as (sx & sy & W & H & z & Esx & Esy & EW & EH & Ez & Nz).
destruct (finite_bounds_inv _ Hsb Fb) as (mx & my & Mx & My & q & Emx & Emy & _ & _ & Eq & Nq).
destruct (finite_event_inv _ Fd) as (dx & dy & Edx & Edy).
destruct (finite_event_inv _ Fm) as (ex & ey & Eex & Eey).
destruct (finite_domrect_inv _ Fr) as (rl & rt & Erl & Ert).
destruct (finite_canvas_inv _ Fc) as (cw & ch & ox & oy & _ & _ & Eox & Eoy).
subst dragged clicked.
rewrite (handleCanvasMouseDown_eq move _ Hc Hsb Hr).
rewrite (handleCanvasMouseDown_eq down _ Hc Hsb Hr).
erewrite handleCanvasMouseMove_eq; try reflexivity; try eassumption.
cbn [appState setAppState set_dragStartRef set_isDraggingRef with_scroll scrollX scrollY
     dragStartRef isDraggingRef elements pt_x pt_y].
rewrite EW, EH, Ez, Emx, Emy, Eq, Eex, Eey, Edx, Edy, Erl, Ert, Eox, Eoy. fin_arith.
unfold eqn. repeat split; field; auto.
Qed.

(** The callback called in the state of the render that has created it. *)
Lemma handleCanvasMouseMove_closure_own_render (event : MouseEvent) c :
handleCanvasMouseMove_closure getCommonBounds c event c
= handleCanvasMouseMove getCommonBounds event c.
Proof. reflexivity. Qed.

(** What the callback of the render [c] returns when it is called during
    a drag, in a state that differs from [c] in the application state and
    in the remembered pointer position. *)
Lemma handleCanvasMouseMove_closure_eq (event : MouseEvent) c c' canvas sb rect :
isDraggingRef c' = true ->
minimapCanvas c = Some canvas ->
sceneBounds getCommonBounds (elements c) = Some sb ->
canvasRef c' = Some rect ->
handleCanvasMouseMove_closure getCommonBounds c event c' =
set_dragStartRef (mkPoint (clientX event) (clientY event))
  (setAppState
     (with_scroll
        (scrollX (appState c)
         - (clientX event - pt_x (dragStartRef c'))
           / minimapScale getCommonBounds (elements c))
        (scrollY (appState c)
         - (clientY event - pt_y (dragStartRef c'))
           / minimapScale getCommonBounds (elements c)))
     c').
Proof.
intros Hd Hc Hsb Hr. unfold handleCanvasMouseMove_closure. now rewrite Hd, Hc, Hsb, Hr.
Qed.

(** X8.  Two moves of the pointer during a drag.  When the component is
    rendered again between them, they leave the scroll offsets that the
    second move alone gives.  When both are handled by the callback of one
    render, which reads the application state of that render and the
    pointer position remembered by the first call, the second call
    overwrites the offsets of the first: what is left is the displacement
    from the first position to the second, and the displacement from the
    start of the drag to the first position is lost. *)
Theorem two_moves_compose_only_across_renders
    (first second : MouseEvent) c canvas sb rect :
isDraggingRef c = true ->
minimapCanvas c = Some canvas ->
sceneBounds getCommonBounds (elements c) = Some sb ->
canvasRef c = Some rect ->
finite_appState (appState c) = true ->
finite_bounds sb = true ->
finite_event first = true -> finite_event second = true ->
finite_point (dragStartRef c) = true ->
let scale := minimapScale getCommonBounds (elements c) in
let once := handleCanvasMouseMove getCommonBounds second c in
let rendered_between :=
  handleCanvasMouseMove getCommonBounds second
    (handleCanvasMouseMove getCommonBounds first c) in
let one_render :=
  handleCanvasMouseMove_closure getCommonBounds c second
    (handleCanvasMouseMove_closure getCommonBounds c first c) in
(scrollX (appState rendered_between) =n= scrollX (appState once) /\
 scrollY (appState rendered_between) =n= scrollY (appState once) /\
 dragStartRef rendered_between = dragStartRef once) /\
(scrollX (appState one_render)
 = scrollX (appState c) - (clientX second - clientX first) / scale /\
 scrollY (appState one_render)
 = scrollY (appState c) - (clientY second - clientY first) / scale /\
 dragStartRef one_render = dragStartRef once) /\
(scrollX (appState one_render)
 =n= scrollX (appState once) + (clientX first - pt_x (dragStartRef c)) / scale /\
 scrollY (appState one_render)
 =n= scrollY (appState once) + (clientY first - pt_y (dragStartRef c)) / scale).
Proof.
intros Hd Hc Hsb Hr Fa Fb F1 F2 Fp scale once rendered_between one_render.
destruct (finite_appState_inv _ Fa) as (sx & sy & W & H & z & Esx & Esy & EW & EH & Ez & Nz).
destruct (finite_bounds_inv _ Hsb Fb) as (mx & my & Mx & My & q & Emx & Emy & _ & _ & Eq & Nq).
destruct (finite_event_inv _ F1) as (ax & ay & Eax & Eay).
destruct (finite_event_inv _ F2) as (bx & by' & Ebx & Eby).
destruct (finite_point_inv _ Fp) as (dx & dy & Edx & Edy).
assert (E1 : one_render =
  set_dragStartRef (mkPoint (clientX second) (clientY second))
    (setAppState
       (with_scroll
          (scrollX (appState c) - (clientX second - clientX first) / scale)
          (scrollY (appState c) - (clientY second - clientY first) / scale))
       (handleCanvasMouseMove_closure getCommonBounds c first c))).
{ subst one_render.
  rewrite (@handleCanvasMouseMove_closure_eq second c _ canvas sb rect);
    try assumption.
  - rewrite (@handleCanvasMouseMove_closure_eq first c c canvas sb rect Hd Hc Hsb Hr).
    reflexivity.
  - rewrite (@handleCanvasMouseMove_closure_eq first c c canvas sb rect Hd Hc Hsb Hr).
    exact Hd.
  - rewrite (@handleCanvasMouseMove_closure_eq first c c canvas sb rect Hd Hc Hsb Hr).
    exact Hr. }
split; [|split].
- subst rendered_between once.
  rewrite (handleCanvasMouseMove_eq second _ Hd Hc Hsb Hr).
  rewrite (handleCanvasMouseMove_eq first _ Hd Hc Hsb Hr).
  erewrite handleCanvasMouseMove_eq; try reflexivity; try eassumption.
  cbn [appState setAppState set_dragStartRef with_scroll scrollX scrollY
       dragStartRef elements pt_x pt_y].
  rewrite Esx, Esy, Eq, Eax, Eay, Ebx, Eby, Edx, Edy. fin_arith.
  unfold eqn. repeat split; field; auto.
- rewrite E1. subst once. rewrite (handleCanvasMouseMove_eq second _ Hd Hc Hsb Hr).
  split; [reflexivity|]. split; reflexivity.
- rewrite E1. subst once scale. rewrite (handleCanvasMouseMove_eq second _ Hd Hc Hsb Hr).
  cbn [appState setAppState set_dragStartRef with_scroll scrollX scrollY].
  rewrite Esx, Esy, Eq, Eax, Eay, Ebx, Eby, Edx, Edy. fin_arith.
  unfold eqn. split; field; auto.
Qed.

(** X9.  The handlers of the preview canvas change nothing but the scroll
    offsets, the drag flag and the remembered pointer position: the element
    collection, the bitmap, the timer reference, the flag of the header
    drag, and zoom, size, visibility, position and theme of the application
    state are as before. *)
Theorem preview_handlers_frame (event : MouseEvent) c :
(same_resources c (handleCanvasMouseDown getCommonBounds event c) /\
 same_but_scroll (appState c) (appState (handleCanvasMouseDown getCommonBounds event c)) /\
 isDraggingMinimapRef (handleCanvasMouseDown getCommonBounds event c)
 = isDraggingMinimapRef c) /\
(same_resources c (handleCanvasMouseMove getCommonBounds event c) /\
 same_but_scroll (appState c) (appState (handleCanvasMouseMove getCommonBounds event c)) /\
 isDraggingMinimapRef (handleCanvasMouseMove getCommonBounds event c)
 = isDraggingMinimapRef c /\
 isDraggingRef (handleCanvasMouseMove getCommonBounds event c) = isDraggingRef c) /\
(same_resources c (handleCanvasMouseUp c) /\
 appState (handleCanvasMouseUp c) = appState c /\
 dragStartRef (handleCanvasMouseUp c) = dragStartRef c /\
 isDraggingMinimapRef (handleCanvasMouseUp c) = isDraggingMinimapRef c).
Proof.
unfold same_resources, same_but_scroll.
split; [|split].
- unfold handleCanvasMouseDown.
  destruct (minimapCanvas c) as [canvas|] eqn:Hc;
    destruct (sceneBounds getCommonBounds (elements c)) as [sb|]; cbn;
    try destruct (canvasRef c) eqn:Hr; cbn; rewrite ?Hc, ?Hr; repeat split; reflexivity.
- unfold handleCanvasMouseMove.
  destruct (isDraggingRef c) eqn:Hd; cbn;
    destruct (minimapCanvas c) as [canvas|] eqn:Hc;
    destruct (sceneBounds getCommonBounds (elements c)) as [sb|]; cbn;
    try destruct (canvasRef c) eqn:Hr; cbn; rewrite ?Hc, ?Hd, ?Hr; repeat split; reflexivity.
- unfold handleCanvasMouseUp. cbn. repeat split; reflexivity.
Qed.

(* ------------------------------------------------------------------ *)
(** *** Moving the widget by its header *)

Lemma clamp_Fin (v M : Q) :
exists x : Q,
  Math_max [lit 10; Math_min [Fin v; Fin M - lit 200 - lit 10]] = Fin x /\
  x == Qmax 10 (Qmin v (M - 210)).
Proof.
rewrite Math_min_2, min2_PInf. unfold lit. rewrite !sub_Fin.
match goal with |- context [min2 (Fin v) (Fin ?u)] =>
  destruct (min2_Fin_cases v u) as (m & -> & Hm & _) end.
destruct (Math_max_2_Fin (inject_Z 10) m) as (x & -> & Ex).
exists x. split; [reflexivity|]. rewrite Ex, Hm.
change (inject_Z 10) with 10%Q. change (inject_Z 200) with 200%Q.
assert (E : M + - 200 + - 10 == M - 210) by ring.
now rewrite E.
Qed.

(** X10.  Dragging the widget by its header translates it by the
    displacement of the pointer, clamped to the window: from the position
    [(px, py)], grabbed at [(gx, gy)] and with the pointer now at
    [(ex, ey)], the new abscissa is [max 10 (min (px + (ex - gx)) (W - 210))],
    and likewise the ordinate.  A position that is within the range is not
    changed by a move without displacement. *)
Theorem header_drag_translates_widget
    (window : Window) (grab move : MouseEvent) c (px py gx gy ex ey W H : Q) :
onHeader grab = true ->
minimapPosition (appState c) = mkPoint (Fin px) (Fin py) ->
clientX grab = Fin gx -> clientY grab = Fin gy ->
clientX move = Fin ex -> clientY move = Fin ey ->
innerWidth window = Fin W -> innerHeight window = Fin H ->
let p' :=
  minimapPosition
    (appState (handleGlobalMouseMove window move (handleMinimapMouseDown grab c))) in
exists x y : Q,
  p' = mkPoint (Fin x) (Fin y) /\
  x == Qmax 10 (Qmin (px + (ex - gx)) (W - 210)) /\
  y == Qmax 10 (Qmin (py + (ey - gy)) (H - 210)) /\
  ((10 <= px)%Q -> (px <= W - 210)%Q -> ex == gx -> x == px) /\
  ((10 <= py)%Q -> (py <= H - 210)%Q -> ey == gy -> y == py).
Proof.
intros Hh Hp Hgx Hgy Hex Hey HW HH p'. subst p'.
unfold handleGlobalMouseMove, handleMinimapMouseDown. rewrite Hh.
cbn [negb set_dragStartRef set_isDraggingMinimapRef isDraggingMinimapRef dragStartRef
     appState setAppState with_minimapPosition minimapPosition pt_x pt_y].
rewrite Hp, Hgx, Hgy, Hex, Hey, HW, HH. cbn [pt_x pt_y]. rewrite !sub_Fin.
destruct (clamp_Fin (ex + - (gx + - px)) W) as (x & -> & Ex).
destruct (clamp_Fin (ey + - (gy + - py)) H) as (y & -> & Ey).
exists x, y. split; [reflexivity|].
assert (Ax : ex + - (gx + - px) == px + (ex - gx)) by ring.
assert (Ay : ey + - (gy + - py) == py + (ey - gy)) by ring.
rewrite Ax in Ex. rewrite Ay in Ey.
split; [exact Ex|]. split; [exact Ey|]. split.
- intros L1 L2 E. rewrite Ex, E.
  assert (E0 : px + (gx - gx) == px) by ring. rewrite E0.
  rewrite Q.min_l by assumption. now apply Q.max_r.
- intros L1 L2 E. rewrite Ey, E.
  assert (E0 : py + (gy - gy) == py) by ring. rewrite E0.
  rewrite Q.min_l by assumption. now apply Q.max_r.
Qed.

(** X11.  In a window that measures less than 220 in a direction the
    widget is pinned to [padding = 10] in that direction, wherever the
    pointer is. *)
Theorem handleGlobalMouseMove_pins_in_narrow_window
    (window : Window) (e : MouseEvent) c :
isDraggingMinimapRef c = true ->
let p := minimapPosition (appState (handleGlobalMouseMove window e c)) in
(forall W : Q,
    innerWidth window = Fin W -> (W < 220)%Q ->
    isNaN (clientX e - pt_x (dragStartRef c)) = false ->
    pt_x p =n= lit 10) /\
(forall H : Q,
    innerHeight window = Fin H -> (H < 220)%Q ->
    isNaN (clientY e - pt_y (dragStartRef c)) = false ->
    pt_y p =n= lit 10).
Proof.
intros Hd p. subst p. unfold handleGlobalMouseMove. rewrite Hd.
cbn [negb setAppState with_minimapPosition appState minimapPosition pt_x pt_y].
assert (pin : forall (v : num) (M : Q), (M < 220)%Q -> isNaN v = false ->
          Math_max [lit 10; Math_min [v; Fin M - lit 200 - lit 10]] =n= lit 10).
{ intros v M LM Nv. destruct v as [v| | |]; try discriminate.
  - destruct (clamp_Fin v M) as (x & -> & Ex). unfold lit, eqn. rewrite Ex.
    change (inject_Z 10) with 10%Q. apply Q.max_l.
    eapply Qle_trans; [apply Q.le_min_r|]. lra.
  - rewrite Math_min_2, min2_PInf. unfold lit. rewrite !sub_Fin.
    change (min2 PInf (Fin (M + - inject_Z 200 + - inject_Z 10)))
      with (Fin (M + - inject_Z 200 + - inject_Z 10)).
    match goal with |- context [Math_max [Fin ?a; Fin ?u]] =>
      destruct (Math_max_2_Fin a u) as (x & -> & Ex) end.
    unfold eqn. rewrite Ex.
    change (inject_Z 10) with 10%Q. change (inject_Z 200) with 200%Q.
    apply Q.max_l. lra.
  - reflexivity. }
split; intros M HM LM Nv; rewrite HM; now apply pin.
Qed.

(** X12.  The handlers of the header drag change nothing but the position
    of the widget, the flag of the header drag and the remembered pointer
    offset; a mouse-down outside the header changes nothing at all, and
    after the mouse-up a move of the pointer changes nothing. *)
Theorem header_handlers_frame (window : Window) (event : MouseEvent) c :
(same_resources c (handleMinimapMouseDown event c) /\
 appState (handleMinimapMouseDown event c) = appState c /\
 isDraggingRef (handleMinimapMouseDown event c) = isDraggingRef c /\
 (onHeader event = false -> handleMinimapMouseDown event c = c)) /\
(same_resources c (handleGlobalMouseMove window event c) /\
 same_but_position (appState c) (appState (handleGlobalMouseMove window event c)) /\
 isDraggingRef (handleGlobalMouseMove window event c) = isDraggingRef c /\
 dragStartRef (handleGlobalMouseMove window event c) = dragStartRef c) /\
handleGlobalMouseMove window event (handleGlobalMouseUp c) = handleGlobalMouseUp c.
Proof.
unfold same_resources, same_but_position. split; [|split].
- unfold handleMinimapMouseDown. destruct (onHeader event); cbn;
    repeat split; try reflexivity; discriminate.
- unfold handleGlobalMouseMove. destruct (isDraggingMinimapRef c); cbn;
    repeat split; reflexivity.
- reflexivity.
Qed.

(* ------------------------------------------------------------------ *)
(** *** Painting *)


(* ------------------------------------------------------------------ *)
(** *** The outcome of a refresh *)

Lemma updateMinimap_bitmap_valid
    (els : list Element) (a : AppState Rest) (cell : option Canvas) :
bitmap_valid (snd (fst (updateMinimap getCommonBounds exportToCanvas els a cell))) = true.
Proof.
unfold updateMinimap. destruct (sceneBounds getCommonBounds els) as [sb|]; [|reflexivity].
destruct ((List.length els =? 0)%nat || (bounds_width sb <=? lit 0)
          || (bounds_height sb <=? lit 0)); [reflexivity|].
unfold try_catch, bind, await_export.
destruct (exportToCanvas (export_args getCommonBounds els a sb)) as [[cv|]|e];
  try reflexivity.
destruct ((canvas_width cv >? lit 0) && (canvas_height cv >? lit 0)) eqn:G;
  [|reflexivity].
cbn. exact G.
Qed.

(** X14.  Whatever the export routine does, [updateMinimap] completes
    normally, calls the export routine at most once, and leaves as preview
    either nothing or the canvas that the export routine returned, and
    then one of positive width and height. *)
Theorem updateMinimap_installs_only_valid_bitmaps
    (els : list Element) (a : AppState Rest) (cell : option Canvas) :
exists (cell' : option Canvas) (effects : list (Effect Element Rest)),
  updateMinimap getCommonBounds exportToCanvas els a cell = (Normal tt, cell', effects) /\
  (export_calls effects <= 1)%nat /\
  (cell' = None \/
   exists (cv : Canvas) (sb : SceneBounds),
     cell' = Some cv /\
     sceneBounds getCommonBounds els = Some sb /\
     exportToCanvas (export_args getCommonBounds els a sb) = Normal (Some cv) /\
     (canvas_width cv >? lit 0) = true /\ (canvas_height cv >? lit 0) = true).
Proof.
unfold updateMinimap. destruct (sceneBounds getCommonBounds els) as [sb|] eqn:Hsb.
2:{ do 2 eexists. split; [reflexivity|]. split; [simpl; lia | now left]. }
destruct ((List.length els =? 0)%nat || (bounds_width sb <=? lit 0)
          || (bounds_height sb <=? lit 0)).
{ do 2 eexists. split; [reflexivity|]. split; [simpl; lia | now left]. }
unfold try_catch, bind, await_export.
destruct (exportToCanvas (export_args getCommonBounds els a sb)) as [[cv|]|e] eqn:He.
- destruct (canvas_width cv >? lit 0) eqn:Gw; destruct (canvas_height cv >? lit 0) eqn:Gh;
    cbn [andb]; do 2 eexists; (split; [reflexivity|]); (split; [simpl; lia|]);
    try (now left).
  right. exists cv, sb. auto.
- do 2 eexists. split; [reflexivity|]. split; [simpl; lia | now left].
- do 2 eexists. split; [reflexivity|]. split; [simpl; lia | now left].
Qed.

(** X15.  The second definition of the component: whatever the export
    routine does, its [updateMinimap] completes normally and calls the
    export routine at most once, and it changes the preview only to what
    the export routine has returned; for an empty element collection it
    does nothing. *)
Theorem legacy_updateMinimap_outcome
    (els : list Element) (a : AppState Rest) (cell : option Canvas) :
exists (cell' : option Canvas) (effects : list (Effect Element Rest)),
  legacy_updateMinimap getCommonBounds exportToCanvas els a cell
  = (Normal tt, cell', effects) /\
  (export_calls effects <= 1)%nat /\
  (cell' = cell \/
   exists sb : SceneBounds,
     sceneBounds getCommonBounds els = Some sb /\
     exportToCanvas (legacy_export_args getCommonBounds els a sb) = Normal cell') /\
  (els = [] -> cell' = cell /\ effects = []).
Proof.
unfold legacy_updateMinimap.
destruct (sceneBounds getCommonBounds els) as [sb|] eqn:Hsb.
2:{ do 2 eexists. split; [reflexivity|]. split; [simpl; lia|]. split; [now left | auto]. }
rewrite (sceneBounds_Some_length _ Hsb).
unfold try_catch, bind, await_export.
destruct (exportToCanvas (legacy_export_args getCommonBounds els a sb)) as [canvas|e] eqn:He.
- do 2 eexists. split; [reflexivity|]. split; [simpl; lia|]. split.
  + right. exists sb. auto.
  + intros ->. discriminate.
- do 2 eexists. split; [reflexivity|]. split; [simpl; lia|]. split.
  + now left.
  + intros ->. discriminate.
Qed.

(* ------------------------------------------------------------------ *)
(** *** The toggle action and its tracking *)

(** X16.  The event of the toggle action is tracked exactly when the
    action switches the minimap on: the tracking predicate on the state
    before the action is the value of [showMinimap] after it, and the
    [checked] mark after the action is the opposite of the one before. *)
Theorem toggleMinimap_tracked_when_switched_on (els : list Element) (a : AppState Rest) :
let a' := actionToggleMinimap.result_appState (actionToggleMinimap.perform els a) in
actionToggleMinimap.trackEvent_predicate a = showMinimap a' /\
actionToggleMinimap.checked a' = negb (actionToggleMinimap.checked a) /\
actionToggleMinimap.trackEvent_predicate a' = negb (actionToggleMinimap.trackEvent_predicate a).
Proof.
destruct a as [sm mp sx sy z w h t r]. cbn. repeat split.
Qed.

(* ------------------------------------------------------------------ *)
(** *** The widget in the event loop *)

Lemma fire_bitmap_valid (t : Timer Element Rest) s :
bitmap_valid (minimapCanvas (component (fire getCommonBounds exportToCanvas t s))) = true.
Proof.
unfold fire.
pose proof (updateMinimap_bitmap_valid (captured_elements t) (captured_appState t)
              (minimapCanvas (component s))) as V.
destruct (updateMinimap getCommonBounds exportToCanvas (captured_elements t)
            (captured_appState t) (minimapCanvas (component s))) as [[r cell] effects].
exact V.
Qed.

Lemma fold_fire_bitmap_valid (l : list (Timer Element Rest)) s :
bitmap_valid (minimapCanvas (component s)) = true ->
bitmap_valid (minimapCanvas
                (component (fold_left (fun s t => fire getCommonBounds exportToCanvas t s) l s)))
= true.
Proof.
revert s. induction l as [|t l IH]; intros s H; simpl; [exact H|].
apply IH, fire_bitmap_valid.
Qed.

Lemma gtb_zero_not_eqb (x : num) : (x >? lit 0) = true -> eqb x (lit 0) = false.
Proof.
destruct x as [v| | |]; try discriminate; try reflexivity.
intros G. apply gtb_Fin in G. unfold lit.
destruct (eqb (Fin v) (Fin (inject_Z 0))) eqn:E; [|reflexivity].
apply eqb_Fin in E. rewrite E in G. exfalso. revert G. apply Qlt_irrefl.
Qed.

(** X17.  In every state of the mounted widget the preview is nothing or a
    canvas of positive width and height; so the component returns nothing
    exactly when the minimap is switched off, the element collection is
    empty or there is no preview. *)
Theorem reachable_bitmap_valid s :
reachable getCommonBounds exportToCanvas s ->
bitmap_valid (minimapCanvas (component s)) = true /\
(render (component s) = None <->
 showMinimap (appState (component s)) = false \/
 elements (component s) = [] \/
 minimapCanvas (component s) = None).
Proof.
intros Hreach.
assert (V : bitmap_valid (minimapCanvas (component s)) = true).
{ induction Hreach as [els a | ev s Hreach IH]; [reflexivity|].
  destruct ev as [els a | dt]; unfold step.
  - unfold refreshEffect. cbn [set_props appState elements].
    destruct (showMinimap a && (0 <? List.length els)%nat).
    + unfold debouncedUpdate, setTimeout.
      destruct (debounceTimerRef (set_props els a (component s))) as [id|];
        [destruct (id =? 0)%nat|]; cbn; exact IH.
    + destruct (negb (showMinimap a) || (List.length els =? 0)%nat); cbn;
        [reflexivity | exact IH].
  - apply fold_fire_bitmap_valid. cbn. exact IH. }
split; [exact V|].
unfold render.
destruct (showMinimap (appState (component s))); cbn [negb]; [|tauto].
destruct (elements (component s)) as [|e els] eqn:He; cbn [List.length Nat.eqb]; [tauto|].
destruct (minimapCanvas (component s)) as [cv|]; [|tauto].
cbn in V. apply andb_true_iff in V. destruct V as [Gw Gh].
rewrite (gtb_zero_not_eqb _ Gw), (gtb_zero_not_eqb _ Gh). cbn.
split; [discriminate|]. intros [H|[H|H]]; discriminate.
Qed.

Lemma step_HostChange_arms s (els : list Element) (a : AppState Rest) :
timers_inv s ->
showMinimap a = true -> els <> [] ->
step getCommonBounds exportToCanvas (HostChange els a) s =
mkSystem
  (set_debounceTimerRef (Some (next_id (browser s))) (set_props els a (component s)))
  (mkBrowser (now (browser s)) (S (next_id (browser s)))
             [mkTimer (next_id (browser s)) (now (browser s) + DEBOUNCE_DELAY) els a])
  (history s).
Proof.
intros (Hn & Hlen & Hall) Hshow Hne.
unfold step, refreshEffect. cbn [set_props appState elements].
rewrite Hshow. destruct els as [|e els]; [congruence|].
change (0 <? List.length (e :: els))%nat with true. cbn [andb].
rewrite debouncedUpdate_single by assumption. reflexivity.
Qed.

Lemma filter_none {A} (f : A -> bool) (l : list A) :
(forall x, In x l -> f x = false) -> filter f l = [].
Proof.
induction l as [|x l IH]; intros H; [reflexivity|]. simpl.
rewrite (H x) by now left. apply IH. intros y Hy. apply H. now right.
Qed.

Lemma filter_all {A} (f : A -> bool) (l : list A) :
(forall x, In x l -> f x = true) -> filter f l = l.
Proof.
induction l as [|x l IH]; intros H; [reflexivity|]. simpl.
rewrite (H x) by now left. f_equal. apply IH. intros y Hy. apply H. now right.
Qed.

(** Time that passes before any timer is due changes nothing but the
    clock. *)
Lemma step_Elapse_quiet s (dt : nat) :
(forall t, In t (timers (browser s)) -> (now (browser s) + dt < due t)%nat) ->
step getCommonBounds exportToCanvas (Elapse dt) s =
mkSystem (component s)
         (mkBrowser (now (browser s) + dt) (next_id (browser s)) (timers (browser s)))
         (history s).
Proof.
intros H. unfold step.
rewrite (@filter_none _ (is_due (now (browser s) + dt))).
2:{ intros t Ht. unfold is_due. apply Nat.leb_gt. now apply H. }
rewrite filter_all.
2:{ intros t Ht. unfold is_due. apply negb_true_iff, Nat.leb_gt. now apply H. }
reflexivity.
Qed.

(** X18.  In every state of the mounted widget a pending regeneration is
    due in the future, and at most [DEBOUNCE_DELAY] milliseconds ahead; its
    timer id is smaller than the next id to be handed out. *)
Theorem reachable_timers_due_within_delay s :
reachable getCommonBounds exportToCanvas s ->
forall t : Timer Element Rest,
  In t (timers (browser s)) ->
  (now (browser s) < due t)%nat /\
  (due t <= now (browser s) + DEBOUNCE_DELAY)%nat /\
  (timer_id t < next_id (browser s))%nat.
Proof.
intros Hreach. induction Hreach as [els a | ev s Hreach IH]; [intros t []|].
pose proof (reachable_timers_inv Hreach) as Hinv.
destruct ev as [els a | dt].
- destruct (showMinimap a && (0 <? List.length els)%nat) eqn:G.
  + apply andb_true_iff in G. destruct G as [Hshow Hlen].
    rewrite step_HostChange_arms; try assumption.
    2:{ intros ->. discriminate. }
    cbn. intros t [<-|[]]. cbn. unfold DEBOUNCE_DELAY. lia.
  + unfold step, refreshEffect. cbn [set_props appState elements]. rewrite G.
    destruct (negb (showMinimap a) || (List.length els =? 0)%nat); cbn; exact IH.
- unfold step. set (s0 := mkSystem _ _ _).
  destruct (fold_fire_keeps_timers
              (filter (is_due (now (browser s) + dt)) (timers (browser s))) s0) as [Hb _].
  rewrite Hb. subst s0. cbn. intros t Ht. apply List.filter_In in Ht.
  destruct Ht as [Ht Hdue]. destruct (IH t Ht) as (L1 & L2 & L3).
  unfold is_due in Hdue. apply negb_true_iff, Nat.leb_gt in Hdue. lia.
Qed.

(** Time that passes until the only pending timer is due makes it fire. *)
Lemma step_Elapse_fires s (t : Timer Element Rest) (dt : nat) :
timers (browser s) = [t] ->
(due t <= now (browser s) + dt)%nat ->
step getCommonBounds exportToCanvas (Elapse dt) s =
fire getCommonBounds exportToCanvas t
     (mkSystem (component s)
               (mkBrowser (now (browser s) + dt) (next_id (browser s)) [])
               (history s)).
Proof.
intros Ht Hdue. unfold step. rewrite Ht. cbn [filter].
assert (D : is_due (now (browser s) + dt) t = true)
  by (unfold is_due; now apply Nat.leb_le).
rewrite D. reflexivity.
Qed.

Lemma updateMinimap_degenerate (els : list Element) (a : AppState Rest) sb cell :
sceneBounds getCommonBounds els = Some sb ->
(bounds_width sb <=? lit 0) = true \/ (bounds_height sb <=? lit 0) = true ->
updateMinimap getCommonBounds exportToCanvas els a cell
= (Normal tt, None, [SetMinimapCanvas None]).
Proof.
intros Hsb H. unfold updateMinimap. rewrite Hsb.
destruct H as [H|H]; rewrite H; rewrite ?orb_true_r; reflexivity.
Qed.

(** X19.  A scene without positive extent never reaches the export
    routine: when the collection changes to elements whose bounds have a
    width or a height that is not positive, then after [DEBOUNCE_DELAY]
    milliseconds the preview is cleared, the component returns nothing, and
    the only effect recorded is the clearing, at the time the timer was
    due. *)
Theorem degenerate_scene_is_cleared_after_delay
    s (els : list Element) (a : AppState Rest) sb (dt : nat) :
reachable getCommonBounds exportToCanvas s ->
showMinimap a = true ->
sceneBounds getCommonBounds els = Some sb ->
(bounds_width sb <=? lit 0) = true \/ (bounds_height sb <=? lit 0) = true ->
(DEBOUNCE_DELAY <= dt)%nat ->
let s2 := run getCommonBounds exportToCanvas [HostChange els a; Elapse dt] s in
minimapCanvas (component s2) = None /\
render (component s2) = None /\
timers (browser s2) = [] /\
history s2
= history s ++ [((now (browser s) + DEBOUNCE_DELAY)%nat, SetMinimapCanvas None)].
Proof.
intros Hreach Hshow Hsb Hdeg Hdt s2. subst s2. unfold run. cbn [fold_left].
rewrite (@step_HostChange_arms s els a (reachable_timers_inv Hreach) Hshow
           (sceneBounds_Some_nonempty Hsb)).
erewrite step_Elapse_fires; [|reflexivity | cbn; lia].
unfold fire. cbn [captured_elements captured_appState component minimapCanvas
                  set_debounceTimerRef set_props history browser due].
rewrite (updateMinimap_degenerate _ _ _ Hsb Hdeg).
cbn [map]. repeat split; try reflexivity. apply render_no_canvas. reflexivity.
Qed.

(** X20.  Hiding the minimap or emptying the collection does not cancel a
    regeneration that is pending: the timer armed by the last change with
    the minimap shown and elements present still runs [updateMinimap] when
    it is due, for the elements and the application state of that earlier
    render, while the component returns nothing. *)
Theorem pending_refresh_survives_hiding
    s (els els' : list Element) (a a' : AppState Rest) (dt1 dt2 : nat) :
reachable getCommonBounds exportToCanvas s ->
showMinimap a = true -> els <> [] ->
showMinimap a' = false \/ els' = [] ->
(dt1 < DEBOUNCE_DELAY)%nat -> (DEBOUNCE_DELAY <= dt1 + dt2)%nat ->
let s3 :=
  run getCommonBounds exportToCanvas
      [HostChange els a; Elapse dt1; HostChange els' a'; Elapse dt2] s in
exists (cell : option Canvas) (effects : list (Effect Element Rest)),
  updateMinimap getCommonBounds exportToCanvas els a None = (Normal tt, cell, effects) /\
  history s3
  = history s ++ map (fun e => ((now (browser s) + DEBOUNCE_DELAY)%nat, e)) effects /\
  minimapCanvas (component s3) = cell /\
  render (component s3) = None.
Proof.
intros Hreach Hshow Hne Hoff Hdt1 Hdt2 s3.
assert (G : showMinimap a' && (0 <? List.length els')%nat = false).
{ destruct Hoff as [->| ->]; [reflexivity|]. cbn. apply andb_false_r. }
assert (G' : negb (showMinimap a') || (List.length els' =? 0)%nat = true).
{ destruct Hoff as [->| ->]; [reflexivity|]. cbn. apply orb_true_r. }
assert (E : s3 =
  fire getCommonBounds exportToCanvas
       (mkTimer (next_id (browser s)) (now (browser s) + DEBOUNCE_DELAY) els a)
       (mkSystem
          (setMinimapCanvas None
             (set_props els' a'
                (set_debounceTimerRef (Some (next_id (browser s)))
                   (set_props els a (component s)))))
          (mkBrowser (now (browser s) + dt1 + dt2) (S (next_id (browser s))) [])
          (history s))).
{ subst s3. unfold run. cbn [fold_left].
  rewrite (@step_HostChange_arms s els a (reachable_timers_inv Hreach) Hshow Hne).
  set (s1 := mkSystem _ _ _).
  rewrite (@step_Elapse_quiet s1 dt1).
  2:{ subst s1. cbn. intros t [<-|[]]. cbn. lia. }
  subst s1. cbn [component browser history now next_id timers].
  set (s2 := step _ _ (HostChange els' a') _).
  assert (E2 : s2 = mkSystem
            (setMinimapCanvas None
               (set_props els' a'
                  (set_debounceTimerRef (Some (next_id (browser s)))
                     (set_props els a (component s)))))
            (mkBrowser (now (browser s) + dt1) (S (next_id (browser s)))
               [mkTimer (next_id (browser s)) (now (browser s) + DEBOUNCE_DELAY) els a])
            (history s)).
  { subst s2. unfold step, refreshEffect. cbn [set_props appState elements component browser].
    rewrite G, G'. reflexivity. }
  rewrite E2. erewrite step_Elapse_fires; [reflexivity | reflexivity | cbn; lia]. }
rewrite E. unfold fire.
cbn [captured_elements captured_appState component minimapCanvas
     setMinimapCanvas set_debounceTimerRef set_props history browser due].
destruct (updateMinimap_never_throws els a None) as (cell & effects & Hu & _).
rewrite Hu. exists cell, effects. split; [reflexivity|]. split; [reflexivity|].
split; [reflexivity|].
destruct Hoff as [Hf | He].
- unfold render. cbn. rewrite Hf. reflexivity.
- apply render_empty. cbn. exact He.
Qed.

(** The invariant of a widget that has just been armed: what relates the
    timers to the reference, and every pending timer due a full delay
    ahead. *)
Lemma burst_keeps_quiet (l : list (nat * (list Element * AppState Rest))) s :
timers_inv s ->
(forall t, In t (timers (browser s)) ->
           due t = (now (browser s) + DEBOUNCE_DELAY)%nat) ->
Forall (fun x => (fst x < DEBOUNCE_DELAY)%nat /\
                 showMinimap (snd (snd x)) = true /\ fst (snd x) <> []) l ->
let s' := run getCommonBounds exportToCanvas (burst l) s in
history s' = history s /\
minimapCanvas (component s') = minimapCanvas (component s) /\
timers_inv s' /\
(forall t, In t (timers (browser s')) ->
           due t = (now (browser s') + DEBOUNCE_DELAY)%nat) /\
(l <> [] ->
 exists id : nat,
   timers (browser s')
   = [mkTimer id (now (browser s') + DEBOUNCE_DELAY)
              (elements (component s')) (appState (component s'))]).
Proof.
revert s. induction l as [|[dt [els a]] l IH]; intros s Hinv Hdue Hall.
- cbn. split; [reflexivity|]. split; [reflexivity|]. split; [assumption|].
  split; [assumption|]. intros H. congruence.
- inversion Hall as [|x l' [Hdt [Hshow Hne]] Hall' E]. subst. cbn in Hdt, Hshow, Hne.
  cbn [burst]. unfold run. cbn [fold_left].
  rewrite step_Elapse_quiet by (intros t Ht; rewrite (Hdue t Ht); lia).
  set (s1 := mkSystem _ _ _).
  assert (Hinv1 : timers_inv s1).
  { destruct Hinv as (Hn & Hlen & Hall1). subst s1. unfold timers_inv. cbn. auto. }
  rewrite (@step_HostChange_arms s1 els a Hinv1 Hshow Hne).
  set (s2 := mkSystem _ _ _).
  assert (Hinv2 : timers_inv s2).
  { destruct Hinv1 as (Hn & _ & _). subst s2. unfold timers_inv. cbn.
    split; [lia|]. split; [lia|]. intros t [<-|[]]. cbn. auto. }
  assert (Hdue2 : forall t, In t (timers (browser s2)) ->
                            due t = (now (browser s2) + DEBOUNCE_DELAY)%nat).
  { subst s2. cbn. intros t [<-|[]]. reflexivity. }
  destruct (IH s2 Hinv2 Hdue2 Hall') as (Hh & Hc & Hi & Hd & Ht).
  fold (run getCommonBounds exportToCanvas (burst l) s2).
  split; [rewrite Hh; reflexivity|]. split; [rewrite Hc; reflexivity|].
  split; [exact Hi|]. split; [exact Hd|].
  intros _. destruct l as [|y l].
  + cbn. eexists. reflexivity.
  + apply Ht. discriminate.
Qed.

(** X21.  Continuous interaction regenerates nothing: when changes that
    leave the minimap shown and the collection non-empty follow each other
    at less than [DEBOUNCE_DELAY] milliseconds, no effect of a refresh
    happens and the preview stays as it was, and the one timer that is
    pending at the end is for the elements and the application state of
    the last change, a full delay ahead. *)
Theorem burst_of_changes_regenerates_nothing
    s (els0 : list Element) (a0 : AppState Rest)
    (l : list (nat * (list Element * AppState Rest))) :
reachable getCommonBounds exportToCanvas s ->
showMinimap a0 = true -> els0 <> [] ->
Forall (fun x => (fst x < DEBOUNCE_DELAY)%nat /\
                 showMinimap (snd (snd x)) = true /\ fst (snd x) <> []) l ->
let s' := run getCommonBounds exportToCanvas (HostChange els0 a0 :: burst l) s in
history s' = history s /\
minimapCanvas (component s') = minimapCanvas (component s) /\
exists id : nat,
  timers (browser s')
  = [mkTimer id (now (browser s') + DEBOUNCE_DELAY)
             (elements (component s')) (appState (component s'))].
Proof.
intros Hreach Hshow Hne Hall s'. subst s'. unfold run. cbn [fold_left].
pose proof (reachable_timers_inv Hreach) as Hinv.
rewrite (@step_HostChange_arms s els0 a0 Hinv Hshow Hne).
set (s1 := mkSystem _ _ _).
assert (Hinv1 : timers_inv s1).
{ destruct Hinv as (Hn & _ & _). subst s1. unfold timers_inv. cbn.
  split; [lia|]. split; [lia|]. intros t [<-|[]]. cbn. auto. }
assert (Hdue1 : forall t, In t (timers (browser s1)) ->
                          due t = (now (browser s1) + DEBOUNCE_DELAY)%nat).
{ subst s1. cbn. intros t [<-|[]]. reflexivity. }
destruct (burst_keeps_quiet Hinv1 Hdue1 Hall) as (Hh & Hc & _ & _ & Ht).
fold (run getCommonBounds exportToCanvas (burst l) s1).
split; [rewrite Hh; reflexivity|]. split; [rewrite Hc; reflexivity|].
destruct l as [|y l].
- cbn. eexists. reflexivity.
- apply Ht. discriminate.
Qed.

(** X27.  A regeneration that fails is not tried again by itself.  When
    the export routine rejects, or returns nothing or a canvas without
    positive width and height, for the elements of a change, then after
    [DEBOUNCE_DELAY] milliseconds the failure has been written to the
    console, the export routine has been called once, the preview is
    cleared and the component returns nothing; no timer is left, and
    however much time passes after that, nothing more happens. *)
Theorem failed_refresh_clears_preview_and_is_not_retried
    s (els : list Element) (a : AppState Rest) sb (dt later : nat) :
reachable getCommonBounds exportToCanvas s ->
showMinimap a = true ->
sceneBounds getCommonBounds els = Some sb ->
(bounds_width sb <=? lit 0) = false ->
(bounds_height sb <=? lit 0) = false ->
((exists e, exportToCanvas (export_args getCommonBounds els a sb) = Throw e) \/
 exportToCanvas (export_args getCommonBounds els a sb) = Normal None \/
 (exists cv, exportToCanvas (export_args getCommonBounds els a sb) = Normal (Some cv) /\
             (canvas_width cv >? lit 0) && (canvas_height cv >? lit 0) = false)) ->
(DEBOUNCE_DELAY <= dt)%nat ->
let s2 := run getCommonBounds exportToCanvas [HostChange els a; Elapse dt] s in
exists effects : list (Effect Element Rest),
  history s2
  = history s ++ map (fun e => ((now (browser s) + DEBOUNCE_DELAY)%nat, e)) effects /\
  logged effects = true /\
  export_calls effects = 1%nat /\
  minimapCanvas (component s2) = None /\
  render (component s2) = None /\
  timers (browser s2) = [] /\
  history (step getCommonBounds exportToCanvas (Elapse later) s2) = history s2 /\
  component (step getCommonBounds exportToCanvas (Elapse later) s2) = component s2.
Proof.
intros Hreach Hshow Hsb Hw Hh Hfail Hdt s2.
destruct (@updateMinimap_failure_clears_preview els a sb
            (minimapCanvas (component s)) Hsb Hw Hh Hfail)
  as (effects & Hu & Hlog & Hcalls).
assert (E : s2 =
  mkSystem
    (setMinimapCanvas None
       (set_debounceTimerRef (Some (next_id (browser s)))
          (set_props els a (component s))))
    (mkBrowser (now (browser s) + dt) (S (next_id (browser s))) [])
    (history s ++ map (fun e => ((now (browser s) + DEBOUNCE_DELAY)%nat, e)) effects)).
{ subst s2. unfold run. cbn [fold_left].
  rewrite (@step_HostChange_arms s els a (reachable_timers_inv Hreach) Hshow
             (sceneBounds_Some_nonempty Hsb)).
  erewrite step_Elapse_fires; [|reflexivity | cbn; lia].
  unfold fire. cbn [captured_elements captured_appState component minimapCanvas
                    set_debounceTimerRef set_props history browser due].
  rewrite Hu. reflexivity. }
exists effects. rewrite E. cbn [history component browser timers minimapCanvas
                               setMinimapCanvas].
split; [reflexivity|]. split; [exact Hlog|]. split; [exact Hcalls|].
split; [reflexivity|]. split; [apply render_no_canvas; reflexivity|].
split; [reflexivity|].
rewrite step_Elapse_quiet by (cbn; intros t []).
split; reflexivity.
Qed.

(* ------------------------------------------------------------------ *)
(** *** Collaborators *)

Lemma or_zero_positive (v : Q) : (0 < v)%Q -> or_zero (Some (Fin v)) = Fin v.
Proof.
intros L. unfold or_zero. cbn [isNaN orb].
destruct (eqb (Fin v) (lit 0)) eqn:E; [|reflexivity].
apply eqb_Fin in E. change (inject_Z 0) with 0%Q in E. rewrite E in L.
exfalso. revert L. apply Qlt_irrefl.
Qed.

(** X22.  The box of a collaborator has the size of the local indicator,
    whatever the pointer of the collaborator is, and it lies where the
    local indicator is painted, moved by 8 to the right and by 8 + 24 down
    and by the difference between the local scroll offsets and the pointer
    of the collaborator, times the scale. *)
Theorem collaboratorBox_is_shifted_indicator (pointer : Point) c canvas sb (cw ch : Q) :
minimapCanvas c = Some canvas ->
sceneBounds getCommonBounds (elements c) = Some sb ->
canvas_width canvas = Fin cw -> canvas_height canvas = Fin ch ->
(0 < cw)%Q -> (0 < ch)%Q ->
finite_appState (appState c) = true ->
finite_bounds sb = true ->
finite_point pointer = true ->
exists (box : Box) (r : Rect),
  collaboratorBox getCommonBounds (Some pointer) c = Some box /\
  viewportRect getCommonBounds c = Some r /\
  box_width box =n= rect_width r /\
  box_height box =n= rect_height r /\
  box_left box
  =n= rect_x r + centeringOffset (canvas_width canvas) + lit 8
      + (scrollX (appState c) - pt_x pointer)
        * minimapScale getCommonBounds (elements c) /\
  box_top box
  =n= rect_y r + centeringOffset (canvas_height canvas) + lit 8 + lit 24
      + (scrollY (appState c) - pt_y pointer)
        * minimapScale getCommonBounds (elements c).
Proof.
intros Hc Hsb Ecw Ech Lw Lh Fa Fb Fp.
destruct (finite_appState_inv _ Fa) as (sx & sy & W & H & z & Esx & Esy & EW & EH & Ez & Nz).
destruct (finite_bounds_inv _ Hsb Fb) as (mx & my & Mx & My & q & Emx & Emy & _ & _ & Eq & Nq).
destruct (finite_point_inv _ Fp) as (ptx & pty & Eptx & Epty).
unfold collaboratorBox, viewportRect. rewrite Hc, Hsb.
do 2 eexists. split; [reflexivity|]. split; [reflexivity|].
cbn [box_left box_top box_width box_height rect_x rect_y rect_width rect_height option_map].
unfold toMinimap. rewrite Ecw, Ech, !or_zero_positive by assumption.
fold (centeringOffset (Fin cw)). fold (centeringOffset (Fin ch)).
destruct (centeringOffset_Fin cw) as (ox & -> & _).
destruct (centeringOffset_Fin ch) as (oy & -> & _).
rewrite Esx, Esy, EW, EH, Ez, Emx, Emy, Eq, Eptx, Epty. fin_arith.
unfold eqn. repeat split; field; auto.
Qed.
(* ------------------------------------------------------------------ *)
(** *** Scenes without extent, and regenerations that fail *)

Lemma fire_keeps_props (t : Timer Element Rest) s :
elements (component (fire getCommonBounds exportToCanvas t s)) = elements (component s) /\
appState (component (fire getCommonBounds exportToCanvas t s)) = appState (component s).
Proof.
unfold fire.
destruct (updateMinimap getCommonBounds exportToCanvas (captured_elements t)
            (captured_appState t) (minimapCanvas (component s))) as [[r cell] effs].
split; reflexivity.
Qed.

Lemma step_Elapse_keeps_props s (dt : nat) :
elements (component (step getCommonBounds exportToCanvas (Elapse dt) s))
= elements (component s) /\
appState (component (step getCommonBounds exportToCanvas (Elapse dt) s))
= appState (component s).
Proof.
unfold step.
generalize (filter (is_due (now (browser s) + dt)) (timers (browser s))) as ready.
set (s0 := mkSystem _ _ _).
change (elements (component s)) with (elements (component s0)).
change (appState (component s)) with (appState (component s0)).
generalize s0. clear s0. intros s0 ready. revert s0.
induction ready as [|t l IH]; intros s0; simpl; [auto|].
destruct (IH (fire getCommonBounds exportToCanvas t s0)) as [H1 H2].
destruct (fire_keeps_props t s0) as [H3 H4]. split; congruence.
Qed.

Lemma step_HostChange_props s (els : list Element) (a : AppState Rest) :
elements (component (step getCommonBounds exportToCanvas (HostChange els a) s)) = els /\
appState (component (step getCommonBounds exportToCanvas (HostChange els a) s)) = a.
Proof.
unfold step, refreshEffect. cbn [set_props appState elements].
destruct (showMinimap a && (0 <? List.length els)%nat).
- unfold debouncedUpdate, setTimeout.
  destruct (debounceTimerRef (set_props els a (component s))) as [id|];
    [destruct (id =? 0)%nat|]; cbn; auto.
- destruct (negb (showMinimap a) || (List.length els =? 0)%nat); cbn; auto.
Qed.

(** In every state of the mounted widget the preview is nothing or a
    canvas of positive width and height. *)
Lemma reachable_preview_positive s :
reachable getCommonBounds exportToCanvas s ->
bitmap_valid (minimapCanvas (component s)) = true.
Proof.
induction 1 as [els a | ev s Hreach IH]; [reflexivity|].
destruct ev as [els a | dt]; unfold step.
- set (c := set_props els a (component s)).
  assert (V : bitmap_valid (minimapCanvas c) = true) by exact IH.
  unfold refreshEffect.
  destruct (showMinimap (appState c) && (0 <? List.length (elements c))%nat).
  + unfold debouncedUpdate, setTimeout.
    destruct (debounceTimerRef c) as [id|]; [destruct (id =? 0)%nat|]; cbn; exact V.
  + destruct (negb (showMinimap (appState c)) || (List.length (elements c) =? 0)%nat);
      cbn; [reflexivity | exact V].
- apply fold_fire_bitmap_valid. cbn. exact IH.
Qed.

(** C5.  When the element collection is empty, or the width or the height
    of the scene bounds is not positive, [updateMinimap] sets the preview
    bitmap to null and does not call the export routine.  With an empty
    collection the component returns nothing from the change on.  With
    elements whose bounds have no positive extent, and the minimap shown,
    the component returns nothing once the debounced [updateMinimap] has
    run, [DEBOUNCE_DELAY] milliseconds after the change, and nothing but
    the clearing is recorded; before that the bitmap is the one held
    before the change, and with such a bitmap the widget is still
    returned. *)
Theorem updateMinimap_suppresses_degenerate_scene
    s (els : list Element) (a : AppState Rest) :
reachable getCommonBounds exportToCanvas s ->
(els = [] \/
 exists sb : SceneBounds,
   sceneBounds getCommonBounds els = Some sb /\
   ((bounds_width sb <=? lit 0) = true \/ (bounds_height sb <=? lit 0) = true)) ->
let after dt := run getCommonBounds exportToCanvas [HostChange els a; Elapse dt] s in
(forall cell : option Canvas,
    updateMinimap getCommonBounds exportToCanvas els a cell
    = (Normal tt, None, [SetMinimapCanvas None])) /\
(els = [] -> forall dt : nat, render (component (after dt)) = None) /\
(els <> [] -> showMinimap a = true ->
 forall dt : nat,
   ((dt < DEBOUNCE_DELAY)%nat ->
    minimapCanvas (component (after dt)) = minimapCanvas (component s) /\
    history (after dt) = history s /\
    forall cv : Canvas,
      minimapCanvas (component s) = Some cv ->
      render (component (after dt))
      = Some (mkWidget (pt_x (minimapPosition a)) (pt_y (minimapPosition a)))) /\
   ((DEBOUNCE_DELAY <= dt)%nat ->
    minimapCanvas (component (after dt)) = None /\
    render (component (after dt)) = None /\
    history (after dt)
    = history s ++ [((now (browser s) + DEBOUNCE_DELAY)%nat, SetMinimapCanvas None)])).
Proof.
intros Hreach Hdeg after.
assert (U : forall cell : option Canvas,
           updateMinimap getCommonBounds exportToCanvas els a cell
           = (Normal tt, None, [SetMinimapCanvas None])).
{ intros cell. destruct Hdeg as [-> | (sb & Hsb & H)]; [reflexivity|].
  exact (@updateMinimap_degenerate els a sb cell Hsb H). }
split; [exact U|]. split.
- intros He dt. apply render_empty. subst after. unfold run. cbn [fold_left].
  destruct (step_Elapse_keeps_props
              (step getCommonBounds exportToCanvas (HostChange els a) s) dt) as [-> _].
  destruct (step_HostChange_props s els a) as [-> _]. exact He.
- intros Hne Hshow dt. subst after. unfold run. cbn [fold_left].
  rewrite (@step_HostChange_arms s els a (reachable_timers_inv Hreach) Hshow Hne).
  set (s1 := mkSystem _ _ _). split.
  + intros Hdt. rewrite (@step_Elapse_quiet s1 dt).
    2:{ subst s1. cbn. intros t [<-|[]]. cbn. lia. }
    subst s1. cbn [component history minimapCanvas set_debounceTimerRef set_props].
    split; [reflexivity|]. split; [reflexivity|].
    intros cv Hcv. pose proof (reachable_preview_positive Hreach) as V.
    rewrite Hcv in V. cbn in V. apply andb_true_iff in V. destruct V as [Gw Gh].
    unfold render. cbn [appState elements minimapCanvas set_debounceTimerRef set_props].
    rewrite Hshow, Hcv. cbn [negb].
    destruct els as [|e els']; [congruence|]. cbn [List.length Nat.eqb].
    rewrite (gtb_zero_not_eqb _ Gw), (gtb_zero_not_eqb _ Gh). reflexivity.
  + intros Hdt. erewrite step_Elapse_fires; [|reflexivity | subst s1; cbn; lia].
    subst s1. unfold fire.
    cbn [captured_elements captured_appState component minimapCanvas
         set_debounceTimerRef set_props history browser due].
    rewrite U. cbn [map]. split; [reflexivity|]. split; [|reflexivity].
    apply render_no_canvas. reflexivity.
Qed.

(** C7.  A regeneration that fails, because the export routine throws,
    returns no canvas, or returns a canvas whose width or height is not
    positive, is caught and logged: the timer that runs [updateMinimap]
    completes normally after one call of the export routine, the preview
    is null afterwards and the component returns nothing, and no timer is
    armed, so that the failure is not followed by another attempt. *)
Theorem updateMinimap_failure_is_logged_and_contained
    (t : Timer Element Rest) s sb :
sceneBounds getCommonBounds (captured_elements t) = Some sb ->
(bounds_width sb <=? lit 0) = false ->
(bounds_height sb <=? lit 0) = false ->
let result :=
  exportToCanvas
    (export_args getCommonBounds (captured_elements t) (captured_appState t) sb) in
((exists e, result = Throw e) \/
 result = Normal None \/
 (exists cv, result = Normal (Some cv) /\
             (canvas_width cv >? lit 0) && (canvas_height cv >? lit 0) = false)) ->
let s' := fire getCommonBounds exportToCanvas t s in
exists effects : list (Effect Element Rest),
  updateMinimap getCommonBounds exportToCanvas (captured_elements t) (captured_appState t)
                (minimapCanvas (component s))
  = (Normal tt, None, effects) /\
  logged effects = true /\
  export_calls effects = 1%nat /\
  (exists before, effects = before ++ [SetMinimapCanvas None]) /\
  minimapCanvas (component s') = None /\
  render (component s') = None /\
  browser s' = browser s /\
  debounceTimerRef (component s') = debounceTimerRef (component s) /\
  history s' = history s ++ map (fun e => (due t, e)) effects.
Proof.
intros Hsb Hw Hh result Hfail s'.
assert (U : exists effects : list (Effect Element Rest),
           updateMinimap getCommonBounds exportToCanvas (captured_elements t)
                         (captured_appState t) (minimapCanvas (component s))
           = (Normal tt, None, effects) /\
           logged effects = true /\ export_calls effects = 1%nat /\
           exists before, effects = before ++ [SetMinimapCanvas None]).
{ unfold updateMinimap.
  rewrite Hsb, (sceneBounds_Some_length _ Hsb), Hw, Hh. cbn [orb].
  unfold try_catch, bind, await_export. fold result.
  destruct Hfail as [(e & ->) | [-> | (cv & -> & Hcv)]].
  - eexists. split; [reflexivity|]. split; [reflexivity|]. split; [reflexivity|].
    eexists [_; _]. reflexivity.
  - eexists. split; [reflexivity|]. split; [reflexivity|]. split; [reflexivity|].
    eexists [_; _]. reflexivity.
  - rewrite Hcv. eexists. split; [reflexivity|]. split; [reflexivity|].
    split; [reflexivity|]. eexists [_; _]. reflexivity. }
destruct U as (effects & Hu & Hlog & Hcalls & Hlast).
exists effects. split; [exact Hu|]. split; [exact Hlog|]. split; [exact Hcalls|].
split; [exact Hlast|].
subst s'. unfold fire. rewrite Hu.
cbn [component browser history minimapCanvas setMinimapCanvas debounceTimerRef].
split; [reflexivity|]. split; [apply render_no_canvas; reflexivity|].
split; [reflexivity|]. split; reflexivity.
Qed.

End Properties.

(* ================================================================== *)
(** ** Properties of the names of assets and chunks *)

Section ViteConfigFacts.
Import ViteConfig.
Local Open Scope string_scope.

Lemma startsWith_app (p s : string) : startsWith p (p ++ s) = true.
Proof.
induction p as [|a p IH]; [reflexivity|]. cbn. now rewrite Ascii.eqb_refl.
Qed.

Lemma drop_app (pre s : string) : drop (String.length pre) (pre ++ s) = s.
Proof. induction pre as [|a pre IH]; [reflexivity | exact IH]. Qed.

Lemma length_app_string (a b : string) :
String.length (a ++ b) = (String.length a + String.length b)%nat.
Proof. induction a as [|x a IH]; [reflexivity|]. cbn. now rewrite IH. Qed.

Lemma app_assoc_string (a b c : string) : (a ++ b) ++ c = a ++ (b ++ c).
Proof. induction a as [|x a IH]; [reflexivity|]. cbn. now rewrite IH. Qed.

Lemma indexOf_from_first_at (pat s : string) (n i : nat) :
first_at pat s n = true -> indexOf_from pat s i = Some (i + n)%nat.
Proof.
revert s i. induction n as [|n IH]; intros s i H.
- change (startsWith pat s = true) in H.
  destruct s; cbn [indexOf_from]; rewrite H; f_equal; lia.
- change (negb (startsWith pat s)
          && match s with
             | EmptyString => false
             | String _ s' => first_at pat s' n
             end = true) in H.
  apply andb_true_iff in H. destruct H as [H1 H2].
  apply negb_true_iff in H1. destruct s as [|a s]; [discriminate|].
  cbn [indexOf_from]. rewrite H1. rewrite (@IH s (S i) H2). f_equal. lia.
Qed.

Lemma indexOf_first_at (pat s : string) (n : nat) :
first_at pat s n = true -> indexOf pat s = Z.of_nat n.
Proof.
intros H. unfold indexOf. now rewrite (@indexOf_from_first_at pat s n 0 H).
Qed.

Lemma regex_found_app (alts : list (list RegexChar)) (pre s : string) :
existsb (fun pat => matches_here pat s) alts = true ->
regex_found alts (pre ++ s) = true.
Proof.
intros H. induction pre as [|a pre IH].
- cbn. destruct s; cbn; rewrite H; reflexivity.
- cbn [append regex_found]. rewrite IH. apply orb_true_r.
Qed.

Lemma endsWith_app (pre suffix : string) : endsWith (pre ++ suffix) suffix = true.
Proof.
induction pre as [|a pre IH].
- destruct suffix as [|b sfx]; cbn [append endsWith]; rewrite String.eqb_refl;
    reflexivity.
- cbn [append endsWith]. destruct (String.eqb (String a (pre ++ suffix)) suffix);
    [reflexivity | exact IH].
Qed.

Lemma split_first_stops (sep : ascii) (fam tail : string) :
without sep fam = true ->
split_first sep (fam ++ String sep tail) = fam.
Proof.
induction fam as [|a fam IH]; intros H.
- cbn. now rewrite Ascii.eqb_refl.
- cbn in H. apply andb_true_iff in H. destruct H as [H1 H2].
  apply negb_true_iff in H1. cbn. rewrite H1. f_equal. now apply IH.
Qed.

Lemma split_first_whole (sep : ascii) (s : string) :
without sep s = true -> split_first sep s = s.
Proof.
induction s as [|a s IH]; intros H; [reflexivity|].
cbn in H. apply andb_true_iff in H. destruct H as [H1 H2].
apply negb_true_iff in H1. cbn. rewrite H1. f_equal. now apply IH.
Qed.

Lemma without_split_first (sep : ascii) (s : string) :
without sep (split_first sep s) = true.
Proof.
induction s as [|a s IH]; [reflexivity|]. cbn.
destruct (Ascii.eqb a sep) eqn:E; [reflexivity|]. cbn. now rewrite E, IH.
Qed.

(** X23.  A module of the locales directory that is neither the English
    one nor the percentages is put into the chunk named by what follows
    the first [locales/] of its path: for [id = pre ++ "locales/" ++ rest]
    with no earlier [locales/], the chunk is ["locales/" ++ rest]. *)
Theorem manualChunks_names_chunk_after_first_locales (pre rest : string) :
let id := pre ++ "locales/" ++ rest in
first_at "locales/" id (String.length pre) = true ->
includes "packages/excalidraw/locales" id = true ->
regex_found en_or_percentages id = false ->
manualChunks id = Some ("locales/" ++ rest).
Proof.
intros id Hfirst Hinc Hre. unfold manualChunks. rewrite Hinc, Hre. cbn [negb andb].
rewrite (@indexOf_first_at _ _ _ Hfirst). unfold substring_from.
replace (Z.to_nat (Z.of_nat (String.length pre) + 8))
  with (String.length (pre ++ "locales/")).
2:{ rewrite length_app_string. cbn [String.length]. lia. }
subst id. rewrite <- app_assoc_string, drop_app. reflexivity.
Qed.

(** X24.  A module whose path contains [en], one character that is not a
    line terminator, and [json], or [percentages], such a character and
    [json], is never put into a chunk of its own, wherever in the path
    that is: [en.json] and [percentages.json] stay in the main bundle, and
    so does every path in which these seven or sixteen characters
    appear. *)
Theorem manualChunks_keeps_en_and_percentages (pre post : string) (c : ascii) :
is_line_terminator c = false ->
manualChunks (pre ++ "en" ++ String c ("json" ++ post)) = None /\
manualChunks (pre ++ "percentages" ++ String c ("json" ++ post)) = None.
Proof.
intros Hc. unfold manualChunks. split.
- rewrite regex_found_app; [now rewrite andb_false_r|].
  cbn. rewrite Hc. reflexivity.
- rewrite regex_found_app; [now rewrite andb_false_r|].
  cbn. rewrite Hc. reflexivity.
Qed.

(** X25.  When the path of a module to be split out contains no
    [locales/], [indexOf] gives -1 and the chunk is named by the path
    without its first seven characters. *)
Theorem manualChunks_without_locales_slash (id : string) :
includes "packages/excalidraw/locales" id = true ->
regex_found en_or_percentages id = false ->
includes "locales/" id = false ->
manualChunks id = Some ("locales/" ++ drop 7 id).
Proof.
intros Hinc Hre Hno. unfold manualChunks. rewrite Hinc, Hre. cbn [negb andb].
unfold indexOf. unfold includes in Hno.
destruct (indexOf_from "locales/" id 0); [discriminate|]. reflexivity.
Qed.

Lemma without_app (a : ascii) (s t : string) :
without a s = true -> without a t = true -> without a (s ++ t) = true.
Proof.
induction s as [|b s IH]; intros Hs Ht; [exact Ht|].
cbn in Hs. apply andb_true_iff in Hs. destruct Hs as [H1 H2].
cbn. rewrite H1. now apply IH.
Qed.

(** X26.  A file whose name ends in [.woff2] goes to the directory of its
    family, which is the part of the name before the first dash and never
    contains a dash; a font file without a dash in its name goes to a
    directory that bears its whole name, the extension included. *)
Theorem assetFileNames_font_family (stem : string) :
let name := stem ++ ".woff2" in
assetFileNames (Some name) = "fonts/" ++ split_first "-" name ++ "/[name][extname]" /\
without "-" (split_first "-" name) = true /\
(forall family tail : string,
    stem = family ++ String "-" tail -> without "-" family = true ->
    assetFileNames (Some name) = "fonts/" ++ family ++ "/[name][extname]") /\
(without "-" stem = true ->
 assetFileNames (Some name) = "fonts/" ++ stem ++ ".woff2" ++ "/[name][extname]").
Proof.
intros name. subst name. unfold assetFileNames. rewrite endsWith_app.
split; [reflexivity|]. split; [apply without_split_first|]. split.
- intros family tail -> Hf. rewrite app_assoc_string. cbn [append].
  now rewrite split_first_stops.
- intros Hw. rewrite split_first_whole; [now rewrite app_assoc_string|].
  apply without_app; [exact Hw | reflexivity].
Qed.

End ViteConfigFacts.

(* ================================================================== *)
(** ** The dimensions of the bitmap in binary64 *)

(** X1.  Rounding lets the bitmap that [updateMinimap] asks for exceed the
    preview square.  For a scene 292 wide and 100 high the scale is
    150 / 292 rounded, and the width handed to the export routine,
    292 times that scale, is the binary64 number next above 150, where
    arithmetic without rounding gives 150.  Of the scenes of height 100
    whose width is an integer from 151 to 5000, 49 ask for a width above
    150.  For all widths and heights that are integers from 1 to 500 the
    dimensions asked for are at least 1 and at most the number next above
    150, and the scale is in (0, 1]. *)
Theorem getDimensions_exceeds_preview_by_rounding :
let asked_width (d : float * float * float) := fst (fst d) in
Binary64.minimapScale 292 100 = (150 / 292)%float /\
asked_width (Binary64.getDimensions 292 100) = PrimFloat.next_up 150 /\
(150 <? PrimFloat.next_up 150)%float = true /\
match sceneBounds Examples.bounds_292x100 [1%nat] with
| Some sb =>
    dim_width (getDimensions (export_args Examples.bounds_292x100 [1%nat]
                                          Examples.appState0 sb) (lit 0) (lit 0))
    =n= lit 150
| None => False
end /\
List.length
  (filter (fun w => (150 <? asked_width (Binary64.getDimensions w 100))%float)
          (Binary64.integers 4850 151%float))
= 49%nat /\
forallb
  (fun w =>
     forallb (fun h => Binary64.within (PrimFloat.next_up 150) (Binary64.getDimensions w h))
             (Binary64.integers 500 1%float))
  (Binary64.integers 500 1%float)
= true.
Proof.
cbv zeta.
split; [vm_compute; reflexivity|]. split; [vm_compute; reflexivity|].
split; [vm_compute; reflexivity|]. split; [vm_compute; reflexivity|].
split; vm_compute; reflexivity.
Qed.

(* ================================================================== *)
(** ** The properties on concrete scenes *)

Import Examples.

Lemma minimapScale_min_of_ratios_witness :
[1%nat] <> [] /\
bounds_300x600 [1%nat] = (lit 10, lit 20, lit 310, lit 620) /\
(minimapScale bounds_300x600 [1%nat] <=? Fin 1) = true /\
minimapScale bounds_300x600 [1%nat] =n= Fin (Qmin (Qmin (150 / 300) (150 / 600)) 1) /\
minimapScale bounds_300x600 [] = Fin 1.
Proof.
assert (Hne : [1%nat] <> []) by discriminate.
destruct (minimapScale_min_of_ratios bounds_300x600) as [H H0].
destruct (H [1%nat] (lit 10) (lit 20) (lit 310) (lit 620) Hne eq_refl)
  as (_ & _ & Hle & Hq).
split; [exact Hne|]. split; [reflexivity|].
split; [apply Hle; reflexivity|].
split; [apply (Hq 300%Q 600%Q); reflexivity | exact H0].
Defined.

Lemma toScene_toMinimap_roundtrip_witness :
(0 < 1 # 4)%Q /\
toScene (Fin 10) (Fin (1 # 4)) (toMinimap (Fin 10) (Fin (1 # 4)) (Fin 310)) =n= Fin 310.
Proof.
assert (H : (0 < 1 # 4)%Q) by reflexivity.
split; [exact H|].
exact (proj2 (proj2 (toScene_toMinimap_roundtrip 310 10 H))).
Defined.

Lemma viewportRect_forward_image_witness :
minimapCanvas (component0 (Some canvas_75x150)) = Some canvas_75x150 /\
sceneBounds bounds_300x600 (elements (component0 (Some canvas_75x150))) = Some sb_300x600 /\
exists r : Rect,
  viewportRect bounds_300x600 (component0 (Some canvas_75x150)) = Some r /\
  rect_x r = (- lit 0 - lit 10) * minimapScale bounds_300x600 [1%nat] /\
  rect_x r + rect_width r
  =n= (- lit 0 + lit 800 / lit 1 - lit 10) * minimapScale bounds_300x600 [1%nat].
Proof.
assert (Hc : minimapCanvas (component0 (Some canvas_75x150)) = Some canvas_75x150)
  by reflexivity.
assert (Hsb : sceneBounds bounds_300x600 (elements (component0 (Some canvas_75x150)))
              = Some sb_300x600) by reflexivity.
split; [exact Hc|]. split; [exact Hsb|].
destruct (viewportRect_forward_image bounds_300x600 _ Hc Hsb)
  as (r & Hr & Hx & _ & _ & _ & Hfar & _).
exists r. split; [exact Hr|]. split; [exact Hx|].
apply Hfar. rewrite Hx. reflexivity.
Defined.

Lemma handleCanvasMouseDown_recenters_witness :
let c := component0 (Some canvas_75x150) in
let a' := appState (handleCanvasMouseDown bounds_300x600 click_center c) in
minimapCanvas c = Some canvas_75x150 /\
sceneBounds bounds_300x600 (elements c) = Some sb_300x600 /\
canvasRef c = Some rect0 /\
- scrollX a' + lit 800 / lit 1 / lit 2 =n= (lit 10 + lit 310) / lit 2 /\
- scrollY a' + lit 600 / lit 1 / lit 2 =n= (lit 20 + lit 620) / lit 2.
Proof.
intros c a'.
assert (Hc : minimapCanvas c = Some canvas_75x150) by reflexivity.
assert (Hsb : sceneBounds bounds_300x600 (elements c) = Some sb_300x600) by reflexivity.
assert (Hr : canvasRef c = Some rect0) by reflexivity.
destruct (handleCanvasMouseDown_recenters bounds_300x600 click_center _ Hc Hsb Hr)
  as (_ & _ & Hx & Hy & Hcenter).
destruct (Hcenter 300%Q 600%Q) as [Cx Cy]; try reflexivity.
split; [exact Hc|]. split; [exact Hsb|]. split; [exact Hr|]. split.
- eapply eqn_trans; [apply Hx; reflexivity | exact Cx].
- eapply eqn_trans; [apply Hy; reflexivity | exact Cy].
Defined.

(** C2, as it is stated, on the thin scene.  The bitmap is the one that
    [updateMinimap] obtains from an export routine that honours
    [getDimensions]: its width is [Math.max(1, 1/2 * 1/2) = 1].  A click in
    the middle of the preview square moves the centre of the viewport to
    the scene abscissa 1, and the centre of the bounding box is at 1/4. *)
Lemma center_click_misses_center_of_thin_scene :
let c := component0 None in
let cell := snd (fst (updateMinimap bounds_thin export_ok (elements c) (appState c)
                                    (minimapCanvas c))) in
let c1 := setMinimapCanvas cell c in
let a' := appState (handleCanvasMouseDown bounds_thin click_center c1) in
cell = Some canvas_1x150 /\
sceneBounds bounds_thin (elements c1) = Some sb_thin /\
canvasRef c1 = Some rect0 /\
render c1 <> None /\
clientX click_center - left rect0 =n= MINIMAP_SIZE / lit 2 /\
clientY click_center - top rect0 =n= MINIMAP_SIZE / lit 2 /\
- scrollX a' + lit 800 / lit 1 / lit 2 =n= Fin 1 /\
(minX sb_thin + maxX sb_thin) / lit 2 =n= Fin (1 # 4) /\
~ (- scrollX a' + lit 800 / lit 1 / lit 2 =n= (minX sb_thin + maxX sb_thin) / lit 2).
Proof.
cbv zeta. repeat split; try reflexivity.
- discriminate.
- vm_compute. discriminate.
Qed.

Lemma updateMinimap_suppresses_degenerate_scene_witness :
let step := step bounds_shrinking export_ok in
let s := step (Elapse 300) (step (HostChange [1%nat] appState0) (mount (@nil Element) appState0)) in
let after dt := run bounds_shrinking export_ok [HostChange [2%nat] appState0; Elapse dt] s in
reachable bounds_shrinking export_ok s /\
(exists sb : SceneBounds,
    sceneBounds bounds_shrinking [2%nat] = Some sb /\
    ((bounds_width sb <=? lit 0) = true \/ (bounds_height sb <=? lit 0) = true)) /\
minimapCanvas (component s) = Some canvas_75x150 /\
updateMinimap bounds_shrinking export_ok [2%nat] appState0 (Some canvas_75x150)
= (Normal tt, None, [SetMinimapCanvas None]) /\
render (component (after 299%nat)) = Some (mkWidget (lit 20) (lit 20)) /\
history (after 299%nat) = history s /\
render (component (after 300%nat)) = None /\
history (after 300%nat) = history s ++ [(600%nat, SetMinimapCanvas None)].
Proof.
intros step s after.
assert (R : reachable bounds_shrinking export_ok s)
  by (do 2 apply reachable_step; apply reachable_mount).
assert (D : exists sb : SceneBounds,
           sceneBounds bounds_shrinking [2%nat] = Some sb /\
           ((bounds_width sb <=? lit 0) = true \/ (bounds_height sb <=? lit 0) = true)).
{ exists sb_point. split; [reflexivity|]. left. reflexivity. }
assert (C : minimapCanvas (component s) = Some canvas_75x150) by reflexivity.
destruct (@updateMinimap_suppresses_degenerate_scene
            Element Rest bounds_shrinking export_ok s [2%nat] appState0 R (or_intror D))
  as (Hu & _ & Hlater).
destruct (Hlater ltac:(discriminate) eq_refl 299%nat) as (Hstale & _).
destruct (Hlater ltac:(discriminate) eq_refl 300%nat) as (_ & Hcleared).
destruct (Hstale ltac:(unfold DEBOUNCE_DELAY; lia)) as (_ & Hh & Hr).
destruct (Hcleared ltac:(unfold DEBOUNCE_DELAY; lia)) as (_ & Hr' & Hh').
split; [exact R|]. split; [exact D|]. split; [exact C|].
split; [exact (Hu (Some canvas_75x150))|].
split; [exact (Hr canvas_75x150 C)|]. split; [exact Hh|]. split; [exact Hr'|].
exact Hh'.
Defined.

(** C5, as it is stated, on a scene that shrinks to a point.  At time 0
    an element appears, and at time 300 the preview of 75 by 150 is
    installed.  Then the collection changes to one element without
    extent: the bounds have the width 0 and the height 0, and until the
    timer armed by this change is due the component still returns the
    widget, with the preview of the scene before the change. *)
Lemma stale_preview_of_scene_without_extent_is_rendered :
let step := step bounds_shrinking export_ok in
let s0 := mount (@nil Element) appState0 in
let s1 := step (Elapse 300) (step (HostChange [1%nat] appState0) s0) in
let s2 := step (Elapse 299) (step (HostChange [2%nat] appState0) s1) in
reachable bounds_shrinking export_ok s2 /\
elements (component s2) = [2%nat] /\
sceneBounds bounds_shrinking (elements (component s2)) = Some sb_point /\
(bounds_width sb_point <=? lit 0) = true /\
(bounds_height sb_point <=? lit 0) = true /\
minimapCanvas (component s2) = Some canvas_75x150 /\
render (component s2) = Some (mkWidget (lit 20) (lit 20)) /\
~ (forall s : System Element Rest,
      reachable bounds_shrinking export_ok s ->
      (elements (component s) = [] \/
       exists sb : SceneBounds,
         sceneBounds bounds_shrinking (elements (component s)) = Some sb /\
         ((bounds_width sb <=? lit 0) = true \/ (bounds_height sb <=? lit 0) = true)) ->
      render (component s) = None).
Proof.
intros step s0 s1 s2.
assert (R : reachable bounds_shrinking export_ok s2)
  by (do 4 apply reachable_step; apply reachable_mount).
split; [exact R|]. repeat split; try reflexivity.
intros H.
assert (N : render (component s2) = None).
{ apply H; [exact R|]. right. exists sb_point. split; [reflexivity|]. left. reflexivity. }
vm_compute in N. discriminate.
Qed.

Lemma updateMinimap_failure_is_logged_and_contained_witness :
let t := mkTimer 1 300 [1%nat] appState0 in
let s := mkSystem (component0 (Some canvas_75x150)) (mkBrowser 300 2 []) [] in
sceneBounds bounds_300x600 (captured_elements t) = Some sb_300x600 /\
(exists e, export_throws (export_args bounds_300x600 [1%nat] appState0 sb_300x600) = Throw e) /\
(exists cv, export_empty (export_args bounds_300x600 [1%nat] appState0 sb_300x600)
            = Normal (Some cv) /\
            (canvas_width cv >? lit 0) && (canvas_height cv >? lit 0) = false) /\
(exists effects,
    updateMinimap bounds_300x600 export_throws [1%nat] appState0 (Some canvas_75x150)
    = (Normal tt, None, effects) /\ logged effects = true /\ export_calls effects = 1%nat) /\
minimapCanvas (component (fire bounds_300x600 export_throws t s)) = None /\
render (component (fire bounds_300x600 export_throws t s)) = None /\
browser (fire bounds_300x600 export_throws t s) = browser s /\
minimapCanvas (component (fire bounds_300x600 export_empty t s)) = None /\
render (component (fire bounds_300x600 export_empty t s)) = None /\
browser (fire bounds_300x600 export_empty t s) = browser s.
Proof.
intros t s.
assert (Hsb : sceneBounds bounds_300x600 (captured_elements t) = Some sb_300x600)
  by reflexivity.
assert (T : exists e, export_throws (export_args bounds_300x600 [1%nat] appState0 sb_300x600)
                      = Throw e) by (eexists; reflexivity).
assert (E : exists cv, export_empty (export_args bounds_300x600 [1%nat] appState0 sb_300x600)
                       = Normal (Some cv) /\
                       (canvas_width cv >? lit 0) && (canvas_height cv >? lit 0) = false)
  by (eexists; split; reflexivity).
destruct (@updateMinimap_failure_is_logged_and_contained
            Element Rest bounds_300x600 export_throws t s sb_300x600
            Hsb eq_refl eq_refl (or_introl T))
  as (effects & Hu & Hlog & Hcalls & _ & Hc & Hr & Hb & _).
destruct (@updateMinimap_failure_is_logged_and_contained
            Element Rest bounds_300x600 export_empty t s sb_300x600
            Hsb eq_refl eq_refl (or_intror (or_intror E)))
  as (effects' & _ & _ & _ & _ & Hc' & Hr' & Hb' & _).
split; [exact Hsb|]. split; [exact T|]. split; [exact E|].
split; [exists effects; split; [exact Hu|]; split; [exact Hlog | exact Hcalls]|].
split; [exact Hc|]. split; [exact Hr|]. split; [exact Hb|].
split; [exact Hc'|]. split; [exact Hr'|]. exact Hb'.
Defined.


Lemma handleGlobalMouseMove_clamps_witness :
let grab := mkMouseEvent (lit 30) (lit 25) true in
let c := handleMinimapMouseDown grab (component0 (Some canvas_75x150)) in
let far := mkMouseEvent (lit 5000) (lit (-40)) false in
let p := minimapPosition (appState (handleGlobalMouseMove window_1024x768 far c)) in
isDraggingMinimapRef c = true /\
(220 <= 1024)%Q /\ (220 <= 768)%Q /\
exists x y : Q,
  pt_x p = Fin x /\ pt_y p = Fin y /\
  (10 <= x)%Q /\ (x <= 1024 - 210)%Q /\ (10 <= y)%Q /\ (y <= 768 - 210)%Q.
Proof.
intros grab c far p.
assert (Hd : isDraggingMinimapRef c = true) by reflexivity.
assert (LW : (220 <= 1024)%Q) by (vm_compute; discriminate).
assert (LH : (220 <= 768)%Q) by (vm_compute; discriminate).
split; [exact Hd|]. split; [exact LW|]. split; [exact LH|].
exact (@handleGlobalMouseMove_clamps Element Rest window_1024x768 far c 1024 768
         Hd eq_refl eq_refl eq_refl eq_refl LW LH).
Defined.

Lemma debounce_single_timer_witness :
let s := mount (@nil Element) appState0 in
let s1 := step bounds_300x600 export_ok (HostChange [1%nat] appState0) s in
reachable bounds_300x600 export_ok s /\
timers (browser s1) = [mkTimer 1 300 [1%nat] appState0] /\
timers (browser (step bounds_300x600 export_ok (Elapse 299) s1))
= [mkTimer 1 300 [1%nat] appState0] /\
history (step bounds_300x600 export_ok (Elapse 299) s1) = [] /\
timers (browser (step bounds_300x600 export_ok (Elapse 300) s1)) = [] /\
minimapCanvas (component (step bounds_300x600 export_ok (Elapse 300) s1))
= Some canvas_75x150.
Proof.
intros s s1.
assert (R : reachable bounds_300x600 export_ok s) by apply reachable_mount.
destruct (debounce_single_timer R) as (_ & Harm & _).
destruct (Harm [1%nat] appState0 eq_refl ltac:(discriminate))
  as (_ & Ht & _ & _ & Hquiet & Hfire).
destruct (Hquiet 299%nat ltac:(unfold DEBOUNCE_DELAY; lia)) as (Hq1 & Hq2 & _).
destruct (Hfire 300%nat ltac:(unfold DEBOUNCE_DELAY; lia))
  as (cell & effects & Hu & _ & _ & Hcell & Hnone).
split; [exact R|]. split; [exact Ht|]. split; [exact Hq1|]. split; [exact Hq2|].
split; [exact Hnone|].
transitivity cell; [exact Hcell|].
vm_compute in Hu. injection Hu as <- _. reflexivity.
Defined.

(** C8, as it is stated, on a scene that is emptied.  At time 0 an element
    appears and the timer is armed for time 300.  At time 100 the
    collection becomes empty: the effect clears the preview, and the timer
    stays due at 300, not at 400.  At time 300 it runs [updateMinimap],
    which calls the export routine, 200 milliseconds after the last
    change. *)
Lemma change_to_empty_scene_does_not_rearm :
let step := step bounds_300x600 export_ok in
let s0 := mount (@nil Element) appState0 in
let s1 := step (HostChange [1%nat] appState0) s0 in
let s2 := step (HostChange [] appState0) (step (Elapse 100) s1) in
let s3 := step (Elapse 200) s2 in
map (@due _ _) (timers (browser s1)) = [300%nat] /\
now (browser s2) = 100%nat /\
map (@due _ _) (timers (browser s2)) = [300%nat] /\
now (browser s3) = 300%nat /\
export_calls (map snd (history s3)) = 1%nat /\
map fst (history s3) = [300%nat; 300%nat] /\
~ (forall (s : System Element Rest) els a,
      reachable bounds_300x600 export_ok s ->
      exists t, timers (browser (step (HostChange els a) s)) = [t] /\
                due t = (now (browser s) + DEBOUNCE_DELAY)%nat).
Proof.
cbv zeta. repeat split; try reflexivity.
intros H.
destruct (H (step bounds_300x600 export_ok (Elapse 100)
               (step bounds_300x600 export_ok (HostChange [1%nat] appState0)
                  (mount (@nil Element) appState0)))
            [] appState0) as (t & Ht & Hdue).
{ do 2 apply reachable_step. apply reachable_mount. }
vm_compute in Ht. injection Ht as <-. vm_compute in Hdue. discriminate.
Qed.


(* ------------------------------------------------------------------ *)
(** ** The further properties on concrete scenes *)

Lemma minimapScale_is_preview_over_longer_side_witness :
sceneBounds bounds_300x600 [1%nat] = Some sb_300x600 /\
(150 <= 600)%Q /\
minimapScale bounds_300x600 [1%nat] =n= MINIMAP_SIZE / Math_max [lit 300; lit 600] /\
minimapScale bounds_300x600 [1%nat] =n= Fin (1 # 4).
Proof.
assert (Hsb : sceneBounds bounds_300x600 [1%nat] = Some sb_300x600) by reflexivity.
assert (L : (150 <= 600)%Q) by discriminate.
split; [exact Hsb|]. split; [exact L|].
destruct (@minimapScale_is_preview_over_longer_side Element bounds_300x600 [1%nat]
            sb_300x600 300 600 Hsb eq_refl eq_refl eq_refl eq_refl) as (_ & Hlong & _).
split; [exact (Hlong (or_intror L)) | reflexivity].
Defined.

Lemma drawEffect_centres_bitmap_witness :
let c := component0 (Some canvas_75x150) in
minimapCanvas c = Some canvas_75x150 /\ canvasRef c = Some rect0 /\
(0 < 75)%Q /\ (0 < 150)%Q /\ (75 <= 150)%Q /\
exists ox oy : Q,
  nth_error (drawEffect bounds_300x600 false c) 1
  = Some (DrawImage canvas_75x150 (Fin ox) (Fin oy)) /\
  ox + 75 + ox == 150 /\ oy == 0.
Proof.
intros c.
assert (Hc : minimapCanvas c = Some canvas_75x150) by reflexivity.
assert (Hr : canvasRef c = Some rect0) by reflexivity.
assert (Lw : (0 < 75)%Q) by reflexivity.
assert (Lh : (0 < 150)%Q) by reflexivity.
assert (B : (75 <= 150)%Q) by (vm_compute; discriminate).
split; [exact Hc|]. split; [exact Hr|]. split; [exact Lw|]. split; [exact Lh|].
split; [exact B|].
destruct (@drawEffect_centres_bitmap Element Rest bounds_300x600 c canvas_75x150 rect0
            75 150 Hc Hr eq_refl eq_refl Lw Lh) as (ox & oy & Hd & Hx & _ & _ & Hy).
exists ox, oy. split; [exact Hd|]. split; [exact (Hx B) | apply Hy; apply Qle_refl].
Defined.

Lemma viewportRect_size_witness :
let c := component0 (Some canvas_75x150) in
minimapCanvas c = Some canvas_75x150 /\
sceneBounds bounds_300x600 (elements c) = Some sb_300x600 /\
finite_appState (appState c) = true /\ finite_bounds sb_300x600 = true /\
exists r : Rect,
  viewportRect bounds_300x600 c = Some r /\
  rect_width r =n= lit 800 / lit 1 * minimapScale bounds_300x600 [1%nat] /\
  rect_height r =n= lit 600 / lit 1 * minimapScale bounds_300x600 [1%nat].
Proof.
intros c.
assert (Hc : minimapCanvas c = Some canvas_75x150) by reflexivity.
assert (Hsb : sceneBounds bounds_300x600 (elements c) = Some sb_300x600) by reflexivity.
split; [exact Hc|]. split; [exact Hsb|]. split; [reflexivity|]. split; [reflexivity|].
exact (@viewportRect_size Element Rest bounds_300x600 c canvas_75x150 sb_300x600
         Hc Hsb eq_refl eq_refl).
Defined.

Lemma click_centres_indicator_witness :
let c := component0 (Some canvas_75x150) in
minimapCanvas c = Some canvas_75x150 /\
sceneBounds bounds_300x600 (elements c) = Some sb_300x600 /\
canvasRef c = Some rect0 /\
exists r : Rect,
  viewportRect bounds_300x600 (handleCanvasMouseDown bounds_300x600 move_to_80_70 c) = Some r /\
  rect_x r + centeringOffset (lit 75) + rect_width r / lit 2 =n= lit 80 - lit 0 /\
  rect_y r + centeringOffset (lit 150) + rect_height r / lit 2 =n= lit 70 - lit 0.
Proof.
intros c.
assert (Hc : minimapCanvas c = Some canvas_75x150) by reflexivity.
assert (Hsb : sceneBounds bounds_300x600 (elements c) = Some sb_300x600) by reflexivity.
assert (Hr : canvasRef c = Some rect0) by reflexivity.
split; [exact Hc|]. split; [exact Hsb|]. split; [exact Hr|].
exact (@click_centres_indicator Element Rest bounds_300x600 move_to_80_70 c canvas_75x150
         sb_300x600 rect0 Hc Hsb Hr eq_refl eq_refl eq_refl eq_refl eq_refl).
Defined.


Lemma mouse_down_then_move_is_mouse_down_at_end_witness :
let c := component0 (Some canvas_75x150) in
let dragged :=
  handleCanvasMouseMove bounds_300x600 move_to_80_70
    (handleCanvasMouseDown bounds_300x600 click_center c) in
let clicked := handleCanvasMouseDown bounds_300x600 move_to_80_70 c in
minimapCanvas c = Some canvas_75x150 /\
sceneBounds bounds_300x600 (elements c) = Some sb_300x600 /\
canvasRef c = Some rect0 /\
scrollX (appState dragged) =n= scrollX (appState clicked) /\
scrollY (appState dragged) =n= scrollY (appState clicked) /\
dragStartRef dragged = dragStartRef clicked /\
isDraggingRef dragged = isDraggingRef clicked.
Proof.
intros c dragged clicked.
assert (Hc : minimapCanvas c = Some canvas_75x150) by reflexivity.
assert (Hsb : sceneBounds bounds_300x600 (elements c) = Some sb_300x600) by reflexivity.
assert (Hr : canvasRef c = Some rect0) by reflexivity.
split; [exact Hc|]. split; [exact Hsb|]. split; [exact Hr|].
exact (@mouse_down_then_move_is_mouse_down_at_end Element Rest bounds_300x600
         click_center move_to_80_70 c canvas_75x150 sb_300x600 rect0
         Hc Hsb Hr eq_refl eq_refl eq_refl eq_refl eq_refl eq_refl).
Defined.

Lemma two_moves_compose_only_across_renders_witness :
let c := component_dragging in
let once := handleCanvasMouseMove bounds_300x600 move_to_90_40 c in
let rendered_between :=
  handleCanvasMouseMove bounds_300x600 move_to_90_40
    (handleCanvasMouseMove bounds_300x600 move_to_80_70 c) in
let one_render :=
  handleCanvasMouseMove_closure bounds_300x600 c move_to_90_40
    (handleCanvasMouseMove_closure bounds_300x600 c move_to_80_70 c) in
isDraggingRef c = true /\
minimapCanvas c = Some canvas_75x150 /\
sceneBounds bounds_300x600 (elements c) = Some sb_300x600 /\
canvasRef c = Some rect0 /\
scrollX (appState once) =n= lit (-60) /\
scrollY (appState once) =n= lit 140 /\
scrollX (appState rendered_between) =n= scrollX (appState once) /\
scrollY (appState rendered_between) =n= scrollY (appState once) /\
scrollX (appState one_render) =n= lit (-40) /\
scrollY (appState one_render) =n= lit 120 /\
scrollX (appState one_render)
=n= scrollX (appState once)
    + (lit 80 - lit 75) / minimapScale bounds_300x600 [1%nat] /\
scrollY (appState one_render)
=n= scrollY (appState once)
    + (lit 70 - lit 75) / minimapScale bounds_300x600 [1%nat].
Proof.
intros c once rendered_between one_render.
assert (Hd : isDraggingRef c = true) by reflexivity.
assert (Hc : minimapCanvas c = Some canvas_75x150) by reflexivity.
assert (Hsb : sceneBounds bounds_300x600 (elements c) = Some sb_300x600) by reflexivity.
assert (Hr : canvasRef c = Some rect0) by reflexivity.
destruct (@two_moves_compose_only_across_renders
            Element Rest bounds_300x600 move_to_80_70 move_to_90_40 c
            canvas_75x150 sb_300x600 rect0 Hd Hc Hsb Hr
            eq_refl eq_refl eq_refl eq_refl eq_refl)
  as ((Hx & Hy & _) & _ & (Lx & Ly)).
split; [exact Hd|]. split; [exact Hc|]. split; [exact Hsb|]. split; [exact Hr|].
split; [reflexivity|]. split; [reflexivity|].
split; [exact Hx|]. split; [exact Hy|].
split; [reflexivity|]. split; [reflexivity|].
split; [exact Lx | exact Ly].
Defined.

Lemma header_drag_translates_widget_witness :
let c := component0 (Some canvas_75x150) in
let p' :=
  minimapPosition
    (appState (handleGlobalMouseMove window_1024x768 move_to_80_70
                 (handleMinimapMouseDown grab_header c))) in
onHeader grab_header = true /\
minimapPosition (appState c) = mkPoint (Fin 20) (Fin 20) /\
exists x y : Q,
  p' = mkPoint (Fin x) (Fin y) /\
  x == Qmax 10 (Qmin (20 + (80 - 30)) (1024 - 210)) /\
  y == Qmax 10 (Qmin (20 + (70 - 25)) (768 - 210)).
Proof.
intros c p'.
assert (Hh : onHeader grab_header = true) by reflexivity.
assert (Hp : minimapPosition (appState c) = mkPoint (Fin 20) (Fin 20)) by reflexivity.
split; [exact Hh|]. split; [exact Hp|].
destruct (@header_drag_translates_widget Element Rest window_1024x768 grab_header
            move_to_80_70 c 20 20 30 25 80 70 1024 768
            Hh Hp eq_refl eq_refl eq_refl eq_refl eq_refl eq_refl)
  as (x & y & Hpos & Hx & Hy & _).
exists x, y. split; [exact Hpos|]. split; [exact Hx | exact Hy].
Defined.

Lemma handleGlobalMouseMove_pins_in_narrow_window_witness :
let c := component_header_dragging in
let p := minimapPosition (appState (handleGlobalMouseMove window_200x150 move_to_80_70 c)) in
isDraggingMinimapRef c = true /\
(200 < 220)%Q /\ (150 < 220)%Q /\
pt_x p =n= lit 10 /\ pt_y p =n= lit 10.
Proof.
intros c p.
assert (Hd : isDraggingMinimapRef c = true) by reflexivity.
assert (LW : (200 < 220)%Q) by reflexivity.
assert (LH : (150 < 220)%Q) by reflexivity.
split; [exact Hd|]. split; [exact LW|]. split; [exact LH|].
destruct (@handleGlobalMouseMove_pins_in_narrow_window Element Rest window_200x150
            move_to_80_70 c Hd) as [Hx Hy].
split; [exact (Hx 200%Q eq_refl LW eq_refl) | exact (Hy 150%Q eq_refl LH eq_refl)].
Defined.

Lemma header_handlers_frame_witness :
let c := component0 (Some canvas_75x150) in
onHeader click_center = false /\
handleMinimapMouseDown click_center c = c /\
handleGlobalMouseMove window_1024x768 move_to_80_70
  (handleGlobalMouseUp component_header_dragging)
= handleGlobalMouseUp component_header_dragging.
Proof.
intros c.
assert (Hh : onHeader click_center = false) by reflexivity.
split; [exact Hh|].
destruct (@header_handlers_frame Element Rest window_1024x768 click_center c)
  as ((_ & _ & _ & Hid) & _ & _).
split; [exact (Hid Hh)|].
exact (proj2 (proj2 (@header_handlers_frame Element Rest window_1024x768 move_to_80_70
                       component_header_dragging))).
Defined.


Lemma legacy_updateMinimap_outcome_witness :
exists (cell' : option Canvas) (effects : list (Effect Element Rest)),
  legacy_updateMinimap bounds_300x600 export_ok [] appState0 (Some canvas_75x150)
  = (Normal tt, cell', effects) /\
  cell' = Some canvas_75x150 /\ effects = [].
Proof.
destruct (@legacy_updateMinimap_outcome Element Rest bounds_300x600 export_ok []
            appState0 (Some canvas_75x150)) as (cell' & effects & Hu & _ & _ & Hempty).
exists cell', effects. split; [exact Hu|]. exact (Hempty eq_refl).
Defined.

(** The widget 300 milliseconds after one element has appeared. *)
Lemma reachable_bitmap_valid_witness :
let s :=
  run bounds_300x600 export_ok [HostChange [1%nat] appState0; Elapse 300]
      (mount (@nil Element) appState0) in
reachable bounds_300x600 export_ok s /\
bitmap_valid (minimapCanvas (component s)) = true /\
minimapCanvas (component s) = Some canvas_75x150 /\
render (component s) <> None.
Proof.
intros s.
assert (R : reachable bounds_300x600 export_ok s)
  by (do 2 apply reachable_step; apply reachable_mount).
destruct (reachable_bitmap_valid R) as [V Hrender].
split; [exact R|]. split; [exact V|]. split; [reflexivity|].
intros Hnone. apply Hrender in Hnone.
destruct Hnone as [H|[H|H]]; discriminate.
Defined.

Lemma reachable_timers_due_within_delay_witness :
let s :=
  run bounds_300x600 export_ok [HostChange [1%nat] appState0; Elapse 120]
      (mount (@nil Element) appState0) in
let t := mkTimer 1 300 [1%nat] appState0 in
reachable bounds_300x600 export_ok s /\
In t (timers (browser s)) /\
(now (browser s) < due t)%nat /\
(due t <= now (browser s) + DEBOUNCE_DELAY)%nat /\
(timer_id t < next_id (browser s))%nat.
Proof.
intros s t.
assert (R : reachable bounds_300x600 export_ok s)
  by (do 2 apply reachable_step; apply reachable_mount).
assert (I : In t (timers (browser s))) by (left; reflexivity).
split; [exact R|]. split; [exact I|].
exact (reachable_timers_due_within_delay R t I).
Defined.

Lemma degenerate_scene_is_cleared_after_delay_witness :
let s :=
  run bounds_point export_ok [HostChange [1%nat] appState0]
      (mount (@nil Element) appState0) in
let s2 := run bounds_point export_ok [HostChange [2%nat] appState0; Elapse 300] s in
reachable bounds_point export_ok s /\
showMinimap appState0 = true /\
sceneBounds bounds_point [2%nat] = Some sb_point /\
(bounds_width sb_point <=? lit 0) = true /\
(DEBOUNCE_DELAY <= 300)%nat /\
minimapCanvas (component s2) = None /\
render (component s2) = None /\
timers (browser s2) = [] /\
history s2 = history s ++ [((now (browser s) + DEBOUNCE_DELAY)%nat, SetMinimapCanvas None)].
Proof.
intros s s2.
assert (R : reachable bounds_point export_ok s)
  by (apply reachable_step; apply reachable_mount).
assert (Hshow : showMinimap appState0 = true) by reflexivity.
assert (Hsb : sceneBounds bounds_point [2%nat] = Some sb_point) by reflexivity.
assert (Hw : (bounds_width sb_point <=? lit 0) = true) by reflexivity.
assert (Hdt : (DEBOUNCE_DELAY <= 300)%nat) by (unfold DEBOUNCE_DELAY; lia).
split; [exact R|]. split; [exact Hshow|]. split; [exact Hsb|]. split; [exact Hw|].
split; [exact Hdt|].
exact (@degenerate_scene_is_cleared_after_delay Element Rest bounds_point export_ok s
         [2%nat] appState0 sb_point 300 R Hshow Hsb (or_introl Hw) Hdt).
Defined.

Lemma pending_refresh_survives_hiding_witness :
let s := mount (@nil Element) appState0 in
let s3 :=
  run bounds_300x600 export_ok
      [HostChange [1%nat] appState0; Elapse 100; HostChange [] appState0; Elapse 200] s in
reachable bounds_300x600 export_ok s /\
(100 < DEBOUNCE_DELAY)%nat /\ (DEBOUNCE_DELAY <= 100 + 200)%nat /\
exists (cell : option Canvas) (effects : list (Effect Element Rest)),
  updateMinimap bounds_300x600 export_ok [1%nat] appState0 None = (Normal tt, cell, effects) /\
  history s3
  = history s ++ map (fun e => ((now (browser s) + DEBOUNCE_DELAY)%nat, e)) effects /\
  minimapCanvas (component s3) = cell /\
  render (component s3) = None.
Proof.
intros s s3.
assert (R : reachable bounds_300x600 export_ok s) by apply reachable_mount.
assert (L1 : (100 < DEBOUNCE_DELAY)%nat) by (unfold DEBOUNCE_DELAY; lia).
assert (L2 : (DEBOUNCE_DELAY <= 100 + 200)%nat) by (unfold DEBOUNCE_DELAY; lia).
assert (Hne : [1%nat] <> []) by discriminate.
split; [exact R|]. split; [exact L1|]. split; [exact L2|].
exact (@pending_refresh_survives_hiding Element Rest bounds_300x600 export_ok s
         [1%nat] [] appState0 appState0 100 200 R eq_refl Hne (or_intror eq_refl) L1 L2).
Defined.

Lemma burst_of_changes_regenerates_nothing_witness :
let s := mount (@nil Element) appState0 in
let changes := [(100%nat, ([1%nat; 2%nat], appState0)); (250%nat, ([2%nat], appState0))] in
let s' := run bounds_300x600 export_ok (HostChange [1%nat] appState0 :: burst changes) s in
reachable bounds_300x600 export_ok s /\
history s' = history s /\
minimapCanvas (component s') = minimapCanvas (component s) /\
exists id : nat,
  timers (browser s')
  = [mkTimer id (now (browser s') + DEBOUNCE_DELAY)
             (elements (component s')) (appState (component s'))].
Proof.
intros s changes s'.
assert (R : reachable bounds_300x600 export_ok s) by apply reachable_mount.
assert (Hne : [1%nat] <> []) by discriminate.
assert (Hall : Forall (fun x : nat * (list Element * AppState Rest) =>
                         (fst x < DEBOUNCE_DELAY)%nat /\
                         showMinimap (snd (snd x)) = true /\ fst (snd x) <> []) changes).
{ unfold changes, DEBOUNCE_DELAY. repeat constructor; cbn; try lia; discriminate. }
split; [exact R|].
exact (@burst_of_changes_regenerates_nothing Element Rest bounds_300x600 export_ok s
         [1%nat] appState0 changes R eq_refl Hne Hall).
Defined.

Lemma collaboratorBox_is_shifted_indicator_witness :
let c := component0 (Some canvas_75x150) in
minimapCanvas c = Some canvas_75x150 /\
sceneBounds bounds_300x600 (elements c) = Some sb_300x600 /\
(0 < 75)%Q /\ (0 < 150)%Q /\
exists (box : Box) (r : Rect),
  collaboratorBox bounds_300x600 (Some pointer0) c = Some box /\
  viewportRect bounds_300x600 c = Some r /\
  box_width box =n= rect_width r /\
  box_height box =n= rect_height r.
Proof.
intros c.
assert (Hc : minimapCanvas c = Some canvas_75x150) by reflexivity.
assert (Hsb : sceneBounds bounds_300x600 (elements c) = Some sb_300x600) by reflexivity.
assert (Lw : (0 < 75)%Q) by reflexivity.
assert (Lh : (0 < 150)%Q) by reflexivity.
split; [exact Hc|]. split; [exact Hsb|]. split; [exact Lw|]. split; [exact Lh|].
destruct (@collaboratorBox_is_shifted_indicator Element Rest bounds_300x600 pointer0 c
            canvas_75x150 sb_300x600 75 150 Hc Hsb eq_refl eq_refl Lw Lh
            eq_refl eq_refl eq_refl) as (box & r & Hb & Hv & Hw & Hh & _).
exists box, r. auto.
Defined.

Lemma failed_refresh_clears_preview_and_is_not_retried_witness :
let s := mount (@nil Element) appState0 in
let s2 := run bounds_300x600 export_throws [HostChange [1%nat] appState0; Elapse 300] s in
reachable bounds_300x600 export_throws s /\
sceneBounds bounds_300x600 [1%nat] = Some sb_300x600 /\
(exists e, export_throws (export_args bounds_300x600 [1%nat] appState0 sb_300x600) = Throw e) /\
exists effects : list (Effect Element Rest),
  history s2
  = history s ++ map (fun e => ((now (browser s) + DEBOUNCE_DELAY)%nat, e)) effects /\
  logged effects = true /\
  export_calls effects = 1%nat /\
  minimapCanvas (component s2) = None /\
  render (component s2) = None /\
  timers (browser s2) = [] /\
  history (step bounds_300x600 export_throws (Elapse 5000) s2) = history s2 /\
  component (step bounds_300x600 export_throws (Elapse 5000) s2) = component s2.
Proof.
intros s s2.
assert (R : reachable bounds_300x600 export_throws s) by apply reachable_mount.
assert (Hsb : sceneBounds bounds_300x600 [1%nat] = Some sb_300x600) by reflexivity.
assert (Hthrow : exists e, export_throws (export_args bounds_300x600 [1%nat] appState0
                                            sb_300x600) = Throw e)
  by (eexists; reflexivity).
assert (Hdt : (DEBOUNCE_DELAY <= 300)%nat) by (unfold DEBOUNCE_DELAY; lia).
split; [exact R|]. split; [exact Hsb|]. split; [exact Hthrow|].
exact (@failed_refresh_clears_preview_and_is_not_retried Element Rest bounds_300x600
         export_throws s [1%nat] appState0 sb_300x600 300 5000
         R eq_refl Hsb eq_refl eq_refl (or_introl Hthrow) Hdt).
Defined.

Lemma manualChunks_names_chunk_after_first_locales_witness :
let id := "/srv/app/packages/excalidraw/locales/fr-FR.json"%string in
ViteConfig.first_at "locales/" id (String.length "/srv/app/packages/excalidraw/") = true /\
ViteConfig.includes "packages/excalidraw/locales" id = true /\
ViteConfig.regex_found ViteConfig.en_or_percentages id = false /\
ViteConfig.manualChunks id = Some "locales/fr-FR.json"%string.
Proof.
intros id.
assert (H1 : ViteConfig.first_at "locales/" id
               (String.length "/srv/app/packages/excalidraw/") = true) by reflexivity.
assert (H2 : ViteConfig.includes "packages/excalidraw/locales" id = true) by reflexivity.
assert (H3 : ViteConfig.regex_found ViteConfig.en_or_percentages id = false) by reflexivity.
split; [exact H1|]. split; [exact H2|]. split; [exact H3|].
exact (@manualChunks_names_chunk_after_first_locales
         "/srv/app/packages/excalidraw/" "fr-FR.json" H1 H2 H3).
Defined.

Lemma manualChunks_keeps_en_and_percentages_witness :
ViteConfig.is_line_terminator "."%char = false /\
ViteConfig.manualChunks "/srv/app/packages/excalidraw/locales/en.json" = None /\
ViteConfig.manualChunks "/srv/app/packages/excalidraw/locales/percentages.json" = None.
Proof.
assert (H : ViteConfig.is_line_terminator "."%char = false) by reflexivity.
split; [exact H|].
exact (@manualChunks_keeps_en_and_percentages
         "/srv/app/packages/excalidraw/locales/" "" "."%char H).
Defined.

Lemma manualChunks_without_locales_slash_witness :
let id := "/srv/app/packages/excalidraw/locales.ts"%string in
ViteConfig.includes "packages/excalidraw/locales" id = true /\
ViteConfig.regex_found ViteConfig.en_or_percentages id = false /\
ViteConfig.includes "locales/" id = false /\
ViteConfig.manualChunks id = Some "locales/p/packages/excalidraw/locales.ts"%string.
Proof.
intros id.
assert (H1 : ViteConfig.includes "packages/excalidraw/locales" id = true) by reflexivity.
assert (H2 : ViteConfig.regex_found ViteConfig.en_or_percentages id = false) by reflexivity.
assert (H3 : ViteConfig.includes "locales/" id = false) by reflexivity.
split; [exact H1|]. split; [exact H2|]. split; [exact H3|].
exact (@manualChunks_without_locales_slash id H1 H2 H3).
Defined.

Lemma assetFileNames_font_family_witness :
ViteConfig.without "-" "Virgil" = true /\
ViteConfig.assetFileNames (Some "Virgil-Regular.woff2"%string)
= "fonts/Virgil/[name][extname]"%string /\
ViteConfig.without "-" "Cascadia" = true /\
ViteConfig.assetFileNames (Some "Cascadia.woff2"%string)
= "fonts/Cascadia.woff2/[name][extname]"%string.
Proof.
assert (H1 : ViteConfig.without "-" "Virgil" = true) by reflexivity.
assert (H2 : ViteConfig.without "-" "Cascadia" = true) by reflexivity.
split; [exact H1|].
split; [exact (proj1 (proj2 (proj2 (@assetFileNames_font_family "Virgil-Regular")))
                 "Virgil"%string "Regular"%string eq_refl H1)|].
split; [exact H2|].
exact (proj2 (proj2 (proj2 (@assetFileNames_font_family "Cascadia"))) H2).
Defined.
